(** * tap-jsonplaceholder: the analyzer and the tap's record streams

    A shallow embedding of [data_analyzer.py] (class
    [JSONPlaceholderAnalyzer]), [tap_jsonplaceholder/streams.py] and
    [tap_jsonplaceholder/validators.py], followed by the properties
    of the specification that concern them.

    Conventions of the embedding.
    - A decoded JSON document is a [value].  JSON numbers are taken
      to be integers (the schemas of the three streams declare every
      numeric field as an integer).
    - A Python [str] is a [string] whose characters are code points
      below 256; [lower], [isspace] follow Python on that range.
    - An exception is a [Raise] in the [result] monad, with the class
      Python raises.
    - A [dict] is an association list in insertion order; keys are
      compared the way Python compares them ([True == 1]).
    - [/] on two ints is kept as the exact rational; Python rounds it
      to the nearest double. *)

From Stdlib Require Import List ZArith String Ascii Bool Lia QArith Arith.
From Stdlib Require Import DecimalString Sorting.Sorted Sorting.Permutation.
Import ListNotations.

Set Warnings "-register-all".

Local Open Scope string_scope.
Local Open Scope nat_scope.

(** ** Exceptions *)

Inductive exn : Type :=
| JSONDecodeError
| KeyError
| TypeError
| AttributeError
| ValueError
| StatisticsError
| ZeroDivisionError.

Inductive result (A : Type) : Type :=
| Ok (a : A)
| Raise (e : exn).

Arguments Ok {A} a.
Arguments Raise {A} e.

Definition bind {A B : Type} (c : result A) (k : A -> result B) : result B :=
  match c with
  | Ok a => k a
  | Raise e => Raise e
  end.

Notation "x <- c ;; k" := (bind c (fun x => k))
  (at level 61, c at next level, right associativity).
Notation "' p <- c ;; k" := (bind c (fun x => match x with p => k end))
  (at level 61, p pattern, c at next level, right associativity).

(** [for x in l: acc = f acc x], leaving at the first exception. *)
Fixpoint foldM {A B : Type} (f : A -> B -> result A) (l : list B) (a : A)
  : result A :=
  match l with
  | [] => Ok a
  | x :: l' => a' <- f a x ;; foldM f l' a'
  end.

Fixpoint mapM {A B : Type} (f : A -> result B) (l : list A) : result (list B) :=
  match l with
  | [] => Ok []
  | x :: l' => y <- f x ;; ys <- mapM f l' ;; Ok (y :: ys)
  end.

(** ** Python strings *)

Module PyStr.

Definition code (c : ascii) : nat := nat_of_ascii c.

(** [str.isspace] on one character. *)
Definition is_space (c : ascii) : bool :=
  let n := code c in
  ((9 <=? n) && (n <=? 13)) || ((28 <=? n) && (n <=? 32))
  || (n =? 133) || (n =? 160).

(** [str.lower] on one character. *)
Definition lower_char (c : ascii) : ascii :=
  let n := code c in
  if ((65 <=? n) && (n <=? 90))
     || ((192 <=? n) && (n <=? 222) && negb (n =? 215))
  then ascii_of_nat (n + 32) else c.

Fixpoint lower (s : string) : string :=
  match s with
  | EmptyString => EmptyString
  | String c s' => String (lower_char c) (lower s')
  end.

Definition is_empty (s : string) : bool :=
  match s with EmptyString => true | _ => false end.

(** [s.split()]: the maximal runs of non-whitespace characters.
    [cur] is the run being read. *)
Fixpoint split_from (cur : string) (s : string) : list string :=
  match s with
  | EmptyString => if is_empty cur then [] else [cur]
  | String c s' =>
      if is_space c
      then (if is_empty cur then split_from "" s' else cur :: split_from "" s')
      else split_from (cur ++ String c "") s'
  end.

Definition split (s : string) : list string := split_from "" s.

(** [s.split(sep)] for a one-character separator: never empty. *)
Fixpoint split_on (sep : ascii) (s : string) : list string :=
  match s with
  | EmptyString => [""]
  | String c s' =>
      let r := split_on sep s' in
      if Ascii.eqb c sep then "" :: r
      else match r with
           | h :: t => String c h :: t
           | [] => [String c ""]
           end
  end.

Fixpoint lstrip (s : string) : string :=
  match s with
  | EmptyString => EmptyString
  | String c s' => if is_space c then lstrip s' else s
  end.

Fixpoint rstrip (s : string) : string :=
  match s with
  | EmptyString => EmptyString
  | String c s' =>
      let r := rstrip s' in
      if is_empty r && is_space c then EmptyString else String c r
  end.

Definition strip (s : string) : string := rstrip (lstrip s).

(** [w in s] for two strings. *)
Fixpoint contains (w s : string) : bool :=
  prefix w s
  || match s with
     | EmptyString => false
     | String _ s' => contains w s'
     end.

(** [c in s] for a character. *)
Fixpoint has_char (c : ascii) (s : string) : bool :=
  match s with
  | EmptyString => false
  | String c' s' => Ascii.eqb c c' || has_char c s'
  end.

(** [str(z)] for an int. *)
Definition of_Z (z : Z) : string := NilZero.string_of_int (Z.to_int z).

End PyStr.

(** ** JSON values and dictionaries *)

Inductive value : Type :=
| VNone
| VBool (b : bool)
| VInt (z : Z)
| VStr (s : string)
| VList (l : list value)
| VDict (d : list (string * value)).

(** Lookup in the items of a [dict] whose keys are strings. *)
Fixpoint assoc {V : Type} (k : string) (d : list (string * V)) : option V :=
  match d with
  | [] => None
  | (k', v) :: d' => if String.eqb k k' then Some v else assoc k d'
  end.

(** [d[k] = v] on such a dict: in place when the key is there, at the
    end otherwise. *)
Fixpoint assoc_set {V : Type} (k : string) (v : V) (d : list (string * V))
  : list (string * V) :=
  match d with
  | [] => [(k, v)]
  | (k', v') :: d' =>
      if String.eqb k k' then (k', v) :: d' else (k', v') :: assoc_set k v d'
  end.

(** [v[k]] for a string [k]. *)
Definition getitem (v : value) (k : string) : result value :=
  match v with
  | VDict d => match assoc k d with
               | Some x => Ok x
               | None => Raise KeyError
               end
  | _ => Raise TypeError
  end.

(** The hashable values, which are the ones a dict takes as keys. *)
Inductive hkey : Type :=
| KNone
| KBool (b : bool)
| KInt (z : Z)
| KStr (s : string).

Definition py_hash (v : value) : result hkey :=
  match v with
  | VNone => Ok KNone
  | VBool b => Ok (KBool b)
  | VInt z => Ok (KInt z)
  | VStr s => Ok (KStr s)
  | VList _ | VDict _ => Raise TypeError
  end.

Definition value_of_key (k : hkey) : value :=
  match k with
  | KNone => VNone
  | KBool b => VBool b
  | KInt z => VInt z
  | KStr s => VStr s
  end.

(** [True == 1] and [False == 0], with equal hashes. *)
Definition norm_key (k : hkey) : hkey :=
  match k with
  | KBool b => KInt (Z.b2z b)
  | _ => k
  end.

Definition hkey_eq_dec (a b : hkey) : {a = b} + {a <> b}.
Proof.
  decide equality.
  - apply bool_dec.
  - apply Z.eq_dec.
  - apply string_dec.
Defined.

Definition key_eqb (a b : hkey) : bool :=
  if hkey_eq_dec (norm_key a) (norm_key b) then true else false.

(** [str(k)], as an f-string formats a key. *)
Definition str_of_key (k : hkey) : string :=
  match k with
  | KNone => "None"
  | KBool true => "True"
  | KBool false => "False"
  | KInt z => PyStr.of_Z z
  | KStr s => s
  end.

Definition pydict (V : Type) : Type := list (hkey * V).

Fixpoint dict_get {V : Type} (k : hkey) (d : pydict V) : option V :=
  match d with
  | [] => None
  | (k', v) :: d' => if key_eqb k k' then Some v else dict_get k d'
  end.

(** [d[k] = v]: the first key object stays, as does its position. *)
Fixpoint dict_set {V : Type} (k : hkey) (v : V) (d : pydict V) : pydict V :=
  match d with
  | [] => [(k, v)]
  | (k', v') :: d' =>
      if key_eqb k k' then (k', v) :: d' else (k', v') :: dict_set k v d'
  end.

Definition dict_mem {V : Type} (k : hkey) (d : pydict V) : bool :=
  match dict_get k d with Some _ => true | None => false end.

(** [d[k]] on a [defaultdict] whose factory returns [dflt]: a missing
    key is inserted. *)
Definition dd_getitem {V : Type} (dflt : V) (k : hkey) (d : pydict V)
  : V * pydict V :=
  match dict_get k d with
  | Some v => (v, d)
  | None => (dflt, dict_set k dflt d)
  end.

(** [d[k] = f(d[k])] on a [defaultdict], which is what [d[k][field] += n],
    [d[k] += n] and [d[k].append(x)] do. *)
Definition dd_update {V : Type} (dflt : V) (k : hkey) (f : V -> V)
  (d : pydict V) : pydict V :=
  let '(v, d') := dd_getitem dflt k d in dict_set k (f v) d'.

(** [a / b] on two non-negative ints. *)
Definition truediv (a b : nat) : result Q :=
  match b with
  | O => Raise ZeroDivisionError
  | S _ => Ok (Z.of_nat a # Pos.of_nat b)
  end.

(** Methods and builtins applied to a value of unknown type. *)

(** [v.split()] *)
Definition str_split (v : value) : result (list string) :=
  match v with
  | VStr s => Ok (PyStr.split s)
  | _ => Raise AttributeError
  end.

(** [v.lower()] *)
Definition str_lower (v : value) : result string :=
  match v with
  | VStr s => Ok (PyStr.lower s)
  | _ => Raise AttributeError
  end.

(** [len(v)] *)
Definition py_len (v : value) : result nat :=
  match v with
  | VStr s => Ok (String.length s)
  | VList l => Ok (List.length l)
  | VDict d => Ok (List.length d)
  | _ => Raise TypeError
  end.

(** [v.get(k, dflt)] *)
Definition get_method (v : value) (k : string) (dflt : value) : result value :=
  match v with
  | VDict d => Ok (match assoc k d with Some x => x | None => dflt end)
  | _ => Raise AttributeError
  end.

(** [k in v] for a string [k]: a substring of a str, an element of a
    list, a key of a dict. *)
Definition py_in (k : string) (v : value) : result bool :=
  match v with
  | VStr s => Ok (PyStr.contains k s)
  | VList l =>
      Ok (existsb (fun x => match x with
                            | VStr s => String.eqb s k
                            | _ => false
                            end) l)
  | VDict d => Ok (match assoc k d with
                   | Some _ => true
                   | None => false
                   end)
  | _ => Raise TypeError
  end.

(** [v == s] for a string [s] *)
Definition eq_str (v : value) (s : string) : bool :=
  match v with
  | VStr t => String.eqb t s
  | _ => false
  end.

(** [bool(v)] *)
Definition truthy (v : value) : bool :=
  match v with
  | VNone => false
  | VBool b => b
  | VInt z => negb (Z.eqb z 0)
  | VStr s => negb (PyStr.is_empty s)
  | VList l => match l with [] => false | _ => true end
  | VDict d => match d with [] => false | _ => true end
  end.

(** ** [sorted] and [Counter] *)

(** Whether an element of key [ky] has to stand before one of key [kx]. *)
Definition comes_before (reverse : bool) (ky kx : nat) : bool :=
  if reverse then kx <? ky else ky <? kx.

Fixpoint insert_sorted {A : Type} (key : A -> nat) (reverse : bool)
  (x : A) (l : list A) : list A :=
  match l with
  | [] => [x]
  | y :: l' =>
      if comes_before reverse (key y) (key x)
      then y :: insert_sorted key reverse x l'
      else x :: l
  end.

(** [sorted(l, key=key, reverse=reverse)].  Python's sort is stable,
    with or without [reverse]; the stable sort of a list is unique, and
    this is the one by insertion. *)
Fixpoint py_sorted {A : Type} (key : A -> nat) (reverse : bool) (l : list A)
  : list A :=
  match l with
  | [] => []
  | x :: l' => insert_sorted key reverse x (py_sorted key reverse l')
  end.

(** A [Counter] over strings: its items, in the order of first count. *)
Definition Counter : Type := list (string * nat).

(** [c[k] += 1] *)
Fixpoint counter_add (k : string) (c : Counter) : Counter :=
  match c with
  | [] => [(k, 1)]
  | (k', n) :: c' =>
      if String.eqb k k' then (k', S n) :: c' else (k', n) :: counter_add k c'
  end.

(** [c.update(ws)] *)
Definition counter_update (ws : list string) (c : Counter) : Counter :=
  fold_left (fun c w => counter_add w c) ws c.

(** [c.most_common(n)]: the [n] largest counts, largest first, equal
    counts in the order first encountered. *)
Definition most_common (n : nat) (c : Counter) : Counter :=
  firstn n (py_sorted snd true c).

(** ** [JSONPlaceholderAnalyzer] *)

Record Analyzer : Type := mkAnalyzer {
  users : pydict value;
  posts : list value;
  comments : list value
}.

(** *** [analyze_user_activity] *)

Record UserMetrics : Type := mkUserMetrics {
  post_count : nat;
  total_comments_received : nat;
  avg_comments_per_post : Q;
  total_words_in_posts : nat;
  avg_post_length : Q;
  username : option value
}.

(** The factory of the [defaultdict]; it sets no ['username']. *)
Definition default_metrics : UserMetrics :=
  mkUserMetrics 0 0 0%Q 0 0%Q None.

Definition add_post_count (n : nat) (m : UserMetrics) : UserMetrics :=
  mkUserMetrics (post_count m + n) (total_comments_received m)
    (avg_comments_per_post m) (total_words_in_posts m) (avg_post_length m)
    (username m).

Definition add_total_words (n : nat) (m : UserMetrics) : UserMetrics :=
  mkUserMetrics (post_count m) (total_comments_received m)
    (avg_comments_per_post m) (total_words_in_posts m + n) (avg_post_length m)
    (username m).

Definition add_total_comments (n : nat) (m : UserMetrics) : UserMetrics :=
  mkUserMetrics (post_count m) (total_comments_received m + n)
    (avg_comments_per_post m) (total_words_in_posts m) (avg_post_length m)
    (username m).

(** First loop, over the posts. *)
Definition count_post (um : pydict UserMetrics) (post : value)
  : result (pydict UserMetrics) :=
  uid <- getitem post "userId" ;;
  user_id <- py_hash uid ;;
  let um1 := dd_update default_metrics user_id (add_post_count 1) um in
  body <- getitem post "body" ;;
  ws <- str_split body ;;
  Ok (dd_update default_metrics user_id (add_total_words (List.length ws)) um1).

(** Second loop: [post_comments[comment['postId']].append(comment)]. *)
Definition group_comment (pc : pydict (list value)) (comment : value)
  : result (pydict (list value)) :=
  pid <- getitem comment "postId" ;;
  k <- py_hash pid ;;
  Ok (dd_update [] k (fun l => (l ++ [comment])%list) pc).

(** Third loop, over the posts again.  Reading [post_comments] inserts
    the ids that have no comment. *)
Definition credit_comments
  (acc : pydict UserMetrics * pydict (list value)) (post : value)
  : result (pydict UserMetrics * pydict (list value)) :=
  let '(um, pc) := acc in
  uid <- getitem post "userId" ;;
  pid <- getitem post "id" ;;
  k <- py_hash pid ;;
  let '(cs, pc') := dd_getitem [] k pc in
  user_id <- py_hash uid ;;
  Ok (dd_update default_metrics user_id
        (add_total_comments (List.length cs)) um, pc').

(** Body of the last loop, for one item of [user_metrics]. *)
Definition calc_averages (us : pydict value) (item : hkey * UserMetrics)
  : result (hkey * UserMetrics) :=
  let '(user_id, metrics) := item in
  if 0 <? post_count metrics then
    a <- truediv (total_comments_received metrics) (post_count metrics) ;;
    b <- truediv (total_words_in_posts metrics) (post_count metrics) ;;
    let u := match dict_get user_id us with
             | Some u => u
             | None => VDict []
             end in
    name <- get_method u "username"
              (VStr ("User " ++ str_of_key user_id)) ;;
    Ok (user_id,
        mkUserMetrics (post_count metrics) (total_comments_received metrics)
          a (total_words_in_posts metrics) b (Some name))
  else Ok (user_id, metrics).

Definition analyze_user_activity (self : Analyzer)
  : result (pydict UserMetrics) :=
  match users self with
  | [] => Ok []
  | _ :: _ =>
      um1 <- foldM count_post (posts self) [] ;;
      pc <- foldM group_comment (comments self) [] ;;
      '(um2, _) <- foldM credit_comments (posts self) (um1, pc) ;;
      mapM (calc_averages (users self)) um2
  end.

(** *** [analyze_comment_patterns] *)

Record Sentiment : Type := mkSentiment {
  positive_words : nat;
  negative_words : nat;
  question_comments : nat
}.

(** The returned dict.  Its keys ['comments_by_hour'] and
    ['word_frequency'] are absent from the result for no comment. *)
Record CommentMetrics : Type := mkCommentMetrics {
  total_comments : nat;
  avg_comment_length : Q;
  common_email_domains : Counter;
  comments_by_hour : option (pydict nat);
  word_frequency : option Counter;
  sentiment_indicators : Sentiment;
  most_common_words : Counter
}.

Definition simple_sentiment_pos : list string :=
  ["good"; "great"; "awesome"; "excellent"; "happy"; "thanks"].

Definition simple_sentiment_neg : list string :=
  ["bad"; "poor"; "terrible"; "awful"; "sad"; "wrong"].

(** [sum(1 for word in lexicon if word in text)] *)
Definition count_hits (lexicon : list string) (text : string) : nat :=
  List.length (filter (fun word => PyStr.contains word text) lexicon).

(** What the loop over the comments updates. *)
Record CommentAcc : Type := mkCommentAcc {
  total_length : nat;
  email_domains : Counter;
  word_counts : Counter;
  sentiment : Sentiment
}.

Definition comment_acc0 : CommentAcc :=
  mkCommentAcc 0 [] [] (mkSentiment 0 0 0).

(** [email.split('@')[-1]] *)
Definition email_domain (email : string) : string :=
  last (PyStr.split_on "@" email) "".

Definition comment_step (acc : CommentAcc) (comment : value)
  : result CommentAcc :=
  body <- getitem comment "body" ;;
  n <- py_len body ;;
  em <- getitem comment "email" ;;
  email <- str_lower em ;;
  let domain := email_domain email in
  comment_lower <- str_lower body ;;
  let words := PyStr.split comment_lower in
  let pos := count_hits simple_sentiment_pos comment_lower in
  let neg := count_hits simple_sentiment_neg comment_lower in
  question <- py_in "?" body ;;
  let s := sentiment acc in
  Ok (mkCommentAcc
        (total_length acc + n)
        (counter_add domain (email_domains acc))
        (counter_update words (word_counts acc))
        (mkSentiment (positive_words s + pos) (negative_words s + neg)
           (if question then question_comments s + 1
            else question_comments s))).

Definition no_comment_metrics : CommentMetrics :=
  mkCommentMetrics 0 0%Q [] None None (mkSentiment 0 0 0) [].

Definition analyze_comment_patterns (self : Analyzer) : result CommentMetrics :=
  match comments self with
  | [] => Ok no_comment_metrics
  | _ :: _ =>
      acc <- foldM comment_step (comments self) comment_acc0 ;;
      avg <- match comments self with
             | [] => Ok 0%Q
             | _ :: _ => truediv (total_length acc) (List.length (comments self))
             end ;;
      Ok (mkCommentMetrics
            (List.length (comments self))
            avg
            (most_common 5 (email_domains acc))
            (Some [])
            (Some (word_counts acc))
            (sentiment acc)
            (most_common 10 (word_counts acc)))
  end.

(** *** [analyze_post_engagement] *)

Record LengthBuckets : Type := mkLengthBuckets {
  short : nat;
  medium : nat;
  long : nat
}.

(** ['min'], ['max'], ['avg'], ['median'] of the title lengths. *)
Record TitleStats : Type := mkTitleStats {
  stat_min : nat;
  stat_max : nat;
  stat_avg : Q;
  stat_median : Q
}.

Record PostEngagement : Type := mkPostEngagement {
  post_id : value;
  title : value;
  user_id : value;
  comment_count : nat
}.

Record PostMetrics : Type := mkPostMetrics {
  total_posts : nat;
  posts_by_length : LengthBuckets;
  title_length_stats : TitleStats;
  most_engaging_posts : list PostEngagement;
  engagement_by_user : pydict nat
}.

Definition no_post_metrics : PostMetrics :=
  mkPostMetrics 0 (mkLengthBuckets 0 0 0) (mkTitleStats 0 0 0%Q 0%Q) [] [].

(** [min(l)], [max(l)], [statistics.mean(l)], [statistics.median(l)] *)
Definition py_min (l : list nat) : result nat :=
  match l with
  | [] => Raise ValueError
  | x :: l' => Ok (fold_left Nat.min l' x)
  end.

Definition py_max (l : list nat) : result nat :=
  match l with
  | [] => Raise ValueError
  | x :: l' => Ok (fold_left Nat.max l' x)
  end.

Definition mean (l : list nat) : result Q :=
  match l with
  | [] => Raise StatisticsError
  | _ :: _ => Ok (Z.of_nat (list_sum l) # Pos.of_nat (List.length l))
  end.

Definition median (l : list nat) : result Q :=
  let data := py_sorted (fun x => x) false l in
  let n := List.length data in
  if n =? 0 then Raise StatisticsError
  else if Nat.odd n then Ok (inject_Z (Z.of_nat (nth (n / 2) data 0)))
  else let i := n / 2 in
       Ok (Z.of_nat (nth (i - 1) data 0 + nth i data 0) # 2).

(** First loop: the length bucket of the body, the length of the title. *)
Definition measure_post (acc : LengthBuckets * list nat) (post : value)
  : result (LengthBuckets * list nat) :=
  let '(b, title_lengths) := acc in
  body <- getitem post "body" ;;
  ws <- str_split body ;;
  let words := List.length ws in
  let b' := if words <? 100 then mkLengthBuckets (short b + 1) (medium b) (long b)
            else if words <? 200
                 then mkLengthBuckets (short b) (medium b + 1) (long b)
                 else mkLengthBuckets (short b) (medium b) (long b + 1) in
  t <- getitem post "title" ;;
  n <- py_len t ;;
  Ok (b', (title_lengths ++ [n])%list).

Definition engagement_acc : Type :=
  (list PostEngagement * pydict nat * pydict (list value))%type.

(** Last loop: one entry per post, and the sum per user. *)
Definition engage_post (acc : engagement_acc) (post : value)
  : result engagement_acc :=
  let '(metrics, by_user, pe) := acc in
  pid <- getitem post "id" ;;
  k <- py_hash pid ;;
  let '(cs, pe') := dd_getitem [] k pe in
  let engagement := List.length cs in
  pid' <- getitem post "id" ;;
  t <- getitem post "title" ;;
  uid <- getitem post "userId" ;;
  uid' <- getitem post "userId" ;;
  uk <- py_hash uid' ;;
  Ok ((metrics ++ [mkPostEngagement pid' t uid engagement])%list,
      dd_update 0 uk (fun n => n + engagement) by_user,
      pe').

Definition analyze_post_engagement (self : Analyzer) : result PostMetrics :=
  match posts self with
  | [] => Ok no_post_metrics
  | _ :: _ =>
      '(buckets, title_lengths) <-
        foldM measure_post (posts self) (mkLengthBuckets 0 0 0, []) ;;
      stats <- match title_lengths with
               | _ :: _ =>
                   mn <- py_min title_lengths ;;
                   mx <- py_max title_lengths ;;
                   av <- mean title_lengths ;;
                   md <- median title_lengths ;;
                   Ok (mkTitleStats mn mx av md)
               | [] => Ok (mkTitleStats 0 0 0%Q 0%Q)
               end ;;
      post_engagement <- foldM group_comment (comments self) [] ;;
      '(post_engagement_metrics, by_user, _) <-
        foldM engage_post (posts self) ([], [], post_engagement) ;;
      Ok (mkPostMetrics
            (List.length (posts self))
            buckets
            stats
            (firstn 5 (py_sorted comment_count true post_engagement_metrics))
            by_user)
  end.

(** *** [load_data]: the loop over the lines of the file

    [json.loads] is a parameter; the messages printed, and the count
    of lines they report, are left out. *)

Section LoadData.

Variable json_loads : string -> result value.

(** The body of the [try], for a decoded [message]. *)
Definition store_message (self : Analyzer) (message : value) : result Analyzer :=
  ty <- getitem message "type" ;;
  if eq_str ty "RECORD" then
    stream <- getitem message "stream" ;;
    if eq_str stream "users" then
      record <- getitem message "record" ;;
      target <- getitem message "record" ;;
      id <- getitem target "id" ;;
      k <- py_hash id ;;
      Ok (mkAnalyzer (dict_set k record (users self)) (posts self)
            (comments self))
    else
      stream' <- getitem message "stream" ;;
      if eq_str stream' "posts" then
        record <- getitem message "record" ;;
        Ok (mkAnalyzer (users self) (posts self ++ [record])%list
              (comments self))
      else
        stream'' <- getitem message "stream" ;;
        if eq_str stream'' "comments" then
          record <- getitem message "record" ;;
          Ok (mkAnalyzer (users self) (posts self)
                (comments self ++ [record])%list)
        else Ok self
  else Ok self.

(** One turn of [for line in f]: both [except] clauses [continue]. *)
Definition load_line (self : Analyzer) (line : string) : Analyzer :=
  match json_loads (PyStr.strip line) with
  | Raise _ => self
  | Ok message =>
      match store_message self message with
      | Ok self' => self'
      | Raise _ => self
      end
  end.

Definition load_lines (lines : list string) (self : Analyzer) : Analyzer :=
  fold_left load_line lines self.

End LoadData.

(** [JSONPlaceholderAnalyzer()] *)
Definition new_analyzer : Analyzer := mkAnalyzer [] [] [].

(** ** [re.match] for the pattern of [check_email_format] *)

Module Re.

Inductive regex : Type :=
| Empty
| Eps
| Class (p : ascii -> bool)
| Cat (r1 r2 : regex)
| Alt (r1 r2 : regex)
| Star (r : regex).

Fixpoint nullable (r : regex) : bool :=
  match r with
  | Empty => false
  | Eps => true
  | Class _ => false
  | Cat r1 r2 => nullable r1 && nullable r2
  | Alt r1 r2 => nullable r1 || nullable r2
  | Star _ => true
  end.

Fixpoint deriv (c : ascii) (r : regex) : regex :=
  match r with
  | Empty => Empty
  | Eps => Empty
  | Class p => if p c then Eps else Empty
  | Cat r1 r2 =>
      if nullable r1 then Alt (Cat (deriv c r1) r2) (deriv c r2)
      else Cat (deriv c r1) r2
  | Alt r1 r2 => Alt (deriv c r1) (deriv c r2)
  | Star r1 => Cat (deriv c r1) (Star r1)
  end.

(** Whether the whole of [s] is in the language of [r]. *)
Fixpoint matches (r : regex) (s : string) : bool :=
  match s with
  | EmptyString => nullable r
  | String c s' => matches (deriv c r) s'
  end.

(** [r+], [r{2,}], one character, and [$], which also stands before a
    last newline. *)
Definition plus (r : regex) : regex := Cat r (Star r).
Definition at_least_2 (r : regex) : regex := Cat r (Cat r (Star r)).
Definition chr (c : ascii) : regex := Class (Ascii.eqb c).
Definition dollar : regex := Alt Eps (chr (ascii_of_nat 10)).

Definition between (lo hi : nat) (c : ascii) : bool :=
  (lo <=? nat_of_ascii c) && (nat_of_ascii c <=? hi).

Definition alpha (c : ascii) : bool := between 97 122 c || between 65 90 c.
Definition alnum (c : ascii) : bool := alpha c || between 48 57 c.
Definition one_of (s : string) (c : ascii) : bool := PyStr.has_char c s.

(** [^[a-zA-Z0-9._%+-]+@[a-zA-Z0-9.-]+\.[a-zA-Z]{2,}$] *)
Definition email_pattern : regex :=
  Cat (plus (Class (fun c => alnum c || one_of "._%+-" c)))
    (Cat (chr "@")
       (Cat (plus (Class (fun c => alnum c || one_of ".-" c)))
          (Cat (chr ".")
             (Cat (at_least_2 (Class alpha)) dollar)))).

End Re.

(** ** validators.py

    [self.errors] is passed along: each check takes the list and
    returns it with what it appended. *)

Definition is_none (v : value) : bool :=
  match v with VNone => true | _ => false end.

Fixpoint check_required_fields (data : value) (required_fields : list string)
  (errors : list string) : result (bool * list string) :=
  match required_fields with
  | [] => Ok (true, errors)
  | field :: rest =>
      present <- py_in field data ;;
      missing <- (if negb present then Ok true
                  else v <- getitem data field ;; Ok (is_none v)) ;;
      if missing
      then Ok (false, (errors ++ [("Missing required field: " ++ field)%string])%list)
      else check_required_fields data rest errors
  end.

(** [v.strip()] *)
Definition str_strip (v : value) : result string :=
  match v with
  | VStr s => Ok (PyStr.strip s)
  | _ => Raise AttributeError
  end.

Definition check_string_not_empty (v : value) (field_name : string)
  (errors : list string) : result (bool * list string) :=
  empty <- (if negb (truthy v) then Ok true
            else s <- str_strip v ;; Ok (String.eqb s "")) ;;
  if empty
  then Ok (false, (errors ++ [("Field " ++ field_name ++ " cannot be empty")%string])%list)
  else Ok (true, errors).

(** [not isinstance(value, int) or value <= 0]; a bool is an int. *)
Definition check_positive_integer (v : value) (field_name : string)
  (errors : list string) : bool * list string :=
  let bad := match v with
             | VInt z => (z <=? 0)%Z
             | VBool b => (Z.b2z b <=? 0)%Z
             | _ => true
             end in
  if bad
  then (false,
        (errors ++ [("Field " ++ field_name ++ " must be a positive integer")%string])%list)
  else (true, errors).

Definition check_email_format (email : value) (errors : list string)
  : result (bool * list string) :=
  match email with
  | VStr s =>
      if negb (Re.matches Re.email_pattern s)
      then Ok (false, (errors ++ ["Invalid email format"])%list)
      else Ok (true, errors)
  | _ => Raise TypeError
  end.

Definition no_errors (errors : list string) : bool :=
  match errors with [] => true | _ => false end.

(** [PostValidator.validate]: the verdict and [self.errors]. *)
Definition PostValidator_validate (post : value) : result (bool * list string) :=
  '(ok, errors) <- check_required_fields post ["id"; "userId"; "title"; "body"] [] ;;
  if negb ok then Ok (false, errors)
  else
    id <- getitem post "id" ;;
    let '(_, errors) := check_positive_integer id "id" errors in
    uid <- getitem post "userId" ;;
    let '(_, errors) := check_positive_integer uid "userId" errors in
    t <- getitem post "title" ;;
    '(_, errors) <- check_string_not_empty t "title" errors ;;
    b <- getitem post "body" ;;
    '(_, errors) <- check_string_not_empty b "body" errors ;;
    Ok (no_errors errors, errors).

Definition CommentValidator_validate (comment : value)
  : result (bool * list string) :=
  '(ok, errors) <- check_required_fields comment
                     ["id"; "postId"; "name"; "email"; "body"] [] ;;
  if negb ok then Ok (false, errors)
  else
    id <- getitem comment "id" ;;
    let '(_, errors) := check_positive_integer id "id" errors in
    pid <- getitem comment "postId" ;;
    let '(_, errors) := check_positive_integer pid "postId" errors in
    n <- getitem comment "name" ;;
    '(_, errors) <- check_string_not_empty n "name" errors ;;
    b <- getitem comment "body" ;;
    '(_, errors) <- check_string_not_empty b "body" errors ;;
    e <- getitem comment "email" ;;
    '(_, errors) <- check_email_format e errors ;;
    Ok (no_errors errors, errors).

(** ** streams.py

    Two things the streams read are parameters: the clock behind
    [datetime.utcnow().isoformat()], read once per invalid record, and
    the [%] of a str, the formatting operator. *)

Section Streams.

Variable utcnow_isoformat : nat -> string.
Variable str_format : string -> value -> result string.

(** [v % m] for a non-zero int [m]. *)
Definition py_mod (v : value) (m : Z) : result value :=
  match v with
  | VInt z => Ok (VInt (z mod m))
  | VBool b => Ok (VInt (Z.b2z b mod m))
  | VStr s => t <- str_format s (VInt m) ;; Ok (VStr t)
  | _ => Raise TypeError
  end.

(** [v == z] for an int [z]. *)
Definition eq_int (v : value) (z : Z) : bool :=
  match v with
  | VInt x => Z.eqb x z
  | VBool b => Z.eqb (Z.b2z b) z
  | _ => false
  end.

(** [v[k] = x] for a string [k]. *)
Definition setitem (v : value) (k : string) (x : value) : result value :=
  match v with
  | VDict d => Ok (VDict (assoc_set k x d))
  | _ => Raise TypeError
  end.

Definition metadata (errors : list string) (tick : nat) : value :=
  VDict [("validation_errors", VList (map VStr errors));
         ("validation_timestamp", VStr (utcnow_isoformat tick))].

(** The validation of one record and what is yielded for it; [tick]
    counts the readings of the clock. *)
Definition validated (validate : value -> result (bool * list string))
  (tick : nat) (record : value) : result (value * nat) :=
  '(ok, errors) <- validate record ;;
  if negb ok then
    _ <- get_method record "id" VNone ;;
    record' <- setitem record "_metadata" (metadata errors tick) ;;
    Ok (record', S tick)
  else Ok (record, tick).

(** A generator: what it yields, and the exception that ended it. *)
Fixpoint generate (step : nat -> value -> result (option value * nat))
  (tick : nat) (records : list value) : list value * option exn :=
  match records with
  | [] => ([], None)
  | record :: rest =>
      match step tick record with
      | Raise e => ([], Some e)
      | Ok (None, tick') => generate step tick' rest
      | Ok (Some r, tick') =>
          let '(out, e) := generate step tick' rest in (r :: out, e)
      end
  end.

(** The body of the loop of [PostsStream.parse_response]. *)
Definition PostsStream_step (tick : nat) (record : value)
  : result (option value * nat) :=
  id <- getitem record "id" ;;
  r <- py_mod id 2 ;;
  if eq_int r 0 then
    '(record', tick') <- validated PostValidator_validate tick record ;;
    Ok (Some record', tick')
  else Ok (None, tick).

(** [records] is [response.json()]. *)
Definition PostsStream_parse_response (records : list value)
  : list value * option exn :=
  generate PostsStream_step 0 records.

Definition CommentsStream_step (tick : nat) (record : value)
  : result (option value * nat) :=
  pid <- getitem record "postId" ;;
  r <- py_mod pid 2 ;;
  if eq_int r 0 then
    '(record', tick') <- validated CommentValidator_validate tick record ;;
    Ok (Some record', tick')
  else Ok (None, tick).

Definition CommentsStream_parse_response (records : list value)
  : list value * option exn :=
  generate CommentsStream_step 0 records.

(** The loop body the two streams have in common, for the field [k]
    they test and their validator. *)
Definition filter_step (k : string)
  (validate : value -> result (bool * list string))
  (tick : nat) (record : value) : result (option value * nat) :=
  x <- getitem record k ;;
  r <- py_mod x 2 ;;
  if eq_int r 0 then
    '(record', tick') <- validated validate tick record ;;
    Ok (Some record', tick')
  else Ok (None, tick).

End Streams.

(** ** The vocabulary of the properties *)

(** [d.get(k, dflt)] on a dict keyed by values. *)
Definition dict_get_or {V : Type} (dflt : V) (k : hkey) (d : pydict V) : V :=
  match dict_get k d with
  | Some v => v
  | None => dflt
  end.

Definition hashable (v : value) : bool :=
  match py_hash v with
  | Ok _ => true
  | Raise _ => false
  end.

(** The user id of a post, as the key it is counted under. *)
Definition post_user_key (post : value) : option hkey :=
  match getitem post "userId" with
  | Ok u => match py_hash u with
            | Ok k => Some k
            | Raise _ => None
            end
  | Raise _ => None
  end.

(** [post] is a post of user [k], up to the equality of keys. *)
Definition posted_by (k : hkey) (post : value) : bool :=
  match post_user_key post with
  | Some k' => key_eqb k k'
  | None => false
  end.

(** The records on which the user-activity analysis reads what it
    needs: a post has a hashable ['userId'] and ['id'] and a str
    ['body'], a comment a hashable ['postId'], a user is a dict. *)
Definition post_ok (post : value) : bool :=
  match getitem post "userId", getitem post "body", getitem post "id" with
  | Ok u, Ok (VStr _), Ok i => hashable u && hashable i
  | _, _, _ => false
  end.

Definition comment_ok (comment : value) : bool :=
  match getitem comment "postId" with
  | Ok p => hashable p
  | Raise _ => false
  end.

Definition user_ok (user : value) : bool :=
  match user with
  | VDict _ => true
  | _ => false
  end.

Definition activity_ready (self : Analyzer) : bool :=
  forallb post_ok (posts self)
  && forallb comment_ok (comments self)
  && forallb (fun item => user_ok (snd item)) (users self).

(** The sum of ['post_count'] over the entries of a result. *)
Definition sum_post_count (res : pydict UserMetrics) : nat :=
  list_sum (map (fun item => post_count (snd item)) res).

(** ** Sample states *)

Definition sample_post (id uid : Z) (title body : string) : value :=
  VDict [("userId", VInt uid); ("id", VInt id);
         ("title", VStr title); ("body", VStr body)].

Definition sample_comment (id pid : Z) (email body : string) : value :=
  VDict [("postId", VInt pid); ("id", VInt id); ("name", VStr "name");
         ("email", VStr email); ("body", VStr body)].

Definition sample_user (id : Z) (name : string) : value :=
  VDict [("id", VInt id); ("name", VStr "name"); ("username", VStr name);
         ("email", VStr "user@example.com")].

(** One user, two posts of hers of 3 and 5 words, a comment on the
    first; and a post of a user that was not ingested. *)
Definition sample_state : Analyzer :=
  mkAnalyzer
    [(KInt 1, sample_user 1 "alice")]
    [sample_post 1 1 "first" "one two three";
     sample_post 2 1 "second" "one two three four five";
     sample_post 3 7 "third" "orphan"]
    [sample_comment 1 1 "Bob@Example.com" "This is sad but thanks!"].

(** Posts and comments, and no user. *)
Definition userless_state : Analyzer :=
  mkAnalyzer [] (posts sample_state) (comments sample_state).

(** The order [sorted] leaves two keys in. *)
Definition in_order (reverse : bool) (a b : nat) : Prop :=
  if reverse then b <= a else a <= b.

(** [l1] is the beginning of [l2]. *)
Definition is_prefix {A : Type} (l1 l2 : list A) : Prop :=
  exists rest, l2 = (l1 ++ rest)%list.

(** [l] is in the order of [key], no key before a smaller one when
    [reverse] and before a larger one otherwise. *)
Definition sorted_by {A : Type} (key : A -> nat) (reverse : bool) (l : list A)
  : Prop :=
  StronglySorted (fun x y => in_order reverse (key x) (key y)) l.

(** The elements of [l] whose key is [n], in their order. *)
Definition with_key {A : Type} (key : A -> nat) (n : nat) (l : list A) : list A :=
  filter (fun x => key x =? n) l.

(** The id of a post and the post id of a comment, as keys. *)
Definition post_id_key (post : value) : option hkey :=
  match getitem post "id" with
  | Ok i => match py_hash i with
            | Ok k => Some k
            | Raise _ => None
            end
  | Raise _ => None
  end.

Definition comment_post_key (comment : value) : option hkey :=
  match getitem comment "postId" with
  | Ok p => match py_hash p with
            | Ok k => Some k
            | Raise _ => None
            end
  | Raise _ => None
  end.

(** [comment] is a comment on the post of id [k]. *)
Definition comment_on (k : hkey) (comment : value) : bool :=
  match comment_post_key comment with
  | Some k' => key_eqb k k'
  | None => false
  end.

(** [e] is the entry of [post]: its id, title and user id, and the
    number of the comments [cs] that are on it. *)
Definition entry_of (cs : list value) (post : value) (e : PostEngagement) : Prop :=
  getitem post "id" = Ok (post_id e)
  /\ getitem post "title" = Ok (title e)
  /\ getitem post "userId" = Ok (user_id e)
  /\ exists k, post_id_key post = Some k
               /\ comment_count e = List.length (filter (comment_on k) cs).

(** The records on which the post-engagement analysis reads what it
    needs: those of the user-activity analysis, with a ['title'] that
    has a length. *)
Definition titled (post : value) : bool :=
  match getitem post "title" with
  | Ok t => match py_len t with
            | Ok _ => true
            | Raise _ => false
            end
  | Raise _ => false
  end.

Definition engagement_ready (self : Analyzer) : bool :=
  forallb (fun post => post_ok post && titled post) (posts self)
  && forallb comment_ok (comments self).

(** The str fields of a comment (the empty str when there is none). *)
Definition body_of (comment : value) : string :=
  match getitem comment "body" with
  | Ok (VStr s) => s
  | _ => ""
  end.

Definition email_of (comment : value) : string :=
  match getitem comment "email" with
  | Ok (VStr s) => s
  | _ => ""
  end.

(** The comments on which the comment-pattern analysis reads what it
    needs: a str ['body'] and a str ['email']. *)
Definition comment_ready (comment : value) : bool :=
  match getitem comment "body", getitem comment "email" with
  | Ok (VStr _), Ok (VStr _) => true
  | _, _ => false
  end.

Definition patterns_ready (self : Analyzer) : bool :=
  forallb comment_ready (comments self).

(** What follows the last [sep] of [s]; all of [s] when it has none. *)
Fixpoint after_last (sep : ascii) (s : string) : string :=
  match s with
  | EmptyString => EmptyString
  | String c s' =>
      if PyStr.has_char sep s' then after_last sep s'
      else if Ascii.eqb c sep then s' else s
  end.

(** The distinct elements of [l], in the order they are first met. *)
Fixpoint first_seen (l : list string) : list string :=
  match l with
  | [] => []
  | x :: l' => x :: filter (fun y => negb (String.eqb y x)) (first_seen l')
  end.

(** The frequency count of [l]: each distinct element with the number
    of times it occurs, in the order they are first met. *)
Definition frequency_count (l : list string) : Counter :=
  map (fun d => (d, count_occ string_dec l d)) (first_seen l).

(** The domain of the email of a comment, as the specification has it. *)
Definition domain_of (comment : value) : string :=
  after_last "@" (PyStr.lower (email_of comment)).

(** The number of the words of a lexicon that are substrings of the
    lowercased body. *)
Definition lexicon_hits (lexicon : list string) (body : string) : nat :=
  List.length (filter (fun w => PyStr.contains w (PyStr.lower body)) lexicon).

Definition asks (body : string) : nat :=
  if PyStr.has_char "?" body then 1 else 0.

(** What [comment_step] does with the two str fields it reads. *)
Definition count_comment (acc : CommentAcc) (body email : string) : CommentAcc :=
  let s := sentiment acc in
  mkCommentAcc
    (total_length acc + String.length body)
    (counter_add (email_domain (PyStr.lower email)) (email_domains acc))
    (counter_update (PyStr.split (PyStr.lower body)) (word_counts acc))
    (mkSentiment
       (positive_words s + count_hits simple_sentiment_pos (PyStr.lower body))
       (negative_words s + count_hits simple_sentiment_neg (PyStr.lower body))
       (if PyStr.contains "?" body then question_comments s + 1
        else question_comments s)).

(** *** The lines of a file, by what they hold *)

(** [choose f l]: the [y] of the elements of [l] on which [f] is
    [Some y], in their order. *)
Fixpoint choose {A B : Type} (f : A -> option B) (l : list A) : list B :=
  match l with
  | [] => []
  | x :: l' => match f x with
               | Some y => y :: choose f l'
               | None => choose f l'
               end
  end.

(** The record of a message of type ["RECORD"] and of stream [stream]. *)
Definition record_of (stream : string) (message : value) : option value :=
  match getitem message "type", getitem message "stream",
        getitem message "record" with
  | Ok ty, Ok st, Ok r =>
      if eq_str ty "RECORD" && eq_str st stream then Some r else None
  | _, _, _ => None
  end.

Section Lines.

Variable json_loads : string -> result value.

Definition message_of (line : string) : option value :=
  match json_loads (PyStr.strip line) with
  | Ok message => Some message
  | Raise _ => None
  end.

Definition post_record (line : string) : option value :=
  match message_of line with
  | Some message => record_of "posts" message
  | None => None
  end.

Definition comment_record (line : string) : option value :=
  match message_of line with
  | Some message => record_of "comments" message
  | None => None
  end.

(** A user record and the key it is stored under, its ['id']. *)
Definition user_record (line : string) : option (hkey * value) :=
  match message_of line with
  | Some message =>
      match record_of "users" message with
      | Some r => match getitem r "id" with
                  | Ok i => match py_hash i with
                            | Ok k => Some (k, r)
                            | Raise _ => None
                            end
                  | Raise _ => None
                  end
      | None => None
      end
  | None => None
  end.

(** A line that does not parse, a message that is no ["RECORD"], a
    stream that is none of the three. *)
Definition unparsed (line : string) : Prop :=
  exists e, json_loads (PyStr.strip line) = Raise e.

Definition not_a_record (line : string) : Prop :=
  exists message,
    json_loads (PyStr.strip line) = Ok message
    /\ forall ty, getitem message "type" = Ok ty -> eq_str ty "RECORD" = false.

Definition other_stream (line : string) : Prop :=
  exists message,
    json_loads (PyStr.strip line) = Ok message
    /\ forall st, getitem message "stream" = Ok st ->
                  eq_str st "users" = false
                  /\ eq_str st "posts" = false
                  /\ eq_str st "comments" = false.

End Lines.

(** A decoder for the lines of a sample file, which stand here without
    the quotes of their JSON text. *)
Definition sample_json_loads (line : string) : result value :=
  if String.eqb line "{type: STATE}" then
    Ok (VDict [("type", VStr "STATE"); ("value", VDict [])])
  else if String.eqb line "{type: RECORD, stream: users, id: 1}" then
    Ok (VDict [("type", VStr "RECORD"); ("stream", VStr "users");
               ("record", sample_user 1 "alice")])
  else if String.eqb line "{type: RECORD, stream: posts, id: 1}" then
    Ok (VDict [("type", VStr "RECORD"); ("stream", VStr "posts");
               ("record", sample_post 1 1 "first" "one two three")])
  else if String.eqb line "{type: RECORD, stream: albums, id: 1}" then
    Ok (VDict [("type", VStr "RECORD"); ("stream", VStr "albums");
               ("record", VDict [("id", VInt 1)])])
  else Raise JSONDecodeError.

(** *** The records of a response, by the parity of a field *)

(** The int under [k], a bool being an int. *)
Definition int_field (k : string) (record : value) : option Z :=
  match getitem record k with
  | Ok (VInt z) => Some z
  | Ok (VBool b) => Some (Z.b2z b)
  | _ => None
  end.

Definition even_field (k : string) (record : value) : bool :=
  match int_field k record with
  | Some z => Z.even z
  | None => false
  end.

(** Records of the types the schemas of the streams declare. *)
Definition schema_post (record : value) : bool :=
  match getitem record "userId", getitem record "id",
        getitem record "title", getitem record "body" with
  | Ok (VInt _), Ok (VInt _), Ok (VStr _), Ok (VStr _) => true
  | _, _, _, _ => false
  end.

Definition schema_comment (record : value) : bool :=
  match getitem record "postId", getitem record "id",
        getitem record "name", getitem record "email",
        getitem record "body" with
  | Ok (VInt _), Ok (VInt _), Ok (VStr _), Ok (VStr _), Ok (VStr _) => true
  | _, _, _, _, _ => false
  end.

(** A response a stream reads to its end: the field is an int on
    every record, and the records the stream keeps are of the
    schema. *)
Definition readable (k : string) (schema : value -> bool) (records : list value)
  : bool :=
  forallb (fun r => match int_field k r with
                    | Some z => negb (Z.even z) || schema r
                    | None => false
                    end) records.

Section Yielded.

Variable utcnow_isoformat : nat -> string.

(** [r] is what a stream yields for [record]: the record, with the
    errors of its validation under ['_metadata'] when it has some. *)
Definition yielded_for (validate : value -> result (bool * list string))
  (record r : value) : Prop :=
  (exists errors, validate record = Ok (true, errors) /\ r = record)
  \/ (exists errors tick,
        validate record = Ok (false, errors)
        /\ setitem record "_metadata" (metadata utcnow_isoformat errors tick)
           = Ok r).

End Yielded.

(** A formatting operator for the samples: no str is a format. *)
Definition sample_str_format (s : string) (v : value) : result string :=
  Raise TypeError.

Definition sample_clock (tick : nat) : string := "2024-01-01T00:00:00".

(** The comments counted one after the other. *)
Definition count_comments (l : list value) (acc : CommentAcc) : CommentAcc :=
  fold_left (fun a c => count_comment a (body_of c) (email_of c)) l acc.

(** Every entry has a post. *)
Definition all_posted (um : pydict UserMetrics) : Prop :=
  forall k m, In (k, m) um -> 0 < post_count m.

(** A computation that does not end in a [ZeroDivisionError]. *)
Definition not_zero_division {A : Type} (c : result A) : Prop :=
  c <> Raise ZeroDivisionError.

(** * The rest of the code: more vocabulary *)

(** The number of the words of the body of a post. *)
Definition post_words (post : value) : nat :=
  List.length (PyStr.split (body_of post)).

(** The number of the comments [cs] that are on [post]. *)
Definition comments_on_post (cs : list value) (post : value) : nat :=
  match post_id_key post with
  | Some k => List.length (filter (comment_on k) cs)
  | None => 0
  end.

(** The keys of [l] that are no key before them, in their order. *)
Fixpoint first_keys (l : list hkey) : list hkey :=
  match l with
  | [] => []
  | k :: l' => k :: filter (fun k' => negb (key_eqb k' k)) (first_keys l')
  end.

(** No two keys of [d] are equal. *)
Definition distinct_keys {V : Type} (d : pydict V) : Prop :=
  NoDup (map norm_key (map fst d)).


(** The length of the title of a post (0 when it has none). *)
Definition title_length (post : value) : nat :=
  match getitem post "title" with
  | Ok t => match py_len t with
            | Ok n => n
            | Raise _ => 0
            end
  | Raise _ => 0
  end.

(** The three classes of [analyze_post_engagement], by the words of
    the body. *)
Definition is_short (post : value) : bool := post_words post <? 100.

Definition is_medium (post : value) : bool :=
  (100 <=? post_words post) && (post_words post <? 200).

Definition is_long (post : value) : bool := 200 <=? post_words post.

(** The tokens of a comment that [analyze_comment_patterns] counts:
    the words of its lowercased body. *)
Definition comment_words (comment : value) : list string :=
  PyStr.split (PyStr.lower (body_of comment)).

(** A str that [split] can return: not empty, without whitespace. *)
Fixpoint no_space (s : string) : bool :=
  match s with
  | EmptyString => true
  | String c s' => negb (PyStr.is_space c) && no_space s'
  end.

Definition is_token (s : string) : bool :=
  negb (PyStr.is_empty s) && no_space s.

(** The sum of the counts of a [Counter]. *)
Definition counter_total (c : Counter) : nat := list_sum (map snd c).

(** ** [load_data]: the file and its encodings

    Reading the file in an encoding is a parameter: the lines the loop
    gets before the file ends ([None]) or an exception ends the
    reading, the opening included.  [filepath.exists()] is the other
    one.  The result is the bool returned and the analyzer as it is
    left. *)

Section LoadDataFile.

Variable json_loads : string -> result value.
Variable read_lines : string -> list string * option exn.

Definition encodings : list string :=
  ["utf-8"; "utf-16"; "utf-16le"; "utf-16be"; "latin-1"].

(** [for encoding in encodings]: both [except] clauses [continue], and
    the end of the file returns. *)
Fixpoint try_encodings (encs : list string) (self : Analyzer)
  : bool * Analyzer :=
  match encs with
  | [] => (false, self)
  | encoding :: rest =>
      let '(lines, ended) := read_lines encoding in
      let self' := load_lines json_loads lines self in
      match ended with
      | None => (true, self')
      | Some _ => try_encodings rest self'
      end
  end.

Definition load_data (file_exists : bool) (self : Analyzer) : bool * Analyzer :=
  if negb file_exists then (false, self)
  else try_encodings encodings self.

(** The lines the loop has got, over the encodings tried: those of
    each reading that an exception ended, then those of the first
    reading that came to the end of the file. *)
Fixpoint lines_tried (encs : list string) : list string :=
  match encs with
  | [] => []
  | encoding :: rest =>
      match read_lines encoding with
      | (lines, None) => lines
      | (lines, Some _) => (lines ++ lines_tried rest)%list
      end
  end.

(** Whether a reading comes to the end of the file. *)
Definition reads_to_end (encoding : string) : bool :=
  match read_lines encoding with
  | (_, None) => true
  | (_, Some _) => false
  end.

End LoadDataFile.

(** A file that is not UTF-8 after its first line, and is read in
    UTF-16. *)
Definition sample_read_lines (encoding : string) : list string * option exn :=
  if String.eqb encoding "utf-8" then
    (["{type: RECORD, stream: posts, id: 1}"], Some ValueError)
  else if String.eqb encoding "utf-16" then
    (["{type: RECORD, stream: posts, id: 1}";
      "{type: RECORD, stream: users, id: 1}"], None)
  else ([], Some ValueError).

(** ** The rest of validators.py and streams.py *)

Definition UserValidator_validate (user : value) : result (bool * list string) :=
  '(ok, errors) <- check_required_fields user
                     ["id"; "name"; "username"; "email"] [] ;;
  if negb ok then Ok (false, errors)
  else
    id <- getitem user "id" ;;
    let '(_, errors) := check_positive_integer id "id" errors in
    n <- getitem user "name" ;;
    '(_, errors) <- check_string_not_empty n "name" errors ;;
    u <- getitem user "username" ;;
    '(_, errors) <- check_string_not_empty u "username" errors ;;
    e <- getitem user "email" ;;
    '(_, errors) <- check_email_format e errors ;;
    Ok (no_errors errors, errors).

Section UsersStream.

Variable utcnow_isoformat : nat -> string.

(** The body of the loop of [UsersStream.parse_response]: every record
    is validated and yielded. *)
Definition UsersStream_step (tick : nat) (record : value)
  : result (option value * nat) :=
  '(record', tick') <- validated utcnow_isoformat UserValidator_validate tick record ;;
  Ok (Some record', tick').

Definition UsersStream_parse_response (records : list value)
  : list value * option exn :=
  generate UsersStream_step 0 records.

End UsersStream.








(** *** What the validators accept *)

(** A str of whitespace only, the empty one among them. *)
Fixpoint all_space (s : string) : bool :=
  match s with
  | EmptyString => true
  | String c s' => PyStr.is_space c && all_space s'
  end.

(** An int above 0; [True] is one. *)
Definition positive_int (v : value) : bool :=
  match v with
  | VInt z => (0 <? z)%Z
  | VBool b => b
  | _ => false
  end.

(** A str that has a character that is no whitespace. *)
Definition nonblank (v : value) : bool :=
  match v with
  | VStr s => negb (all_space s)
  | _ => false
  end.

(** A str that the pattern of [check_email_format] matches. *)
Definition email_shaped (v : value) : bool :=
  match v with
  | VStr s => Re.matches Re.email_pattern s
  | _ => false
  end.

(** The value of a field, when the record has it. *)
Definition field_is (p : value -> bool) (k : string) (record : value) : bool :=
  match getitem record k with
  | Ok v => p v
  | Raise _ => false
  end.

Definition post_valid (post : value) : bool :=
  field_is positive_int "id" post && field_is positive_int "userId" post
  && field_is nonblank "title" post && field_is nonblank "body" post.

Definition comment_valid (comment : value) : bool :=
  field_is positive_int "id" comment && field_is positive_int "postId" comment
  && field_is nonblank "name" comment && field_is nonblank "body" comment
  && field_is email_shaped "email" comment.

Definition user_valid (user : value) : bool :=
  field_is positive_int "id" user
  && field_is nonblank "name" user && field_is nonblank "username" user
  && field_is email_shaped "email" user.

(** A field a dict has not, or has as [None]. *)
Definition missing_field (d : list (string * value)) (field : string) : bool :=
  match assoc field d with
  | Some v => is_none v
  | None => true
  end.

(** A value that is true and has no [strip]: what
    [check_string_not_empty] fails on. *)
Definition unstrippable (v : value) : bool :=
  truthy v && match v with VStr _ => false | _ => true end.

(** ** utils.py *)




(** ** transform.py *)

Module Transform.

(** The three messages of the [InvalidData] of [calculate_metrics]. *)
Inductive invalid_data : Type :=
| MissingCommentField
| StatisticalError
| UnexpectedError.

Inductive outcome (A : Type) : Type :=
| Returned (a : A)
| InvalidData (why : invalid_data).

Arguments Returned {A} a.
Arguments InvalidData {A} why.

(** The returned dict; the last three keys are not always there. *)
Record Metrics : Type := mkMetrics {
  comment_count : nat;
  unique_commenters : nat;
  total_comment_length : nat;
  average_comment_length : Q;
  max_comment_length : option nat;
  min_comment_length : option nat;
  median_comment_length : option Q
}.

(** The body of the [try], when there is a comment. *)
Definition compute (comments : list value) : result Metrics :=
  comment_lengths <- mapM (fun comment => b <- getitem comment "body" ;; py_len b)
                       comments ;;
  emails <- mapM (fun comment => e <- getitem comment "email" ;; py_hash e)
              comments ;;
  av <- mean comment_lengths ;;
  mx <- py_max comment_lengths ;;
  mn <- py_min comment_lengths ;;
  md <- (if 3 <=? List.length comments
         then m <- median comment_lengths ;; Ok (Some m)
         else Ok None) ;;
  Ok (mkMetrics (List.length comments) (List.length (first_keys emails))
        (list_sum comment_lengths) av (Some mx) (Some mn) md).

(** [calculate_metrics(post, comments)]: the three [except] clauses
    turn every exception into an [InvalidData]. *)
Definition calculate_metrics (post : value) (comments : list value)
  : outcome Metrics :=
  match comments with
  | [] => Returned (mkMetrics 0 0 0 0%Q None None None)
  | _ :: _ =>
      match compute comments with
      | Ok metrics => Returned metrics
      | Raise KeyError => InvalidData MissingCommentField
      | Raise StatisticsError => InvalidData StatisticalError
      | Raise _ => InvalidData UnexpectedError
      end
  end.


(** The comments [calculate_metrics] reads to their end: a body that
    has a length, an email that can go in a set. *)
Definition measurable (comment : value) : bool :=
  match getitem comment "body", getitem comment "email" with
  | Ok b, Ok e => match py_len b with
                  | Ok _ => hashable e
                  | Raise _ => false
                  end
  | _, _ => false
  end.

End Transform.

(** ** dashboard.py

    [DashboardAnalyzer] keeps the same three attributes as
    [JSONPlaceholderAnalyzer], and [Analyzer] is its state too.  The
    messages of [st.success] and [st.error] and the page of [main] are
    left out; a [pd.DataFrame] made of a list of rows is that list. *)

(** [a == b] on the values of a decoded JSON text; the items of a dict
    have distinct keys. *)
Fixpoint py_eq (a b : value) : bool :=
  match a, b with
  | VNone, VNone => true
  | VBool x, VBool y => Bool.eqb x y
  | VBool x, VInt y => Z.eqb (Z.b2z x) y
  | VInt x, VBool y => Z.eqb x (Z.b2z y)
  | VInt x, VInt y => Z.eqb x y
  | VStr x, VStr y => String.eqb x y
  | VList xs, VList ys =>
      (fix all2 (xs ys : list value) : bool :=
         match xs, ys with
         | [], [] => true
         | x :: xs', y :: ys' => py_eq x y && all2 xs' ys'
         | _, _ => false
         end) xs ys
  | VDict d, VDict e =>
      Nat.eqb (List.length d) (List.length e)
      && forallb (fun item =>
                    match item with
                    | (k, v) => match assoc k e with
                                | Some w => py_eq v w
                                | None => false
                                end
                    end) d
  | _, _ => false
  end.

(** [[x for x in l if f(x)]] *)
Fixpoint filterM {A : Type} (f : A -> result bool) (l : list A)
  : result (list A) :=
  match l with
  | [] => Ok []
  | x :: l' => b <- f x ;; r <- filterM f l' ;; Ok (if b then x :: r else r)
  end.

Module Dashboard.

Section Load.

Variable json_loads : string -> result value.

(** [for line in stringio]: the [try] in the loop catches a
    [JSONDecodeError] only; another exception leaves the loop, with
    what the lines before have stored. *)
Fixpoint load_lines (lines : list string) (self : Analyzer)
  : option exn * Analyzer :=
  match lines with
  | [] => (None, self)
  | line :: rest =>
      match (message <- json_loads (PyStr.strip line) ;;
             store_message self message) with
      | Ok self' => load_lines rest self'
      | Raise JSONDecodeError => load_lines rest self
      | Raise e => (Some e, self)
      end
  end.

(** [load_data(uploaded_file)].  [content] is what decoding the upload
    as UTF-16 gives: the lines of the text, or the exception raised. *)
Definition load_data (content : result (list string)) (self : Analyzer)
  : bool * Analyzer :=
  match content with
  | Raise _ => (false, self)
  | Ok lines =>
      match load_lines lines self with
      | (None, self') => (true, self')
      | (Some _, self') => (false, self')
      end
  end.

End Load.

Module User.
Record row : Type := mk {
  username : value;
  post_count : nat;
  total_comments : nat;
  avg_post_length : Q
}.
End User.

Module Post.
Record row : Type := mk {
  post_id : value;
  title : value;
  length : nat;
  comment_count : nat
}.
End Post.

Module Comment.
Record metrics : Type := mk {
  total_comments : nat;
  avg_length : Q;
  lengths : list nat
}.
End Comment.

(** [[c for c in self.comments if c['postId'] == post['id']]] *)
Definition comments_of (self : Analyzer) (post : value) : result (list value) :=
  filterM (fun c => cp <- getitem c "postId" ;;
                    pid <- getitem post "id" ;;
                    Ok (py_eq cp pid))
    (comments self).

(** [[post for post in self.posts if post['userId'] == user_id]] *)
Definition user_posts (self : Analyzer) (user_id : hkey) : result (list value) :=
  filterM (fun post => u <- getitem post "userId" ;;
                       Ok (py_eq u (value_of_key user_id)))
    (posts self).

Section UserMetrics.

(** [round(x, 2)] *)
Variable round2 : Q -> Q.

(** One turn of the loop of [get_user_metrics]. *)
Definition user_row (self : Analyzer) (item : hkey * value) : result User.row :=
  let (user_id, user) := item in
  ups <- user_posts self user_id ;;
  let post_count := List.length ups in
  counts <- mapM (fun post => cs <- comments_of self post ;;
                              Ok (List.length cs)) ups ;;
  avg_post_length <-
    (if 0 <? post_count
     then words <- mapM (fun post => b <- getitem post "body" ;;
                                     ws <- str_split b ;;
                                     Ok (List.length ws)) ups ;;
          truediv (list_sum words) post_count
     else Ok 0%Q) ;;
  name <- getitem user "username" ;;
  Ok (User.mk name post_count (list_sum counts) (round2 avg_post_length)).

Definition get_user_metrics (self : Analyzer) : result (list User.row) :=
  mapM (user_row self) (users self).

End UserMetrics.



Definition get_comment_metrics (self : Analyzer) : result Comment.metrics :=
  comment_lengths <- mapM (fun comment => b <- getitem comment "body" ;; py_len b)
                       (comments self) ;;
  avg_length <- match comment_lengths with
                | [] => Ok 0%Q
                | _ :: _ => truediv (list_sum comment_lengths)
                              (List.length comment_lengths)
                end ;;
  Ok (Comment.mk (List.length (comments self)) avg_length comment_lengths).

End Dashboard.


(** A row of the dashboard for the item [item] of [users] has the
    counts of the entry of its user id in the result [res] of the
    analyzer, and counts 0 when there is none. *)
Definition row_agrees (round2 : Q -> Q) (res : pydict UserMetrics)
  (item : hkey * value) (row : Dashboard.User.row) : Prop :=
  getitem (snd item) "username" = Ok (Dashboard.User.username row)
  /\ match dict_get (fst item) res with
     | Some m =>
         Dashboard.User.post_count row = post_count m
         /\ Dashboard.User.total_comments row = total_comments_received m
         /\ Dashboard.User.avg_post_length row = round2 (avg_post_length m)
     | None =>
         Dashboard.User.post_count row = 0
         /\ Dashboard.User.total_comments row = 0
         /\ Dashboard.User.avg_post_length row = round2 0%Q
     end.


(** ** The texts of a pattern

    [in_lang r s]: the whole of [s] is a text of the pattern [r]. *)
Inductive in_lang : Re.regex -> string -> Prop :=
| in_eps : in_lang Re.Eps ""
| in_class (p : ascii -> bool) (c : ascii) :
    p c = true -> in_lang (Re.Class p) (String c "")
| in_cat (r1 r2 : Re.regex) (s1 s2 : string) :
    in_lang r1 s1 -> in_lang r2 s2 -> in_lang (Re.Cat r1 r2) (s1 ++ s2)
| in_alt_l (r1 r2 : Re.regex) (s : string) :
    in_lang r1 s -> in_lang (Re.Alt r1 r2) s
| in_alt_r (r1 r2 : Re.regex) (s : string) :
    in_lang r2 s -> in_lang (Re.Alt r1 r2) s
| in_star_nil (r : Re.regex) : in_lang (Re.Star r) ""
| in_star_cons (r : Re.regex) (s1 s2 : string) :
    in_lang r s1 -> in_lang (Re.Star r) s2 -> in_lang (Re.Star r) (s1 ++ s2).

Fixpoint all_chars (p : ascii -> bool) (s : string) : bool :=
  match s with
  | EmptyString => true
  | String c s' => p c && all_chars p s'
  end.

(** The characters of the two sides of the [@]. *)
Definition local_char (c : ascii) : bool := Re.alnum c || Re.one_of "._%+-" c.
Definition domain_char (c : ascii) : bool := Re.alnum c || Re.one_of ".-" c.

Definition newline : string := String (ascii_of_nat 10) "".

(** An address as [check_email_format] takes it: a name, an [@], a
    domain, a dot, two letters or more; and a newline may follow. *)
Definition email_text (s : string) : Prop :=
  exists name domain tld tail,
    s = name ++ "@" ++ domain ++ "." ++ tld ++ tail
    /\ name <> "" /\ all_chars local_char name = true
    /\ domain <> "" /\ all_chars domain_char domain = true
    /\ 2 <= String.length tld /\ all_chars Re.alpha tld = true
    /\ (tail = "" \/ tail = newline).

(** The number of [c] in [s]. *)
Fixpoint count_char (c : ascii) (s : string) : nat :=
  match s with
  | EmptyString => 0
  | String c' s' => (if Ascii.eqb c c' then 1 else 0) + count_char c s'
  end.

(** * Properties *)

(** ** The exception monad *)

Lemma bind_Ok {A B : Type} (c : result A) (k : A -> result B) (b : B) :
  bind c k = Ok b -> exists a, c = Ok a /\ k a = Ok b.
Proof.
  destruct c as [a|e]; simpl; intros H; [eauto | discriminate].
Qed.

Lemma bind_Raise {A B : Type} (c : result A) (k : A -> result B) (e : exn) :
  bind c k = Raise e -> c = Raise e \/ exists a, c = Ok a /\ k a = Raise e.
Proof.
  destruct c as [a|e']; simpl; intros H; [right; eauto | left; congruence].
Qed.

(** Inverts the equations [c >>= k = Ok b] among the hypotheses. *)
Ltac inv_bind :=
  repeat match goal with
         | H : bind _ _ = Ok _ |- _ =>
             let a := fresh "a" in
             let Ha := fresh "Ha" in
             apply bind_Ok in H; destruct H as [a [Ha H]]
         | H : Ok _ = Ok _ |- _ => injection H as H
         | H : Raise _ = Ok _ |- _ => discriminate H
         end.

Section FoldM.

Context {A B : Type} (f : A -> B -> result A).

Lemma foldM_app (l1 l2 : list B) (a : A) :
  foldM f (l1 ++ l2) a = (a' <- foldM f l1 a ;; foldM f l2 a').
Proof.
  revert a; induction l1 as [|x l1 IH]; intros a; simpl; [reflexivity|].
  destruct (f a x) as [a'|e]; simpl; [apply IH | reflexivity].
Qed.

(** An invariant of the loop body is an invariant of the loop. *)
Lemma foldM_invariant (P : A -> Prop) (l : list B) :
  (forall a x a', In x l -> P a -> f a x = Ok a' -> P a') ->
  forall a a', P a -> foldM f l a = Ok a' -> P a'.
Proof.
  induction l as [|x l IH]; intros Hstep a a' Ha Hrun; simpl in Hrun.
  - injection Hrun as <-; exact Ha.
  - apply bind_Ok in Hrun; destruct Hrun as [a1 [H1 H2]].
    apply (IH (fun a0 y a0' Hy => Hstep a0 y a0' (or_intror Hy)) a1 a').
    + apply (Hstep a x a1); [left; reflexivity | exact Ha | exact H1].
    + exact H2.
Qed.

(** A loop whose body returns on every element, from every state that
    satisfies an invariant, returns. *)
Lemma foldM_returns (P : A -> Prop) (l : list B) :
  (forall a x, In x l -> P a -> exists a', f a x = Ok a' /\ P a') ->
  forall a, P a -> exists a', foldM f l a = Ok a' /\ P a'.
Proof.
  induction l as [|x l IH]; intros Hstep a Ha; simpl.
  - exists a; split; [reflexivity | exact Ha].
  - destruct (Hstep a x (or_introl eq_refl) Ha) as [a1 [H1 P1]].
    rewrite H1; simpl.
    apply IH; [|exact P1].
    intros a0 y Hy; apply Hstep; right; exact Hy.
Qed.

(** The exceptions of the loop are those of its body. *)
Lemma foldM_raises (e : exn) (l : list B) :
  forall a, foldM f l a = Raise e -> exists a0 x, In x l /\ f a0 x = Raise e.
Proof.
  induction l as [|x l IH]; intros a Hrun; simpl in Hrun; [discriminate|].
  destruct (f a x) as [a1|e1] eqn:E; simpl in Hrun.
  - destruct (IH a1 Hrun) as [a0 [y [Hy Hf]]].
    exists a0, y; split; [right; exact Hy | exact Hf].
  - injection Hrun as ->. exists a, x; split; [left; reflexivity | exact E].
Qed.

End FoldM.

Section MapM.

Context {A B : Type} (f : A -> result B).

Lemma mapM_Forall2 (l : list A) (l' : list B) :
  mapM f l = Ok l' -> Forall2 (fun x y => f x = Ok y) l l'.
Proof.
  revert l'; induction l as [|x l IH]; intros l' H; simpl in H.
  - injection H as <-; constructor.
  - inv_bind. subst l'. constructor; [assumption | apply IH; assumption].
Qed.

Lemma mapM_returns (l : list A) :
  (forall x, In x l -> exists y, f x = Ok y) -> exists l', mapM f l = Ok l'.
Proof.
  induction l as [|x l IH]; intros H; simpl.
  - eexists; reflexivity.
  - destruct (H x (or_introl eq_refl)) as [y Hy]; rewrite Hy; simpl.
    destruct IH as [l' Hl']; [intros z Hz; apply H; right; exact Hz|].
    rewrite Hl'; simpl; eexists; reflexivity.
Qed.

Lemma mapM_raises (e : exn) (l : list A) :
  mapM f l = Raise e -> exists x, In x l /\ f x = Raise e.
Proof.
  induction l as [|x l IH]; intros H; simpl in H; [discriminate|].
  destruct (f x) as [y|e1] eqn:E; simpl in H.
  - destruct (mapM f l) as [ys|e2]; simpl in H; [discriminate|].
    destruct (IH H) as [z [Hz Hf]]. exists z; split; [right|]; assumption.
  - injection H as ->. exists x; split; [left; reflexivity | exact E].
Qed.

End MapM.

(** ** Keys and dictionaries *)

Lemma key_eqb_true (a b : hkey) :
  key_eqb a b = true <-> norm_key a = norm_key b.
Proof.
  unfold key_eqb; destruct (hkey_eq_dec (norm_key a) (norm_key b)); split;
    intros; congruence.
Qed.

Lemma key_eqb_refl (a : hkey) : key_eqb a a = true.
Proof. apply key_eqb_true; reflexivity. Qed.

Lemma key_eqb_sym (a b : hkey) : key_eqb a b = key_eqb b a.
Proof.
  destruct (key_eqb a b) eqn:E1, (key_eqb b a) eqn:E2; try reflexivity.
  - apply key_eqb_true in E1. symmetry in E1. apply key_eqb_true in E1. congruence.
  - apply key_eqb_true in E2. symmetry in E2. apply key_eqb_true in E2. congruence.
Qed.

Lemma key_eqb_trans (a b c : hkey) :
  key_eqb a b = true -> key_eqb b c = true -> key_eqb a c = true.
Proof. rewrite !key_eqb_true; congruence. Qed.

(** Equal keys look up the same. *)
Lemma key_eqb_compat (a b c : hkey) :
  key_eqb a b = true -> key_eqb a c = key_eqb b c.
Proof.
  intros Hab.
  destruct (key_eqb b c) eqn:E.
  - eapply key_eqb_trans; eassumption.
  - destruct (key_eqb a c) eqn:E'; [|reflexivity].
    rewrite key_eqb_sym in Hab.
    rewrite (key_eqb_trans _ _ _ Hab E') in E; discriminate.
Qed.

Section Dict.

Context {V : Type}.
Implicit Types (d : pydict V) (k : hkey) (v : V).

Lemma dict_get_compat k k' d :
  key_eqb k k' = true -> dict_get k d = dict_get k' d.
Proof.
  intros H; induction d as [|[k1 v1] d IH]; simpl; [reflexivity|].
  rewrite (key_eqb_compat _ _ k1 H), IH; reflexivity.
Qed.

Lemma dict_set_set k v v' d :
  dict_set k v' (dict_set k v d) = dict_set k v' d.
Proof.
  induction d as [|[k1 v1] d IH]; simpl.
  - rewrite key_eqb_refl; reflexivity.
  - destruct (key_eqb k k1) eqn:E; simpl; rewrite E; [reflexivity|].
    rewrite IH; reflexivity.
Qed.

(** What [d[k] = f(d[k])] does on a defaultdict, in one assignment. *)
Lemma dd_update_set dflt k (f : V -> V) d :
  dd_update dflt k f d
  = dict_set k (f (dict_get_or dflt k d)) d.
Proof.
  unfold dd_update, dd_getitem, dict_get_or.
  destruct (dict_get k d); [reflexivity | apply dict_set_set].
Qed.

Lemma dict_get_set k k' v d :
  dict_get k (dict_set k' v d)
  = if key_eqb k k' then Some v else dict_get k d.
Proof.
  induction d as [|[k1 v1] d IH]; simpl; [reflexivity|].
  destruct (key_eqb k' k1) eqn:E; simpl.
  - rewrite (key_eqb_sym k k'), (key_eqb_sym k k1), (key_eqb_compat _ _ k E).
    destruct (key_eqb k1 k); reflexivity.
  - destruct (key_eqb k k1) eqn:E1; [|exact IH].
    destruct (key_eqb k k') eqn:E2; [|reflexivity].
    rewrite key_eqb_sym in E2.
    rewrite (key_eqb_trans _ _ _ E2 E1) in E; discriminate.
Qed.

Lemma dict_mem_set k k' v d :
  dict_mem k (dict_set k' v d) = key_eqb k k' || dict_mem k d.
Proof.
  unfold dict_mem; rewrite dict_get_set.
  destruct (key_eqb k k'); reflexivity.
Qed.

Lemma dict_get_In k v d :
  dict_get k d = Some v -> exists k0, In (k0, v) d /\ key_eqb k k0 = true.
Proof.
  induction d as [|[k1 v1] d IH]; simpl; [discriminate|].
  destruct (key_eqb k k1) eqn:E.
  - intros [= ->]. exists k1; split; [left; reflexivity | exact E].
  - intros H; destruct (IH H) as [k0 [Hin Hk]].
    exists k0; split; [right; exact Hin | exact Hk].
Qed.

Lemma In_dict_mem k v d : In (k, v) d -> dict_mem k d = true.
Proof.
  unfold dict_mem.
  induction d as [|[k1 v1] d IH]; simpl; [intros []|].
  intros [[= -> ->]|Hin].
  - rewrite key_eqb_refl; reflexivity.
  - destruct (key_eqb k k1); [reflexivity | apply IH; exact Hin].
Qed.

(** The items of [d] after [d[k] = v]: [v], or what was there. *)
Lemma In_dict_set k v d k0 v0 :
  In (k0, v0) (dict_set k v d) ->
  (v0 = v /\ key_eqb k k0 = true) \/ In (k0, v0) d.
Proof.
  induction d as [|[k1 v1] d IH]; simpl.
  - intros [[= <- <-]|[]]. left; split; [reflexivity | apply key_eqb_refl].
  - destruct (key_eqb k k1) eqn:E; simpl.
    + intros [[= <- <-]|Hin]; [left; split; [reflexivity | exact E] | right; right; exact Hin].
    + intros [Heq|Hin]; [right; left; exact Heq|].
      destruct (IH Hin) as [Hl|Hr]; [left; exact Hl | right; right; exact Hr].
Qed.

End Dict.

Lemma dict_mem_keys {V : Type} (k : hkey) (d : pydict V) :
  dict_mem k d = existsb (key_eqb k) (map fst d).
Proof.
  unfold dict_mem; induction d as [|[k1 v1] d IH]; simpl; [reflexivity|].
  destruct (key_eqb k k1); [reflexivity | exact IH].
Qed.

Lemma Forall2_In_r {A B : Type} (R : A -> B -> Prop) (l : list A) (l' : list B) :
  Forall2 R l l' -> forall y, In y l' -> exists x, In x l /\ R x y.
Proof.
  induction 1 as [|x y l l' Hxy _ IH]; intros z Hz; [destruct Hz|].
  destruct Hz as [<-|Hz].
  - exists x; split; [left; reflexivity | exact Hxy].
  - destruct (IH z Hz) as [x0 [Hin HR]]. exists x0; split; [right|]; assumption.
Qed.

(** ** [analyze_user_activity] *)

(** The first loop puts one more post, and its words, on the entry of
    the user of the post. *)
Lemma count_post_Ok (um um' : pydict UserMetrics) (post : value) :
  count_post um post = Ok um' ->
  exists k n,
    post_user_key post = Some k
    /\ um' = dict_set k (add_total_words n
                           (add_post_count 1 (dict_get_or default_metrics k um))) um.
Proof.
  unfold count_post, post_user_key; intros H; inv_bind.
  rewrite Ha, Ha0. exists a0, (List.length a2); split; [reflexivity|].
  subst um'. rewrite !dd_update_set.
  unfold dict_get_or at 1. rewrite dict_get_set, key_eqb_refl.
  apply dict_set_set.
Qed.

Lemma post_ok_fields (post : value) :
  post_ok post = true ->
  exists u k s i ki,
    getitem post "userId" = Ok u /\ py_hash u = Ok k
    /\ getitem post "body" = Ok (VStr s)
    /\ getitem post "id" = Ok i /\ py_hash i = Ok ki.
Proof.
  unfold post_ok, hashable.
  destruct (getitem post "userId") as [u|]; [|discriminate].
  destruct (getitem post "body") as [[| | |s| |]|]; try discriminate.
  destruct (getitem post "id") as [i|]; [|discriminate].
  destruct (py_hash u) as [k|] eqn:Ek; [|discriminate].
  destruct (py_hash i) as [ki|] eqn:Eki; [|discriminate].
  intros _. exists u, k, s, i, ki. repeat split; assumption.
Qed.

Lemma count_post_returns (um : pydict UserMetrics) (post : value) :
  post_ok post = true -> exists um', count_post um post = Ok um'.
Proof.
  intros H; destruct (post_ok_fields post H) as (u & k & s & i & ki & Hu & Hk & Hb & _).
  unfold count_post. rewrite Hu; simpl. rewrite Hk; simpl. rewrite Hb; simpl.
  eexists; reflexivity.
Qed.

Lemma credit_comments_Ok um pc um' pc' (post : value) :
  credit_comments (um, pc) post = Ok (um', pc') ->
  exists k n,
    post_user_key post = Some k
    /\ um' = dict_set k (add_total_comments n (dict_get_or default_metrics k um)) um.
Proof.
  unfold credit_comments, post_user_key; intros H; inv_bind.
  destruct (dd_getitem [] a1 pc) as [cs pc1]. inv_bind.
  rewrite Ha, Ha2. exists a2, (List.length cs); split; [reflexivity|].
  subst um'. apply dd_update_set.
Qed.

Lemma credit_comments_returns acc (post : value) :
  post_ok post = true -> exists acc', credit_comments acc post = Ok acc'.
Proof.
  intros H; destruct (post_ok_fields post H) as (u & k & s & i & ki & Hu & Hk & _ & Hi & Hki).
  destruct acc as [um pc]. unfold credit_comments.
  rewrite Hu; simpl. rewrite Hi; simpl. rewrite Hki; simpl.
  destruct (dd_getitem [] ki pc) as [cs pc1]. rewrite Hk; simpl.
  eexists; reflexivity.
Qed.

Lemma group_comment_returns pc (comment : value) :
  comment_ok comment = true -> exists pc', group_comment pc comment = Ok pc'.
Proof.
  unfold comment_ok, hashable, group_comment.
  destruct (getitem comment "postId") as [p|]; [|discriminate]; simpl.
  destruct (py_hash p) as [k|]; [|discriminate]; simpl.
  intros _; eexists; reflexivity.
Qed.

(** What the last loop does to an item: it stays when it has no post,
    and gets its two quotients and its name when it has one. *)
Lemma calc_averages_Ok us k m k' m' :
  calc_averages us (k, m) = Ok (k', m') ->
  k' = k
  /\ post_count m' = post_count m
  /\ (post_count m = 0 -> m' = m)
  /\ (0 < post_count m ->
      exists name,
        get_method (dict_get_or (VDict []) k us) "username"
          (VStr ("User " ++ str_of_key k)) = Ok name
        /\ m' = mkUserMetrics (post_count m) (total_comments_received m)
                  (Z.of_nat (total_comments_received m) # Pos.of_nat (post_count m))
                  (total_words_in_posts m)
                  (Z.of_nat (total_words_in_posts m) # Pos.of_nat (post_count m))
                  (Some name)).
Proof.
  unfold calc_averages.
  destruct (0 <? post_count m) eqn:E.
  - apply Nat.ltb_lt in E. intros H; inv_bind.
    subst k' m'; simpl.
    split; [reflexivity|]. split; [reflexivity|]. split; [lia|].
    intros _. exists a1; split; [exact Ha1|].
    destruct (post_count m) as [|n]; [lia|].
    simpl in Ha, Ha0. injection Ha as <-. injection Ha0 as <-. reflexivity.
  - apply Nat.ltb_ge in E. intros [= <- <-].
    split; [reflexivity|]. split; [reflexivity|]. split; [reflexivity | lia].
Qed.

Lemma calc_averages_returns us k m :
  forallb (fun item => user_ok (snd item)) us = true ->
  exists item', calc_averages us (k, m) = Ok item'.
Proof.
  intros Hus. unfold calc_averages.
  destruct (0 <? post_count m) eqn:E; [|eexists; reflexivity].
  apply Nat.ltb_lt in E.
  destruct (post_count m) as [|n] eqn:Epc; [lia|].
  simpl.
  assert (Hu : exists d, match dict_get k us with Some u => u | None => VDict [] end = VDict d).
  { destruct (dict_get k us) as [u|] eqn:Eu; [|eexists; reflexivity].
    apply dict_get_In in Eu. destruct Eu as [k0 [Hin _]].
    rewrite forallb_forall in Hus. specialize (Hus _ Hin). simpl in Hus.
    destruct u; try discriminate. eexists; reflexivity. }
  destruct Hu as [d ->]. simpl. eexists; reflexivity.
Qed.

Lemma sum_post_count_set k v (d : pydict UserMetrics) :
  sum_post_count (dict_set k v d) + post_count (dict_get_or default_metrics k d)
  = sum_post_count d + post_count v.
Proof.
  unfold sum_post_count, dict_get_or.
  induction d as [|[k1 v1] d IH]; simpl; [lia|].
  destruct (key_eqb k k1); simpl; lia.
Qed.

Lemma count_posts_sum (l : list value) :
  forall um um', foldM count_post l um = Ok um' ->
  sum_post_count um' = sum_post_count um + List.length l.
Proof.
  induction l as [|p l IH]; intros um um' H; simpl in H.
  - injection H as <-; simpl; lia.
  - apply bind_Ok in H; destruct H as [um1 [H1 H2]].
    rewrite (IH _ _ H2).
    destruct (count_post_Ok _ _ _ H1) as (k & n & _ & ->).
    pose proof (sum_post_count_set k
      (add_total_words n (add_post_count 1 (dict_get_or default_metrics k um))) um) as E.
    simpl in E |- *. lia.
Qed.

Lemma credit_comments_sum (l : list value) :
  forall acc acc', foldM credit_comments l acc = Ok acc' ->
  sum_post_count (fst acc') = sum_post_count (fst acc).
Proof.
  induction l as [|p l IH]; intros acc acc' H; simpl in H.
  - injection H as <-; reflexivity.
  - apply bind_Ok in H; destruct H as [[um1 pc1] [H1 H2]].
    rewrite (IH _ _ H2). destruct acc as [um pc]; simpl.
    destruct (credit_comments_Ok _ _ _ _ _ H1) as (k & n & _ & ->).
    pose proof (sum_post_count_set k
      (add_total_comments n (dict_get_or default_metrics k um)) um) as E.
    simpl in E. lia.
Qed.

Lemma calc_averages_all_sum us (um res : pydict UserMetrics) :
  mapM (calc_averages us) um = Ok res ->
  sum_post_count res = sum_post_count um /\ map fst res = map fst um.
Proof.
  intros H; apply mapM_Forall2 in H.
  induction H as [|[k m] [k' m'] um res Hx _ [IH1 IH2]]; [split; reflexivity|].
  destruct (calc_averages_Ok _ _ _ _ _ Hx) as (-> & Hpc & _).
  unfold sum_post_count in *; simpl. rewrite Hpc, IH1, IH2; split; reflexivity.
Qed.

(** The users that have an entry after the first loop are those of the
    posts. *)
Lemma count_posts_mem (l : list value) :
  forall um um', foldM count_post l um = Ok um' ->
  forall k, dict_mem k um' = dict_mem k um || existsb (posted_by k) l.
Proof.
  induction l as [|p l IH]; intros um um' H k; simpl in H.
  - injection H as <-; simpl; rewrite orb_false_r; reflexivity.
  - apply bind_Ok in H; destruct H as [um1 [H1 H2]].
    rewrite (IH _ _ H2 k).
    destruct (count_post_Ok _ _ _ H1) as (k1 & n & Hk1 & ->).
    rewrite dict_mem_set. simpl. unfold posted_by at 2. rewrite Hk1.
    destruct (key_eqb k k1), (dict_mem k um); reflexivity.
Qed.

Lemma credit_comments_mem (l : list value) :
  forall acc acc', foldM credit_comments l acc = Ok acc' ->
  forall k, dict_mem k (fst acc') = dict_mem k (fst acc) || existsb (posted_by k) l.
Proof.
  induction l as [|p l IH]; intros acc acc' H k; simpl in H.
  - injection H as <-; simpl; rewrite orb_false_r; reflexivity.
  - apply bind_Ok in H; destruct H as [[um1 pc1] [H1 H2]].
    rewrite (IH _ _ H2 k). destruct acc as [um pc]; simpl.
    destruct (credit_comments_Ok _ _ _ _ _ H1) as (k1 & n & Hk1 & ->).
    rewrite dict_mem_set. unfold posted_by at 2. rewrite Hk1.
    destruct (key_eqb k k1), (dict_mem k um); reflexivity.
Qed.


Lemma count_posts_posted (l : list value) :
  forall um um', all_posted um -> foldM count_post l um = Ok um' -> all_posted um'.
Proof.
  apply foldM_invariant.
  intros um p um' _ Hinv H k0 m0 Hin.
  destruct (count_post_Ok _ _ _ H) as (k & n & _ & ->).
  apply In_dict_set in Hin. destruct Hin as [[-> _]|Hin]; [simpl; lia|].
  exact (Hinv _ _ Hin).
Qed.

Lemma credit_comments_posted (l : list value) :
  forall acc acc',
    all_posted (fst acc) ->
    (forall k, existsb (posted_by k) l = true -> dict_mem k (fst acc) = true) ->
    foldM credit_comments l acc = Ok acc' -> all_posted (fst acc').
Proof.
  intros acc acc' H1 H2 Hrun.
  apply (foldM_invariant credit_comments
           (fun a => all_posted (fst a)
                     /\ forall k, existsb (posted_by k) l = true ->
                                  dict_mem k (fst a) = true) l)
    with (a' := acc') in Hrun; [apply Hrun | | split; assumption].
  clear. intros [um pc] p [um' pc'] Hp [Hinv Hmem] H; simpl in *.
  destruct (credit_comments_Ok _ _ _ _ _ H) as (k & n & Hk & ->).
  split.
  - intros k0 m0 Hin.
    apply In_dict_set in Hin. destruct Hin as [[-> _]|Hin]; [|exact (Hinv _ _ Hin)].
    simpl. unfold dict_get_or.
    assert (Hm : dict_mem k um = true).
    { apply Hmem. apply existsb_exists. exists p; split; [exact Hp|].
      unfold posted_by; rewrite Hk; apply key_eqb_refl. }
    unfold dict_mem in Hm. destruct (dict_get k um) as [v|] eqn:Ev; [|discriminate].
    apply dict_get_In in Ev. destruct Ev as [k1 [Hin _]]. exact (Hinv _ _ Hin).
  - intros k0 Hk0. rewrite dict_mem_set, (Hmem k0 Hk0). apply orb_true_r.
Qed.

(** The three loops and the last one, when there is a user. *)
Lemma analyze_user_activity_Ok (self : Analyzer) (res : pydict UserMetrics) :
  users self <> [] ->
  analyze_user_activity self = Ok res ->
  exists um1 pc um2 pc2,
    foldM count_post (posts self) [] = Ok um1
    /\ foldM credit_comments (posts self) (um1, pc) = Ok (um2, pc2)
    /\ mapM (calc_averages (users self)) um2 = Ok res.
Proof.
  unfold analyze_user_activity. destruct (users self) as [|u us] eqn:Eu; [congruence|].
  intros _ H. inv_bind. destruct a1 as [um2 pc2].
  exists a, a0, um2, pc2. repeat split; assumption.
Qed.

Lemma analyze_user_activity_returns (self : Analyzer) :
  activity_ready self = true -> exists res, analyze_user_activity self = Ok res.
Proof.
  unfold activity_ready; rewrite !andb_true_iff; intros [[Hp Hc] Hu].
  rewrite forallb_forall in Hp, Hc.
  unfold analyze_user_activity.
  destruct (users self) as [|u us] eqn:Eu; [eexists; reflexivity|].
  destruct (foldM_returns count_post (fun _ => True) (posts self))
    with (a := @nil (hkey * UserMetrics))
    as [um1 [-> _]]; [|exact I|].
  { intros a x Hx _. destruct (count_post_returns a x (Hp x Hx)) as [a' ->]. eauto. }
  simpl.
  destruct (foldM_returns group_comment (fun _ => True) (comments self))
    with (a := @nil (hkey * list value))
    as [pc [-> _]]; [|exact I|].
  { intros a x Hx _. destruct (group_comment_returns a x (Hc x Hx)) as [a' ->]. eauto. }
  simpl.
  destruct (foldM_returns credit_comments (fun _ => True) (posts self)) with (a := (um1, pc))
    as [[um2 pc2] [-> _]]; [|exact I|].
  { intros a x Hx _. destruct (credit_comments_returns a x (Hp x Hx)) as [a' ->]. eauto. }
  simpl. apply mapM_returns. intros [k m] _. apply calc_averages_returns; exact Hu.
Qed.

(** C2.  With no post and no comment, the three analyses return, and
    return their results with every number zero and every collection
    empty. *)
Theorem empty_input_all_zero (us : pydict value) :
  let self := mkAnalyzer us [] [] in
  analyze_user_activity self = Ok []
  /\ analyze_comment_patterns self
     = Ok (mkCommentMetrics 0 0%Q [] None None (mkSentiment 0 0 0) [])
  /\ analyze_post_engagement self
     = Ok (mkPostMetrics 0 (mkLengthBuckets 0 0 0) (mkTitleStats 0 0 0%Q 0%Q)
             [] []).
Proof.
  simpl. split; [|split; reflexivity].
  unfold analyze_user_activity; simpl. destruct us; reflexivity.
Qed.

(** C3, as the specification states it, fails on a state with posts
    and no user: the result is empty, and its sum is 0. *)
Lemma post_count_sum_not_total_without_users :
  ~ (forall res, analyze_user_activity userless_state = Ok res ->
                 sum_post_count res = List.length (posts userless_state)).
Proof.
  intros H. specialize (H [] eq_refl). discriminate H.
Qed.

(** C3 (amended).  When a user was ingested, the analysis returns on
    records that have the fields it reads, and whenever it returns, the
    ['post_count'] of its entries sum to the number of posts. *)
Theorem post_count_sum_is_total_posts (self : Analyzer) :
  users self <> [] ->
  (activity_ready self = true -> exists res, analyze_user_activity self = Ok res)
  /\ (forall res, analyze_user_activity self = Ok res ->
                  sum_post_count res = List.length (posts self)).
Proof.
  intros Hu. split; [apply analyze_user_activity_returns|].
  intros res H.
  destruct (analyze_user_activity_Ok self res Hu H) as (um1 & pc & um2 & pc2 & H1 & H3 & H4).
  destruct (calc_averages_all_sum _ _ _ H4) as [-> _].
  pose proof (credit_comments_sum _ _ _ H3) as E3; simpl in E3; rewrite E3.
  rewrite (count_posts_sum _ _ _ H1). reflexivity.
Qed.

Lemma post_count_sum_is_total_posts_witness :
  exists res, analyze_user_activity sample_state = Ok res /\ sum_post_count res = 3.
Proof.
  destruct (post_count_sum_is_total_posts sample_state) as [H1 H2].
  - discriminate.
  - destruct (H1 eq_refl) as [res Hres].
    exists res; split; [exact Hres | exact (H2 res Hres)].
Defined.

(** C1, as the specification states it, fails on the same state: its
    posts have user ids, and the result has no entry. *)
Lemma user_ids_of_posts_missing_without_users :
  ~ (forall res post k,
        analyze_user_activity userless_state = Ok res ->
        In post (posts userless_state) ->
        post_user_key post = Some k ->
        dict_mem k res = true).
Proof.
  intros H.
  specialize (H [] (sample_post 1 1 "first" "one two three") (KInt 1) eq_refl).
  simpl in H. discriminate H; auto.
Qed.

(** C1 (amended).  When a user was ingested, the analysis returns on
    records that have the fields it reads, and whenever it returns:
    every user id of a post has an entry; every entry is that of the
    user id of a post; and the ['username'] of an entry is the one of
    the user its key resolves to, and ["User {id}"] when its key
    resolves to no user. *)
Theorem user_activity_entries (self : Analyzer) :
  users self <> [] ->
  (activity_ready self = true -> exists res, analyze_user_activity self = Ok res)
  /\ (forall res, analyze_user_activity self = Ok res ->
      (forall post k, In post (posts self) -> post_user_key post = Some k ->
         exists k0 m, In (k0, m) res /\ key_eqb k k0 = true)
      /\ (forall k0 m, In (k0, m) res ->
            (exists post, In post (posts self) /\ posted_by k0 post = true)
            /\ (forall user name,
                  dict_get k0 (users self) = Some user ->
                  getitem user "username" = Ok name ->
                  username m = Some name)
            /\ (dict_get k0 (users self) = None ->
                username m = Some (VStr ("User " ++ str_of_key k0))))).
Proof.
  intros Hu. split; [apply analyze_user_activity_returns|].
  intros res H.
  destruct (analyze_user_activity_Ok self res Hu H) as (um1 & pc & um2 & pc2 & H1 & H3 & H4).
  assert (Hmem : forall k, dict_mem k res = existsb (posted_by k) (posts self)).
  { intros k. destruct (calc_averages_all_sum _ _ _ H4) as [_ Hk].
    rewrite dict_mem_keys, Hk, <- dict_mem_keys.
    pose proof (credit_comments_mem _ _ _ H3 k) as E3; simpl in E3; rewrite E3.
    rewrite (count_posts_mem _ _ _ H1 k); simpl.
    apply orb_diag. }
  assert (Hpos : all_posted um2).
  { apply (credit_comments_posted (posts self) (um1, pc) (um2, pc2)); [| |exact H3].
    - apply (count_posts_posted (posts self) [] um1); [|exact H1].
      intros k m [].
    - intros k Hk. simpl. rewrite (count_posts_mem _ _ _ H1 k), Hk. reflexivity. }
  split.
  - intros post k Hin Hk.
    assert (Hm : dict_mem k res = true).
    { rewrite Hmem. apply existsb_exists. exists post; split; [exact Hin|].
      unfold posted_by; rewrite Hk; apply key_eqb_refl. }
    unfold dict_mem in Hm. destruct (dict_get k res) as [m|] eqn:Em; [|discriminate].
    apply dict_get_In in Em. destruct Em as [k0 [Hk0 Heq]]. exists k0, m; auto.
  - intros k0 m Hin. split.
    + pose proof (In_dict_mem _ _ _ Hin) as Hm. rewrite Hmem in Hm.
      apply existsb_exists in Hm. exact Hm.
    + apply mapM_Forall2 in H4.
      destruct (Forall2_In_r _ _ _ H4 _ Hin) as [[k1 m1] [Hin1 Hcalc]].
      destruct (calc_averages_Ok _ _ _ _ _ Hcalc) as (-> & _ & _ & Hname).
      destruct (Hname (Hpos _ _ Hin1)) as [name [Hget ->]].
      unfold dict_get_or in Hget. simpl username. split.
      * intros user name' Huser Hfield. rewrite Huser in Hget.
        destruct user as [| | | | |d]; try discriminate.
        unfold get_method in Hget. unfold getitem in Hfield.
        destruct (assoc "username" d); [|discriminate].
        injection Hget as <-. injection Hfield as <-. reflexivity.
      * intros Hnone. rewrite Hnone in Hget. injection Hget as <-. reflexivity.
Qed.

Lemma user_activity_entries_witness :
  exists res,
    analyze_user_activity sample_state = Ok res
    /\ (exists k0 m, In (k0, m) res /\ key_eqb (KInt 7) k0 = true)
    /\ (forall k0 m, In (k0, m) res ->
          dict_get k0 (users sample_state) = None ->
          username m = Some (VStr ("User " ++ str_of_key k0))).
Proof.
  destruct (user_activity_entries sample_state) as [H1 H2].
  - discriminate.
  - destruct (H1 eq_refl) as [res Hres]. exists res.
    destruct (H2 res Hres) as [Hposts Hentries].
    split; [exact Hres|]. split.
    + apply (Hposts (sample_post 3 7 "third" "orphan") (KInt 7)); [|reflexivity].
      simpl; auto.
    + intros k0 m Hin. apply (Hentries k0 m Hin).
Defined.

(** ** No division by zero *)


Lemma nzd_Ok {A : Type} (a : A) : not_zero_division (Ok a).
Proof. discriminate. Qed.

Lemma nzd_bind {A B : Type} (c : result A) (k : A -> result B) :
  not_zero_division c -> (forall a, c = Ok a -> not_zero_division (k a)) ->
  not_zero_division (bind c k).
Proof.
  intros Hc Hk H. destruct c as [a|e]; simpl in H.
  - exact (Hk a eq_refl H).
  - apply Hc. injection H as ->. reflexivity.
Qed.

Lemma nzd_getitem v k : not_zero_division (getitem v k).
Proof. destruct v; try discriminate. simpl. destruct (assoc k d); discriminate. Qed.

Lemma nzd_py_hash v : not_zero_division (py_hash v).
Proof. destruct v; discriminate. Qed.

Lemma nzd_str_split v : not_zero_division (str_split v).
Proof. destruct v; discriminate. Qed.

Lemma nzd_str_lower v : not_zero_division (str_lower v).
Proof. destruct v; discriminate. Qed.

Lemma nzd_py_len v : not_zero_division (py_len v).
Proof. destruct v; discriminate. Qed.

Lemma nzd_py_in k v : not_zero_division (py_in k v).
Proof. destruct v; discriminate. Qed.

Lemma nzd_get_method v k dflt : not_zero_division (get_method v k dflt).
Proof. destruct v; discriminate. Qed.

Lemma nzd_truediv a b : 0 < b -> not_zero_division (truediv a b).
Proof. destruct b; [lia | discriminate]. Qed.

Create HintDb nzd.

#[local] Hint Resolve nzd_Ok nzd_getitem nzd_py_hash nzd_str_split nzd_str_lower
  nzd_py_len nzd_py_in nzd_get_method : nzd.

(** Takes a sequence of binds apart. *)
Ltac nzd :=
  repeat (apply nzd_bind; [solve [auto with nzd] | intros ? ?]);
  auto with nzd.

Lemma nzd_foldM {A B : Type} (f : A -> B -> result A) (l : list B) (a : A) :
  (forall a x, not_zero_division (f a x)) -> not_zero_division (foldM f l a).
Proof.
  intros Hf H. apply foldM_raises in H. destruct H as (a0 & x & _ & H).
  exact (Hf a0 x H).
Qed.

Lemma nzd_mapM {A B : Type} (f : A -> result B) (l : list A) :
  (forall x, not_zero_division (f x)) -> not_zero_division (mapM f l).
Proof.
  intros Hf H. apply mapM_raises in H. destruct H as (x & _ & H).
  exact (Hf x H).
Qed.

Lemma nzd_count_post um post : not_zero_division (count_post um post).
Proof. unfold count_post. nzd. Qed.

Lemma nzd_group_comment pc comment : not_zero_division (group_comment pc comment).
Proof. unfold group_comment. nzd. Qed.

Lemma nzd_credit_comments acc post : not_zero_division (credit_comments acc post).
Proof.
  destruct acc as [um pc]. unfold credit_comments. nzd.
  destruct (dd_getitem [] a1 pc). nzd.
Qed.

Lemma nzd_calc_averages us item : not_zero_division (calc_averages us item).
Proof.
  destruct item as [k m]. unfold calc_averages.
  destruct (0 <? post_count m) eqn:E; [|apply nzd_Ok].
  apply Nat.ltb_lt in E.
  apply nzd_bind; [apply nzd_truediv; exact E | intros ? _].
  apply nzd_bind; [apply nzd_truediv; exact E | intros ? _].
  nzd.
Qed.

Lemma nzd_comment_step acc comment : not_zero_division (comment_step acc comment).
Proof. unfold comment_step. nzd. Qed.

Lemma nzd_analyze_user_activity self :
  not_zero_division (analyze_user_activity self).
Proof.
  unfold analyze_user_activity. destruct (users self); [apply nzd_Ok|].
  apply nzd_bind; [apply nzd_foldM, nzd_count_post | intros um1 _].
  apply nzd_bind; [apply nzd_foldM, nzd_group_comment | intros pc _].
  apply nzd_bind; [apply nzd_foldM, nzd_credit_comments | intros [um2 pc2] _].
  apply nzd_mapM, nzd_calc_averages.
Qed.

Lemma nzd_analyze_comment_patterns self :
  not_zero_division (analyze_comment_patterns self).
Proof.
  unfold analyze_comment_patterns. destruct (comments self) as [|c cs]; [apply nzd_Ok|].
  apply nzd_bind; [apply nzd_foldM, nzd_comment_step | intros acc _].
  apply nzd_bind; [apply nzd_truediv; simpl; lia | intros avg _].
  apply nzd_Ok.
Qed.

(** C4.  No analysis divides by zero.  In [analyze_user_activity] the
    two quotients are taken under [post_count > 0]: an item without a
    post is left as it is, with the averages 0 it was made with, and
    every entry of the result has a post and the two quotients.  In
    [analyze_comment_patterns] the average is 0 when no comment was
    counted. *)
Theorem averages_guard_zero_counts (self : Analyzer) :
  analyze_user_activity self <> Raise ZeroDivisionError
  /\ analyze_comment_patterns self <> Raise ZeroDivisionError
  /\ (forall k m, post_count m = 0 ->
        calc_averages (users self) (k, m) = Ok (k, m))
  /\ (forall k, exists m,
        calc_averages (users self) (k, default_metrics) = Ok (k, m)
        /\ avg_comments_per_post m = 0%Q /\ avg_post_length m = 0%Q)
  /\ (forall res k m, analyze_user_activity self = Ok res -> In (k, m) res ->
        0 < post_count m
        /\ avg_comments_per_post m
           = (Z.of_nat (total_comments_received m) # Pos.of_nat (post_count m))
        /\ avg_post_length m
           = (Z.of_nat (total_words_in_posts m) # Pos.of_nat (post_count m)))
  /\ (forall res, analyze_comment_patterns self = Ok res ->
        total_comments res = 0 -> avg_comment_length res = 0%Q).
Proof.
  split; [apply nzd_analyze_user_activity|].
  split; [apply nzd_analyze_comment_patterns|].
  split; [|split; [|split]].
  - intros k m Hm. unfold calc_averages. rewrite Hm. reflexivity.
  - intros k. exists default_metrics. repeat split; reflexivity.
  - intros res k m H Hin.
    destruct (users self) as [|u us] eqn:Eu.
    { unfold analyze_user_activity in H. rewrite Eu in H.
      injection H as <-. destruct Hin. }
    assert (Hu : users self <> []) by (rewrite Eu; discriminate).
    destruct (analyze_user_activity_Ok self res Hu H)
      as (um1 & pc & um2 & pc2 & H1 & H3 & H4).
    assert (Hpos : all_posted um2).
    { apply (credit_comments_posted (posts self) (um1, pc) (um2, pc2)); [| |exact H3].
      - apply (count_posts_posted (posts self) [] um1); [|exact H1].
        intros k' m' [].
      - intros k' Hk. simpl. rewrite (count_posts_mem _ _ _ H1 k'), Hk. reflexivity. }
    apply mapM_Forall2 in H4.
    destruct (Forall2_In_r _ _ _ H4 _ Hin) as [[k1 m1] [Hin1 Hcalc]].
    destruct (calc_averages_Ok _ _ _ _ _ Hcalc) as (_ & _ & _ & Hm).
    destruct (Hm (Hpos _ _ Hin1)) as [name [_ ->]]. simpl.
    split; [exact (Hpos _ _ Hin1)|]. split; reflexivity.
  - intros res H Hz. unfold analyze_comment_patterns in H.
    destruct (comments self) as [|c cs].
    + injection H as <-. reflexivity.
    + inv_bind. subst res. simpl in Hz. discriminate.
Qed.

Lemma averages_guard_zero_counts_witness :
  (exists m, In (KInt 1, m) [(KInt 1, mkUserMetrics 2 1 (1 # 2) 8 (8 # 2)
                                         (Some (VStr "alice")))]
             /\ avg_comments_per_post m = (1 # 2)%Q)
  /\ avg_comment_length no_comment_metrics = 0%Q.
Proof.
  destruct (averages_guard_zero_counts sample_state) as (_ & _ & _ & _ & Hu & _).
  destruct (averages_guard_zero_counts (mkAnalyzer [] [] [])) as (_ & _ & _ & _ & _ & Hc).
  split.
  - eexists; split; [left; reflexivity|].
    refine (proj1 (proj2 (Hu _ (KInt 1) _ eq_refl _))). left; reflexivity.
  - exact (Hc no_comment_metrics eq_refl eq_refl).
Defined.

(** ** [sorted]: a permutation, in order, stable *)

Section Sorted.

Context {A : Type} (key : A -> nat) (reverse : bool).

Lemma comes_before_order (a b : nat) :
  comes_before reverse a b = true -> in_order reverse a b /\ a <> b.
Proof.
  unfold comes_before, in_order; destruct reverse; rewrite Nat.ltb_lt; lia.
Qed.

Lemma not_comes_before_order (a b : nat) :
  comes_before reverse a b = false -> in_order reverse b a.
Proof.
  unfold comes_before, in_order; destruct reverse; rewrite Nat.ltb_ge; lia.
Qed.

Lemma in_order_trans (a b c : nat) :
  in_order reverse a b -> in_order reverse b c -> in_order reverse a c.
Proof. unfold in_order; destruct reverse; lia. Qed.

Lemma insert_sorted_perm (x : A) (l : list A) :
  Permutation (x :: l) (insert_sorted key reverse x l).
Proof.
  induction l as [|y l IH]; simpl; [reflexivity|].
  destruct (comes_before reverse (key y) (key x)); [|reflexivity].
  rewrite perm_swap. apply perm_skip, IH.
Qed.

Lemma py_sorted_perm (l : list A) : Permutation l (py_sorted key reverse l).
Proof.
  induction l as [|x l IH]; simpl; [reflexivity|].
  rewrite <- insert_sorted_perm. apply perm_skip, IH.
Qed.

Lemma py_sorted_length (l : list A) :
  List.length (py_sorted key reverse l) = List.length l.
Proof. symmetry; apply Permutation_length, py_sorted_perm. Qed.

Lemma insert_sorted_ordered (x : A) (l : list A) :
  sorted_by key reverse l -> sorted_by key reverse (insert_sorted key reverse x l).
Proof.
  unfold sorted_by.
  induction l as [|y l IH]; intros Hl; simpl.
  - constructor; constructor.
  - apply StronglySorted_inv in Hl. destruct Hl as [Hl Hy].
    destruct (comes_before reverse (key y) (key x)) eqn:E.
    + constructor; [apply IH; exact Hl|].
      apply comes_before_order in E. destruct E as [E _].
      rewrite Forall_forall in Hy |- *. intros z Hz.
      apply (Permutation_in _ (Permutation_sym (insert_sorted_perm x l))) in Hz.
      destruct Hz as [<-|Hz]; [exact E | exact (Hy z Hz)].
    + apply not_comes_before_order in E.
      constructor; [constructor; assumption|].
      constructor; [exact E|].
      rewrite Forall_forall in Hy |- *. intros z Hz.
      exact (in_order_trans _ _ _ E (Hy z Hz)).
Qed.

Lemma py_sorted_ordered (l : list A) : sorted_by key reverse (py_sorted key reverse l).
Proof.
  induction l as [|x l IH]; simpl; [constructor|].
  apply insert_sorted_ordered, IH.
Qed.

(** Stability: the elements of one key stay in their order. *)
Lemma insert_sorted_stable (n : nat) (x : A) (l : list A) :
  with_key key n (insert_sorted key reverse x l) = with_key key n (x :: l).
Proof.
  unfold with_key.
  induction l as [|y l IH]; simpl; [reflexivity|].
  destruct (comes_before reverse (key y) (key x)) eqn:E; [|reflexivity].
  apply comes_before_order in E. destruct E as [_ E].
  simpl. rewrite IH. simpl.
  destruct (key y =? n) eqn:Ey, (key x =? n) eqn:Ex; try reflexivity.
  apply Nat.eqb_eq in Ey, Ex. congruence.
Qed.

Lemma py_sorted_stable (n : nat) (l : list A) :
  with_key key n (py_sorted key reverse l) = with_key key n l.
Proof.
  induction l as [|x l IH]; simpl; [reflexivity|].
  rewrite insert_sorted_stable. unfold with_key in *; simpl. rewrite IH. reflexivity.
Qed.

(** The [n] first of a sorted list: in order, no more than [n], in
    front of the rest, and stable. *)
Lemma sorted_by_app (l1 l2 : list A) :
  sorted_by key reverse (l1 ++ l2) ->
  sorted_by key reverse l1
  /\ forall x y, In x l1 -> In y l2 -> in_order reverse (key x) (key y).
Proof.
  unfold sorted_by.
  induction l1 as [|a l1 IH]; simpl; intros H.
  - split; [constructor | intros x y []].
  - apply StronglySorted_inv in H. destruct H as [H Ha].
    destruct (IH H) as [IH1 IH2]. split.
    + constructor; [exact IH1|].
      apply Forall_app in Ha. apply Ha.
    + intros x y [<-|Hx] Hy; [|exact (IH2 x y Hx Hy)].
      rewrite Forall_forall in Ha. apply Ha, in_or_app. right; exact Hy.
Qed.

Lemma top_of_sorted (n : nat) (l : list A) :
  let top := firstn n (py_sorted key reverse l) in
  sorted_by key reverse top
  /\ List.length top = Nat.min n (List.length l)
  /\ (exists rest,
        Permutation l (top ++ rest)
        /\ forall x y, In x top -> In y rest -> in_order reverse (key x) (key y))
  /\ forall m, is_prefix (with_key key m top) (with_key key m l).
Proof.
  intros top.
  pose proof (firstn_skipn n (py_sorted key reverse l)) as Hsplit. fold top in Hsplit.
  pose proof (py_sorted_ordered l) as Hord. rewrite <- Hsplit in Hord.
  destruct (sorted_by_app _ _ Hord) as [Htop Hrest].
  split; [exact Htop|]. split.
  - unfold top. rewrite length_firstn, py_sorted_length. reflexivity.
  - split.
    + exists (skipn n (py_sorted key reverse l)). split; [|exact Hrest].
      rewrite Hsplit. apply py_sorted_perm.
    + intros m. exists (with_key key m (skipn n (py_sorted key reverse l))).
      rewrite <- (py_sorted_stable m l), <- Hsplit at 1.
      unfold with_key. apply filter_app.
Qed.

End Sorted.

(** ** [analyze_post_engagement] *)

Lemma dict_get_or_set {V : Type} (dflt : V) k k' v (d : pydict V) :
  dict_get_or dflt k (dict_set k' v d)
  = if key_eqb k k' then v else dict_get_or dflt k d.
Proof.
  unfold dict_get_or. rewrite dict_get_set. destruct (key_eqb k k'); reflexivity.
Qed.

Lemma dict_get_or_compat {V : Type} (dflt : V) k k' (d : pydict V) :
  key_eqb k k' = true -> dict_get_or dflt k d = dict_get_or dflt k' d.
Proof. intros H; unfold dict_get_or; rewrite (dict_get_compat _ _ _ H); reflexivity. Qed.

(** Reading a defaultdict gives what [get] gives, and changes no
    reading. *)
Lemma dd_getitem_reads {V : Type} (dflt : V) k (d : pydict V) :
  fst (dd_getitem dflt k d) = dict_get_or dflt k d
  /\ forall k', dict_get_or dflt k' (snd (dd_getitem dflt k d)) = dict_get_or dflt k' d.
Proof.
  unfold dd_getitem, dict_get_or.
  destruct (dict_get k d) as [v|] eqn:E; simpl; [split; reflexivity|].
  split; [reflexivity|]. intros k'. rewrite dict_get_set.
  destruct (key_eqb k' k) eqn:Ek; [|reflexivity].
  rewrite (dict_get_compat _ _ _ Ek), E. reflexivity.
Qed.

Lemma group_comment_Ok pc pc' (comment : value) :
  group_comment pc comment = Ok pc' ->
  exists k, comment_post_key comment = Some k
            /\ pc' = dict_set k (dict_get_or [] k pc ++ [comment])%list pc.
Proof.
  unfold group_comment, comment_post_key; intros H; inv_bind.
  rewrite Ha, Ha0. exists a0; split; [reflexivity|].
  subst pc'. rewrite dd_update_set. reflexivity.
Qed.

(** After the grouping loop, the list of a post id is the comments on
    it, in their order. *)
Lemma group_comments_lists (l : list value) :
  forall pc pc', foldM group_comment l pc = Ok pc' ->
  forall k, dict_get_or [] k pc' = (dict_get_or [] k pc ++ filter (comment_on k) l)%list.
Proof.
  induction l as [|c l IH]; intros pc pc' H k; simpl in H.
  - injection H as <-; simpl; rewrite app_nil_r; reflexivity.
  - apply bind_Ok in H; destruct H as [pc1 [H1 H2]].
    rewrite (IH _ _ H2 k).
    destruct (group_comment_Ok _ _ _ H1) as (k1 & Hk1 & ->).
    rewrite dict_get_or_set. simpl. unfold comment_on at 2. rewrite Hk1.
    destruct (key_eqb k k1) eqn:E; [|reflexivity].
    rewrite <- (dict_get_or_compat [] _ _ pc E), <- app_assoc. reflexivity.
Qed.

Lemma engage_post_Ok ms bu pe ms' bu' pe' (post : value) :
  engage_post (ms, bu, pe) post = Ok (ms', bu', pe') ->
  (forall k, dict_get_or [] k pe' = dict_get_or [] k pe)
  /\ exists e k,
       ms' = (ms ++ [e])%list
       /\ getitem post "id" = Ok (post_id e)
       /\ getitem post "title" = Ok (title e)
       /\ getitem post "userId" = Ok (user_id e)
       /\ post_id_key post = Some k
       /\ comment_count e = List.length (dict_get_or [] k pe).
Proof.
  unfold engage_post, post_id_key; intros H; inv_bind.
  destruct (dd_getitem_reads [] a0 pe) as [Hfst Hsnd].
  destruct (dd_getitem [] a0 pe) as [cs pe1]; simpl in Hfst, Hsnd. inv_bind.
  subst ms' pe'. split; [exact Hsnd|].
  rewrite Ha in Ha1. injection Ha1 as <-.
  eexists; exists a0. split; [reflexivity|]. simpl.
  rewrite Ha, Ha0, Hfst. repeat split; assumption.
Qed.

Lemma engage_posts_entries (cs : list value) (l : list value) :
  forall ms bu pe ms' bu' pe',
    (forall k, dict_get_or [] k pe = filter (comment_on k) cs) ->
    foldM engage_post l (ms, bu, pe) = Ok (ms', bu', pe') ->
    exists es, ms' = (ms ++ es)%list /\ Forall2 (entry_of cs) l es.
Proof.
  induction l as [|p l IH]; intros ms bu pe ms' bu' pe' Hpe H; simpl in H.
  - injection H as <- _ _. exists []; split; [symmetry; apply app_nil_r | constructor].
  - apply bind_Ok in H; destruct H as [[[ms1 bu1] pe1] [H1 H2]].
    destruct (engage_post_Ok _ _ _ _ _ _ _ H1)
      as (Hsame & e & k & -> & Hid & Ht & Hu & Hk & Hcount).
    destruct (IH _ _ _ _ _ _ (fun k' => eq_trans (Hsame k') (Hpe k')) H2)
      as (es & -> & Hes).
    exists (e :: es). split; [rewrite <- app_assoc; reflexivity|].
    constructor; [|exact Hes].
    repeat split; try assumption. exists k; split; [exact Hk|].
    rewrite Hcount, Hpe. reflexivity.
Qed.

Lemma engage_post_returns acc (post : value) :
  post_ok post && titled post = true -> exists acc', engage_post acc post = Ok acc'.
Proof.
  rewrite andb_true_iff; intros [H Ht].
  destruct (post_ok_fields post H) as (u & k & s & i & ki & Hu & Hk & _ & Hi & Hki).
  unfold titled in Ht. destruct (getitem post "title") as [t|] eqn:Et; [|discriminate].
  destruct acc as [[ms bu] pe]. unfold engage_post. cbv beta iota.
  rewrite Hi; simpl. rewrite Hki; simpl.
  destruct (dd_getitem [] ki pe) as [cs pe1].
  simpl. rewrite Et; simpl. rewrite Hu; simpl.
  rewrite Hk; simpl. eexists; reflexivity.
Qed.

Lemma measure_post_returns acc (post : value) :
  post_ok post && titled post = true -> exists acc', measure_post acc post = Ok acc'.
Proof.
  rewrite andb_true_iff; intros [H Ht].
  destruct (post_ok_fields post H) as (u & k & s & i & ki & _ & _ & Hb & _).
  unfold titled in Ht. destruct (getitem post "title") as [t|] eqn:Et; [|discriminate].
  destruct (py_len t) as [n|] eqn:En; [|discriminate].
  destruct acc as [b tl]. unfold measure_post. cbv beta iota.
  rewrite Hb; simpl. rewrite Et; simpl. rewrite En; simpl. eexists; reflexivity.
Qed.

Lemma title_stats_returns (x : nat) (l : list nat) :
  exists stats,
    (mn <- py_min (x :: l) ;; mx <- py_max (x :: l) ;; av <- mean (x :: l) ;;
     md <- median (x :: l) ;; Ok (mkTitleStats mn mx av md)) = Ok stats.
Proof.
  unfold median. rewrite py_sorted_length.
  cbn [py_min py_max mean bind List.length Nat.eqb].
  destruct (Nat.odd (S (List.length l))); eexists; reflexivity.
Qed.

Lemma analyze_post_engagement_Ok (self : Analyzer) (res : PostMetrics) :
  analyze_post_engagement self = Ok res ->
  exists entries,
    Forall2 (entry_of (comments self)) (posts self) entries
    /\ most_engaging_posts res = firstn 5 (py_sorted comment_count true entries).
Proof.
  unfold analyze_post_engagement.
  destruct (posts self) as [|p ps] eqn:Ep.
  - intros [= <-]. exists []; split; [constructor | reflexivity].
  - intros H.
    apply bind_Ok in H; destruct H as [[buckets tl] [_ H]].
    apply bind_Ok in H; destruct H as [stats [_ H]].
    apply bind_Ok in H; destruct H as [pe [Hpe H]].
    apply bind_Ok in H; destruct H as [[[ms bu] pe'] [Hms H]].
    injection H as <-. simpl.
    destruct (engage_posts_entries (comments self) (p :: ps) [] [] pe ms bu pe')
      as (es & -> & Hes); [|exact Hms|].
    + intros k. rewrite (group_comments_lists _ _ _ Hpe k). reflexivity.
    + exists es. split; [exact Hes | reflexivity].
Qed.

Lemma analyze_post_engagement_returns (self : Analyzer) :
  engagement_ready self = true -> exists res, analyze_post_engagement self = Ok res.
Proof.
  unfold engagement_ready; rewrite andb_true_iff; intros [Hp Hc].
  rewrite forallb_forall in Hp, Hc.
  unfold analyze_post_engagement.
  destruct (posts self) as [|p ps] eqn:Ep; [eexists; reflexivity|].
  destruct (foldM_returns measure_post (fun _ => True) (p :: ps))
    with (a := (mkLengthBuckets 0 0 0, @nil nat)) as [[b tl] [-> _]]; [|exact I|].
  { intros a x Hx _. destruct (measure_post_returns a x (Hp x Hx)) as [a' ->]. eauto. }
  cbn [bind].
  assert (Hstats : exists stats,
             match tl with
             | [] => Ok (mkTitleStats 0 0 0%Q 0%Q)
             | _ :: _ =>
                 mn <- py_min tl ;; mx <- py_max tl ;; av <- mean tl ;;
                 md <- median tl ;; Ok (mkTitleStats mn mx av md)
             end = Ok stats).
  { destruct tl as [|x tl]; [eexists; reflexivity | apply title_stats_returns]. }
  destruct Hstats as [stats ->]. cbn [bind].
  destruct (foldM_returns group_comment (fun _ => True) (comments self))
    with (a := @nil (hkey * list value)) as [pc [-> _]]; [|exact I|].
  { intros a x Hx _. destruct (group_comment_returns a x (Hc x Hx)) as [a' ->]. eauto. }
  cbn [bind].
  destruct (foldM_returns engage_post (fun _ => True) (p :: ps))
    with (a := (@nil PostEngagement, @nil (hkey * nat), pc))
    as [[[ms bu] pe] [-> _]]; [|exact I|].
  { intros a x Hx _. destruct (engage_post_returns a x (Hp x Hx)) as [a' ->]. eauto. }
  cbn [bind]. eexists; reflexivity.
Qed.

(** C5.  The analysis returns on records that have the fields it
    reads.  Whenever it returns, there is one entry per post, in the
    order of ingestion, and ['most_engaging_posts'] is the 5 first of
    them (all when fewer), from the larger ['comment_count'] to the
    smaller, no entry left out having more comments than one taken;
    the entries of one count that are taken are the first ones of that
    count, in the order of ingestion. *)
Theorem most_engaging_posts_ranked (self : Analyzer) :
  (engagement_ready self = true -> exists res, analyze_post_engagement self = Ok res)
  /\ (forall res, analyze_post_engagement self = Ok res ->
      exists entries,
        Forall2 (entry_of (comments self)) (posts self) entries
        /\ sorted_by comment_count true (most_engaging_posts res)
        /\ List.length (most_engaging_posts res) <= 5
        /\ List.length (most_engaging_posts res) = Nat.min 5 (List.length (posts self))
        /\ (exists rest,
              Permutation entries (most_engaging_posts res ++ rest)
              /\ forall x y, In x (most_engaging_posts res) -> In y rest ->
                             comment_count y <= comment_count x)
        /\ (forall n, is_prefix (with_key comment_count n (most_engaging_posts res))
                        (with_key comment_count n entries))).
Proof.
  split; [apply analyze_post_engagement_returns|].
  intros res H.
  destruct (analyze_post_engagement_Ok self res H) as (entries & Hentries & ->).
  exists entries. split; [exact Hentries|].
  destruct (top_of_sorted comment_count true 5 entries) as (Hsorted & Hlen & Hrest & Hstable).
  split; [exact Hsorted|]. split; [rewrite Hlen; apply Nat.le_min_l|].
  split; [rewrite Hlen, (Forall2_length Hentries); reflexivity|].
  split; [exact Hrest | exact Hstable].
Qed.

Lemma most_engaging_posts_ranked_witness :
  exists res,
    analyze_post_engagement sample_state = Ok res
    /\ List.length (most_engaging_posts res) = 3
    /\ sorted_by comment_count true (most_engaging_posts res).
Proof.
  destruct (most_engaging_posts_ranked sample_state) as [H1 H2].
  destruct (H1 eq_refl) as [res Hres]. exists res.
  destruct (H2 res Hres) as (entries & _ & Hsorted & _ & Hlen & _).
  split; [exact Hres|]. split; [exact Hlen | exact Hsorted].
Defined.

(** ** Strings *)

Lemma has_char_false_after_last (sep : ascii) (s : string) :
  PyStr.has_char sep s = false -> after_last sep s = s.
Proof.
  destruct s as [|c s]; simpl; [reflexivity|].
  rewrite orb_false_iff; intros [Hc ->].
  rewrite Ascii.eqb_sym, Hc. reflexivity.
Qed.

(** [s.split(sep)] has one piece more than [s] has separators, and its
    last piece is what follows the last of them. *)
Lemma split_on_last (sep : ascii) (s : string) :
  last (PyStr.split_on sep s) "" = after_last sep s
  /\ (PyStr.has_char sep s = false -> PyStr.split_on sep s = [s])
  /\ (PyStr.has_char sep s = true -> 2 <= List.length (PyStr.split_on sep s)).
Proof.
  induction s as [|c s (IHlast & IHnone & IHsome)]; simpl.
  - split; [reflexivity|]. split; [reflexivity | discriminate].
  - rewrite (Ascii.eqb_sym sep c).
    destruct (Ascii.eqb c sep) eqn:Ec; simpl.
    + split; [|split; [discriminate|]].
      * destruct (PyStr.has_char sep s) eqn:Es.
        -- rewrite <- IHlast.
           destruct (PyStr.split_on sep s) as [|h t];
             [simpl in IHsome; specialize (IHsome eq_refl); lia|].
           reflexivity.
        -- rewrite (IHnone eq_refl). reflexivity.
      * intros _. destruct (PyStr.split_on sep s) as [|h t] eqn:E; simpl; [|lia].
        destruct (PyStr.has_char sep s).
        -- specialize (IHsome eq_refl). simpl in IHsome. lia.
        -- specialize (IHnone eq_refl). discriminate.
    + destruct (PyStr.has_char sep s) eqn:Es.
      * specialize (IHsome eq_refl).
        destruct (PyStr.split_on sep s) as [|h [|h' t]]; simpl in IHsome; try lia.
        split; [exact IHlast|]. split; [discriminate | intros _; simpl; lia].
      * rewrite (IHnone eq_refl). split; [reflexivity|].
        split; [reflexivity | discriminate].
Qed.

Lemma email_domain_after_last (email : string) :
  email_domain email = after_last "@" email.
Proof. apply split_on_last. Qed.

(** What [after_last] returns is an end of [s], has no [sep], and
    stands behind a [sep] when [s] has one. *)
Lemma after_last_suffix (sep : ascii) (s : string) :
  PyStr.has_char sep (after_last sep s) = false
  /\ (PyStr.has_char sep s = true ->
      exists front, s = (front ++ String sep (after_last sep s))%string).
Proof.
  induction s as [|c s [IH1 IH2]]; simpl; [split; [reflexivity | discriminate]|].
  destruct (PyStr.has_char sep s) eqn:Es.
  - split; [exact IH1|]. intros _. destruct (IH2 eq_refl) as [front Hf].
    exists (String c front). simpl. rewrite <- Hf. reflexivity.
  - rewrite (Ascii.eqb_sym sep c). destruct (Ascii.eqb c sep) eqn:Ec; simpl.
    + split; [exact Es|]. intros _. exists "". simpl.
      apply Ascii.eqb_eq in Ec. rewrite Ec. reflexivity.
    + rewrite (Ascii.eqb_sym sep c), Ec, Es. split; [reflexivity | discriminate].
Qed.

(** [w in s]: [s] is [w] between two strings. *)
Lemma prefix_app (w s : string) :
  prefix w s = true <-> exists back, s = (w ++ back)%string.
Proof.
  revert s; induction w as [|c w IH]; intros s.
  - split; [intros _; exists s; reflexivity | intros _; destruct s; reflexivity].
  - destruct s as [|c' s]; simpl;
      [split; [discriminate | intros [back H]; discriminate]|].
    destruct (ascii_dec c c') as [<-|Hne].
    + rewrite IH. split; intros [back H]; exists back; [rewrite H; reflexivity|].
      injection H as ->. reflexivity.
    + split; [discriminate | intros [back H]; congruence].
Qed.

Lemma contains_substring (w s : string) :
  PyStr.contains w s = true
  <-> exists front back, s = (front ++ w ++ back)%string.
Proof.
  induction s as [|c s IH]; cbn [PyStr.contains].
  - rewrite orb_false_r, prefix_app. split.
    + intros [back H]. exists "", back. exact H.
    + intros [[|c front] [back H]]; [exists back; exact H | discriminate].
  - rewrite orb_true_iff, prefix_app, IH. split.
    + intros [[back H]|[front [back H]]].
      * exists "", back. exact H.
      * exists (String c front), back. simpl. rewrite H. reflexivity.
    + intros [[|c' front] [back H]].
      * left. exists back. exact H.
      * right. exists front, back. simpl in H. congruence.
Qed.

Lemma contains_one_char (c : ascii) (s : string) :
  PyStr.contains (String c "") s = PyStr.has_char c s.
Proof.
  induction s as [|c' s IH]; cbn [PyStr.contains PyStr.has_char]; [reflexivity|].
  rewrite IH. simpl. destruct (ascii_dec c c') as [->|Hne].
  - rewrite Ascii.eqb_refl. destruct s; reflexivity.
  - destruct (Ascii.eqb_neq c c') as [_ Hn]. rewrite (Hn Hne). reflexivity.
Qed.

(** ** [Counter]: the frequency count *)

Lemma existsb_eqb_In (x : string) (l : list string) :
  existsb (String.eqb x) l = true <-> In x l.
Proof.
  rewrite existsb_exists. split.
  - intros [y [Hy E]]. apply String.eqb_eq in E. subst y. exact Hy.
  - intros H. exists x. split; [exact H | apply String.eqb_refl].
Qed.

Lemma first_seen_In (d : string) (l : list string) :
  In d (first_seen l) <-> In d l.
Proof.
  induction l as [|x l IH]; simpl; [reflexivity|].
  rewrite filter_In, IH, negb_true_iff, String.eqb_neq.
  destruct (string_dec x d) as [->|Hne]; [tauto|].
  split; [tauto|]. intros [H|H]; [contradiction|]. right. split; [exact H | congruence].
Qed.

Lemma first_seen_NoDup (l : list string) : NoDup (first_seen l).
Proof.
  induction l as [|x l IH]; simpl; constructor.
  - rewrite filter_In, String.eqb_refl. intros [_ H]. discriminate.
  - apply NoDup_filter, IH.
Qed.

Lemma first_seen_snoc (l : list string) (x : string) :
  first_seen (l ++ [x])
  = if existsb (String.eqb x) l then first_seen l else (first_seen l ++ [x])%list.
Proof.
  induction l as [|y l IH]; simpl; [reflexivity|].
  rewrite IH. destruct (existsb (String.eqb x) l).
  - rewrite orb_true_r. reflexivity.
  - rewrite orb_false_r, filter_app. simpl.
    destruct (String.eqb x y); simpl; [rewrite app_nil_r|]; reflexivity.
Qed.

(** [c[x] += 1] on a table without a repeated key. *)
Lemma counter_add_table (x : string) (f : string -> nat) (ds : list string) :
  NoDup ds ->
  counter_add x (map (fun d => (d, f d)) ds)
  = if existsb (String.eqb x) ds
    then map (fun d => (d, if String.eqb x d then S (f d) else f d)) ds
    else (map (fun d => (d, f d)) ds ++ [(x, 1)])%list.
Proof.
  induction ds as [|d ds IH]; intros Hnd; simpl; [reflexivity|].
  apply NoDup_cons_iff in Hnd. destruct Hnd as [Hd Hnd].
  destruct (String.eqb x d) eqn:E; simpl.
  - apply String.eqb_eq in E. subst d. f_equal.
    apply map_ext_in. intros d' Hd'.
    destruct (String.eqb x d') eqn:E'; [|reflexivity].
    apply String.eqb_eq in E'. subst d'. contradiction.
  - rewrite (IH Hnd). destruct (existsb (String.eqb x) ds); reflexivity.
Qed.

Lemma count_occ_snoc (l : list string) (x d : string) :
  count_occ string_dec (l ++ [x]) d
  = if String.eqb x d then S (count_occ string_dec l d) else count_occ string_dec l d.
Proof.
  rewrite count_occ_app. simpl.
  destruct (string_dec x d) as [->|Hne].
  - rewrite String.eqb_refl. lia.
  - apply String.eqb_neq in Hne. rewrite Hne. lia.
Qed.

Lemma frequency_count_snoc (l : list string) (x : string) :
  frequency_count (l ++ [x]) = counter_add x (frequency_count l).
Proof.
  unfold frequency_count.
  rewrite (counter_add_table x _ _ (first_seen_NoDup l)), first_seen_snoc.
  assert (E : existsb (String.eqb x) (first_seen l) = existsb (String.eqb x) l).
  { destruct (existsb (String.eqb x) l) eqn:El.
    - apply (proj2 (existsb_eqb_In x _)). apply (proj2 (first_seen_In x l)).
      apply (proj1 (existsb_eqb_In x l)). exact El.
    - destruct (existsb (String.eqb x) (first_seen l)) eqn:Ef; [|reflexivity].
      apply (proj1 (existsb_eqb_In x _)) in Ef. apply (proj1 (first_seen_In x l)) in Ef.
      apply (proj2 (existsb_eqb_In x l)) in Ef. congruence. }
  rewrite E. destruct (existsb (String.eqb x) l) eqn:El.
  - apply map_ext. intros d. rewrite count_occ_snoc. reflexivity.
  - rewrite map_app. simpl. f_equal.
    + apply map_ext_in. intros d Hd. rewrite count_occ_snoc.
      destruct (String.eqb x d) eqn:Ed; [|reflexivity].
      apply String.eqb_eq in Ed. subst d.
      apply (proj1 (first_seen_In x l)) in Hd.
      apply (proj2 (existsb_eqb_In x l)) in Hd. congruence.
    + rewrite count_occ_snoc, String.eqb_refl. f_equal. f_equal. f_equal.
      apply count_occ_not_In. intros Hin.
      apply (proj2 (existsb_eqb_In x l)) in Hin. congruence.
Qed.

(** Counting the elements of [l] one after the other gives the
    frequency count of [l]. *)
Lemma counter_of_list (l : list string) :
  fold_left (fun c w => counter_add w c) l [] = frequency_count l.
Proof.
  induction l as [|x l IH] using rev_ind; [reflexivity|].
  rewrite fold_left_app, IH, frequency_count_snoc. reflexivity.
Qed.

(** ** [analyze_comment_patterns] *)

Lemma comment_step_Ok (acc acc' : CommentAcc) (comment : value) :
  comment_step acc comment = Ok acc' ->
  comment_ready comment = true
  /\ acc' = count_comment acc (body_of comment) (email_of comment).
Proof.
  unfold comment_step, comment_ready, body_of, email_of. intros H.
  apply bind_Ok in H; destruct H as [body [Hbody H]]. rewrite Hbody.
  apply bind_Ok in H; destruct H as [n [Hn H]].
  apply bind_Ok in H; destruct H as [em [Hem H]]. rewrite Hem.
  apply bind_Ok in H; destruct H as [email [Hemail H]].
  apply bind_Ok in H; destruct H as [lower [Hlower H]].
  apply bind_Ok in H; destruct H as [question [Hq H]].
  destruct body as [| | |body| |]; try discriminate.
  destruct em as [| | |em| |]; try discriminate.
  split; [reflexivity|].
  simpl in Hn, Hemail, Hlower, Hq.
  injection Hn as <-. injection Hemail as <-. injection Hlower as <-.
  injection Hq as <-. injection H as <-. reflexivity.
Qed.

Lemma comment_step_returns (acc : CommentAcc) (comment : value) :
  comment_ready comment = true ->
  comment_step acc comment = Ok (count_comment acc (body_of comment) (email_of comment)).
Proof.
  unfold comment_ready, comment_step, body_of, email_of.
  destruct (getitem comment "body") as [[| | |body| |]|]; try discriminate.
  destruct (getitem comment "email") as [[| | |em| |]|]; try discriminate.
  intros _. reflexivity.
Qed.


Lemma comment_steps_Ok (l : list value) :
  forall acc acc', foldM comment_step l acc = Ok acc' ->
  forallb comment_ready l = true /\ acc' = count_comments l acc.
Proof.
  induction l as [|c l IH]; intros acc acc' H; simpl in H.
  - injection H as <-. split; reflexivity.
  - apply bind_Ok in H; destruct H as [acc1 [H1 H2]].
    destruct (comment_step_Ok _ _ _ H1) as [Hc ->].
    destruct (IH _ _ H2) as [Hl ->].
    simpl. rewrite Hc, Hl. split; reflexivity.
Qed.

Lemma comment_steps_return (l : list value) :
  forallb comment_ready l = true ->
  forall acc, foldM comment_step l acc = Ok (count_comments l acc).
Proof.
  induction l as [|c l IH]; intros Hl acc; simpl; [reflexivity|].
  simpl in Hl. apply andb_true_iff in Hl. destruct Hl as [Hc Hl].
  rewrite (comment_step_returns acc c Hc). simpl. apply IH, Hl.
Qed.

Lemma count_comments_domains (l : list value) (acc : CommentAcc) :
  email_domains (count_comments l acc)
  = fold_left (fun c w => counter_add w c)
      (map (fun c => email_domain (PyStr.lower (email_of c))) l) (email_domains acc).
Proof.
  revert acc; induction l as [|c l IH]; intros acc; simpl; [reflexivity|].
  unfold count_comments in IH |- *. simpl. rewrite IH. reflexivity.
Qed.

Lemma count_comments_sentiment (l : list value) (acc : CommentAcc) :
  let s := sentiment acc in
  sentiment (count_comments l acc)
  = mkSentiment
      (positive_words s
       + list_sum (map (fun c => lexicon_hits simple_sentiment_pos (body_of c)) l))
      (negative_words s
       + list_sum (map (fun c => lexicon_hits simple_sentiment_neg (body_of c)) l))
      (question_comments s + list_sum (map (fun c => asks (body_of c)) l)).
Proof.
  revert acc; induction l as [|c l IH]; intros acc; simpl.
  - rewrite !Nat.add_0_r. destruct (sentiment acc); reflexivity.
  - unfold count_comments in IH |- *. simpl. rewrite IH. simpl.
    unfold lexicon_hits, count_hits, asks.
    change "?" with (String "?"%char "") at 1. rewrite contains_one_char.
    destruct (PyStr.has_char "?" (body_of c)); f_equal; lia.
Qed.

Lemma analyze_comment_patterns_Ok (self : Analyzer) (res : CommentMetrics) :
  analyze_comment_patterns self = Ok res ->
  patterns_ready self = true
  /\ common_email_domains res
     = most_common 5 (email_domains (count_comments (comments self) comment_acc0))
  /\ sentiment_indicators res
     = sentiment (count_comments (comments self) comment_acc0).
Proof.
  unfold analyze_comment_patterns, patterns_ready.
  destruct (comments self) as [|c cs] eqn:Ec.
  - intros [= <-]. repeat split; reflexivity.
  - intros H.
    apply bind_Ok in H; destruct H as [acc [Hacc H]].
    apply bind_Ok in H; destruct H as [avg [_ H]].
    injection H as <-.
    destruct (comment_steps_Ok _ _ _ Hacc) as [Hready ->].
    repeat split; [exact Hready].
Qed.

Lemma analyze_comment_patterns_returns (self : Analyzer) :
  patterns_ready self = true -> exists res, analyze_comment_patterns self = Ok res.
Proof.
  unfold patterns_ready, analyze_comment_patterns. intros H.
  destruct (comments self) as [|c cs] eqn:Ec; [eexists; reflexivity|].
  rewrite (comment_steps_return _ H). cbn [bind truediv List.length].
  eexists; reflexivity.
Qed.

(** C6.  The analysis returns on comments that have a str body and a
    str email.  Whenever it returns, ['common_email_domains'] is made
    from the frequency count of the domains of the comments, a domain
    being what follows the last ['@'] of the lowercased email: it is
    the 5 first of that table (all when fewer) from the larger count
    to the smaller, no domain left out being more frequent than one
    taken, and the domains of one count that are taken are the first
    ones of that count in the order they were first met. *)
Theorem common_email_domains_top_five (self : Analyzer) :
  (patterns_ready self = true -> exists res, analyze_comment_patterns self = Ok res)
  /\ (forall res, analyze_comment_patterns self = Ok res ->
      exists table,
        patterns_ready self = true
        /\ table = frequency_count (map domain_of (comments self))
        /\ sorted_by snd true (common_email_domains res)
        /\ List.length (common_email_domains res) = Nat.min 5 (List.length table)
        /\ (exists rest,
              Permutation table (common_email_domains res ++ rest)
              /\ forall x y, In x (common_email_domains res) -> In y rest ->
                             snd y <= snd x)
        /\ (forall n, is_prefix (with_key snd n (common_email_domains res))
                        (with_key snd n table))).
Proof.
  split; [apply analyze_comment_patterns_returns|].
  intros res H.
  destruct (analyze_comment_patterns_Ok self res H) as (Hready & -> & _).
  rewrite count_comments_domains. simpl email_domains.
  rewrite counter_of_list.
  rewrite (map_ext _ domain_of (fun c => email_domain_after_last _)).
  eexists; split; [exact Hready|]. split; [reflexivity|].
  exact (top_of_sorted snd true 5 _).
Qed.

Lemma common_email_domains_top_five_witness :
  exists res,
    analyze_comment_patterns sample_state = Ok res
    /\ List.length (common_email_domains res) = 1.
Proof.
  destruct (common_email_domains_top_five sample_state) as [H1 H2].
  destruct (H1 eq_refl) as [res Hres]. exists res.
  destruct (H2 res Hres) as (table & _ & -> & _ & Hlen & _).
  split; [exact Hres | exact Hlen].
Defined.

(** C7.  Each comment adds to ['positive_words'] the number of the
    words of the positive lexicon that are substrings of its
    lowercased body, to ['negative_words'] that of the negative
    lexicon, and 1 to ['question_comments'] when its body has a ['?'];
    the result holds the sums over the comments.  The body
    ["This is sad but thanks!"] adds 1, 1 and 0. *)
Theorem sentiment_counts_substrings :
  (forall w body,
      PyStr.contains w (PyStr.lower body) = true
      <-> exists front back, PyStr.lower body = (front ++ w ++ back)%string)
  /\ NoDup simple_sentiment_pos /\ NoDup simple_sentiment_neg
  /\ (forall acc comment acc',
        comment_step acc comment = Ok acc' ->
        positive_words (sentiment acc')
        = positive_words (sentiment acc)
          + lexicon_hits simple_sentiment_pos (body_of comment)
        /\ negative_words (sentiment acc')
           = negative_words (sentiment acc)
             + lexicon_hits simple_sentiment_neg (body_of comment)
        /\ question_comments (sentiment acc')
           = question_comments (sentiment acc) + asks (body_of comment))
  /\ (forall self res,
        analyze_comment_patterns self = Ok res ->
        patterns_ready self = true /\
        sentiment_indicators res
        = mkSentiment
            (list_sum (map (fun c => lexicon_hits simple_sentiment_pos (body_of c))
                         (comments self)))
            (list_sum (map (fun c => lexicon_hits simple_sentiment_neg (body_of c))
                         (comments self)))
            (list_sum (map (fun c => asks (body_of c)) (comments self))))
  /\ lexicon_hits simple_sentiment_pos "This is sad but thanks!" = 1
  /\ lexicon_hits simple_sentiment_neg "This is sad but thanks!" = 1
  /\ asks "This is sad but thanks!" = 0
  /\ lexicon_hits simple_sentiment_neg "sadness" = 1.
Proof.
  split; [intros w body; apply contains_substring|].
  split; [repeat constructor; simpl; intuition discriminate|].
  split; [repeat constructor; simpl; intuition discriminate|].
  split; [|split; [|repeat split; reflexivity]].
  - intros acc comment acc' H.
    destruct (comment_step_Ok _ _ _ H) as [_ ->].
    unfold count_comment.
    cbn [sentiment positive_words negative_words question_comments].
    unfold lexicon_hits, count_hits, asks.
    rewrite <- contains_one_char.
    split; [reflexivity|]. split; [reflexivity|].
    destruct (PyStr.contains _ (body_of comment)); lia.
  - intros self res H.
    destruct (analyze_comment_patterns_Ok self res H) as (Hready & _ & ->).
    split; [exact Hready|].
    rewrite count_comments_sentiment. reflexivity.
Qed.

Lemma sentiment_counts_substrings_witness :
  exists res,
    analyze_comment_patterns sample_state = Ok res
    /\ sentiment_indicators res = mkSentiment 1 1 0.
Proof.
  destruct sentiment_counts_substrings as (_ & _ & _ & _ & H & _).
  eexists; split; [reflexivity|].
  exact (proj2 (H sample_state _ eq_refl)).
Defined.

(** ** [load_data] *)

Section LoadDataProperties.

Variable json_loads : string -> result value.

Lemma eq_str_true (v : value) (s : string) : eq_str v s = true -> v = VStr s.
Proof.
  destruct v; try discriminate. simpl. intros H.
  apply String.eqb_eq in H. subst; reflexivity.
Qed.

(** What the body of the [try] does to a message, by its stream. *)
Lemma store_message_cases (self : Analyzer) (message : value) :
  store_message self message
  = match getitem message "type" with
    | Raise e => Raise e
    | Ok ty =>
        if eq_str ty "RECORD" then
          match getitem message "stream" with
          | Raise e => Raise e
          | Ok st =>
              if eq_str st "users" then
                r <- getitem message "record" ;;
                i <- getitem r "id" ;;
                k <- py_hash i ;;
                Ok (mkAnalyzer (dict_set k r (users self)) (posts self) (comments self))
              else if eq_str st "posts" then
                r <- getitem message "record" ;;
                Ok (mkAnalyzer (users self) (posts self ++ [r])%list (comments self))
              else if eq_str st "comments" then
                r <- getitem message "record" ;;
                Ok (mkAnalyzer (users self) (posts self) (comments self ++ [r])%list)
              else Ok self
          end
        else Ok self
    end.
Proof.
  unfold store_message.
  destruct (getitem message "type") as [ty|e]; simpl; [|reflexivity].
  destruct (eq_str ty "RECORD"); [|reflexivity].
  destruct (getitem message "stream") as [st|e]; simpl; [|reflexivity].
  destruct (eq_str st "users").
  - destruct (getitem message "record") as [r|e]; reflexivity.
  - reflexivity.
Qed.

(** One line: a user stored under its id, a post or a comment added at
    the end, or nothing. *)
Lemma load_line_cases (self : Analyzer) (line : string) :
  load_line json_loads self line
  = match user_record json_loads line, post_record json_loads line,
          comment_record json_loads line with
    | Some (k, r), _, _ =>
        mkAnalyzer (dict_set k r (users self)) (posts self) (comments self)
    | None, Some r, _ =>
        mkAnalyzer (users self) (posts self ++ [r])%list (comments self)
    | None, None, Some r =>
        mkAnalyzer (users self) (posts self) (comments self ++ [r])%list
    | None, None, None => self
    end.
Proof.
  unfold load_line, user_record, post_record, comment_record, message_of.
  destruct (json_loads (PyStr.strip line)) as [message|e]; [|reflexivity].
  rewrite store_message_cases. unfold record_of.
  destruct (getitem message "type") as [ty|e]; [|reflexivity].
  destruct (eq_str ty "RECORD"); [|destruct (getitem message "stream") as [?|?];
    [destruct (getitem message "record")|]; reflexivity].
  destruct (getitem message "stream") as [st|e]; [|reflexivity].
  destruct (eq_str st "users") eqn:Eu.
  { apply eq_str_true in Eu. subst st.
    destruct (getitem message "record") as [r|e]; simpl; [|reflexivity].
    destruct (getitem r "id") as [i|e]; simpl; [|reflexivity].
    destruct (py_hash i) as [k|e]; reflexivity. }
  destruct (eq_str st "posts") eqn:Ep.
  { apply eq_str_true in Ep. subst st.
    destruct (getitem message "record") as [r|e]; reflexivity. }
  destruct (eq_str st "comments") eqn:Ec.
  { apply eq_str_true in Ec. subst st.
    destruct (getitem message "record") as [r|e]; reflexivity. }
  destruct (getitem message "record") as [r|e]; reflexivity.
Qed.

(** A line holds a record of one stream at most. *)
Lemma one_stream (line : string) :
  match user_record json_loads line with
  | Some _ => post_record json_loads line = None
              /\ comment_record json_loads line = None
  | None => match post_record json_loads line with
            | Some _ => comment_record json_loads line = None
            | None => True
            end
  end.
Proof.
  unfold user_record, post_record, comment_record, message_of, record_of.
  destruct (json_loads (PyStr.strip line)) as [message|e]; [|exact I].
  destruct (getitem message "type") as [ty|e]; [|exact I].
  destruct (getitem message "stream") as [st|e]; [|exact I].
  destruct (getitem message "record") as [r|e]; [|exact I].
  destruct (eq_str ty "RECORD"); [|exact I]. simpl.
  destruct (eq_str st "users") eqn:Eu.
  { apply eq_str_true in Eu. subst st. simpl.
    destruct (getitem r "id") as [i|e]; [|exact I].
    destruct (py_hash i); [split; reflexivity | exact I]. }
  destruct (eq_str st "posts") eqn:Ep; [|exact I].
  apply eq_str_true in Ep. subst st. reflexivity.
Qed.

Lemma load_lines_fields (lines : list string) :
  forall self,
    users (load_lines json_loads lines self)
    = fold_left (fun d item => dict_set (fst item) (snd item) d)
        (choose (user_record json_loads) lines) (users self)
    /\ posts (load_lines json_loads lines self)
       = (posts self ++ choose (post_record json_loads) lines)%list
    /\ comments (load_lines json_loads lines self)
       = (comments self ++ choose (comment_record json_loads) lines)%list.
Proof.
  unfold load_lines.
  induction lines as [|line lines IH]; intros self; simpl.
  - rewrite !app_nil_r. repeat split; reflexivity.
  - destruct (IH (load_line json_loads self line)) as (-> & -> & ->).
    rewrite load_line_cases. pose proof (one_stream line) as Hone.
    destruct (user_record json_loads line) as [[k r]|].
    { destruct Hone as [-> ->]. simpl. repeat split; reflexivity. }
    destruct (post_record json_loads line) as [r|].
    { rewrite Hone. simpl. rewrite <- app_assoc. repeat split; reflexivity. }
    destruct (comment_record json_loads line) as [r|]; simpl;
      [rewrite <- app_assoc|]; repeat split; reflexivity.
Qed.

(** The users of an ingested state are dicts: what
    [analyze_user_activity] needs of them. *)
Lemma ingested_users_are_dicts (lines : list string) :
  forall self,
    forallb (fun item => user_ok (snd item)) (users self) = true ->
    forallb (fun item => user_ok (snd item))
      (users (load_lines json_loads lines self)) = true.
Proof.
  unfold load_lines.
  induction lines as [|line lines IH]; intros self Hself; simpl; [exact Hself|].
  apply IH. rewrite load_line_cases.
  destruct (user_record json_loads line) as [[k r]|] eqn:Eu.
  - simpl. apply forallb_forall. intros [k0 v0] Hin.
    apply In_dict_set in Hin. destruct Hin as [[-> _]|Hin].
    + unfold user_record in Eu.
      destruct (message_of json_loads line) as [message|]; [|discriminate].
      destruct (record_of "users" message) as [r'|]; [|discriminate].
      destruct (getitem r' "id") as [i|] eqn:Ei; [|discriminate].
      destruct (py_hash i); [|discriminate]. injection Eu as _ <-.
      destruct r'; try discriminate. reflexivity.
    + rewrite forallb_forall in Hself. exact (Hself _ Hin).
  - destruct (post_record json_loads line); [exact Hself|].
    destruct (comment_record json_loads line); exact Hself.
Qed.

Lemma skipped_line (self : Analyzer) (line : string) :
  unparsed json_loads line \/ not_a_record json_loads line
  \/ other_stream json_loads line ->
  load_line json_loads self line = self.
Proof.
  unfold load_line.
  intros [[e He]|[(message & Hm & Hty)|(message & Hm & Hst)]].
  - rewrite He. reflexivity.
  - rewrite Hm, store_message_cases.
    destruct (getitem message "type") as [ty|e]; [|reflexivity].
    rewrite (Hty ty eq_refl). reflexivity.
  - rewrite Hm, store_message_cases.
    destruct (getitem message "type") as [ty|e]; [|reflexivity].
    destruct (eq_str ty "RECORD"); [|reflexivity].
    destruct (getitem message "stream") as [st|e]; [|reflexivity].
    destruct (Hst st eq_refl) as (-> & -> & ->). reflexivity.
Qed.

(** C8.  Of the lines of a file: the user records are stored under
    their ids, one after the other, a later one taking the place of an
    earlier one of the same id; the post records and the comment
    records are added at the end of their lists, each of them and in
    the order of the lines; a line that does not parse, whose type is
    not ["RECORD"] or whose stream is none of the three changes
    nothing, and the lines after it are read as if it were not
    there. *)
Theorem load_data_ingests (lines : list string) (self : Analyzer) :
  users (load_lines json_loads lines self)
  = fold_left (fun d item => dict_set (fst item) (snd item) d)
      (choose (user_record json_loads) lines) (users self)
  /\ (forall line k r k',
        user_record json_loads line = Some (k, r) ->
        dict_get k' (users (load_line json_loads self line))
        = if key_eqb k' k then Some r else dict_get k' (users self))
  /\ posts (load_lines json_loads lines self)
     = (posts self ++ choose (post_record json_loads) lines)%list
  /\ comments (load_lines json_loads lines self)
     = (comments self ++ choose (comment_record json_loads) lines)%list
  /\ (forall line before after,
        unparsed json_loads line \/ not_a_record json_loads line
        \/ other_stream json_loads line ->
        load_line json_loads self line = self
        /\ load_lines json_loads (before ++ line :: after) self
           = load_lines json_loads (before ++ after) self).
Proof.
  destruct (load_lines_fields lines self) as (Hu & Hp & Hc).
  split; [exact Hu|]. split; [|split; [exact Hp|split; [exact Hc|]]].
  - intros line k r k' Hline. rewrite load_line_cases, Hline. simpl.
    apply dict_get_set.
  - intros line before after Hskip. split; [apply skipped_line, Hskip|].
    unfold load_lines. rewrite !fold_left_app. simpl.
    rewrite (skipped_line _ line Hskip). reflexivity.
Qed.

End LoadDataProperties.

(** C9.  With no user ingested, [analyze_user_activity] returns the
    empty dict, whatever the posts and the comments are: no entry is
    made, not even for the user ids of the posts.  So it is after a
    file that has no line of a user record. *)
Theorem no_users_no_user_metrics (ps cs : list value) :
  analyze_user_activity (mkAnalyzer [] ps cs) = Ok []
  /\ forall json_loads lines,
       choose (user_record json_loads) lines = [] ->
       analyze_user_activity (load_lines json_loads lines (mkAnalyzer [] ps cs))
       = Ok [].
Proof.
  split; [reflexivity|].
  intros json_loads lines Hnone.
  destruct (load_lines_fields json_loads lines (mkAnalyzer [] ps cs)) as (Hu & _).
  rewrite Hnone in Hu. simpl in Hu.
  unfold analyze_user_activity. rewrite Hu. reflexivity.
Qed.

Lemma no_users_no_user_metrics_witness :
  analyze_user_activity
    (load_lines sample_json_loads
       ["{type: STATE}"; "{type: RECORD, stream: posts, id: 1}"] new_analyzer)
  = Ok [].
Proof.
  exact (proj2 (no_users_no_user_metrics [] []) sample_json_loads
           ["{type: STATE}"; "{type: RECORD, stream: posts, id: 1}"] eq_refl).
Defined.

(** ** The streams *)

Section StreamProperties.

Variable utcnow_isoformat : nat -> string.
Variable str_format : string -> value -> result string.


(** [x % 2 == 0] holds of the even ints. *)
Lemma mod_2_is_0 (record x r : value) (k : string) :
  getitem record k = Ok x -> py_mod str_format x 2 = Ok r ->
  eq_int r 0 = even_field k record.
Proof.
  unfold even_field, int_field. intros -> H.
  destruct x as [|b|z|s| |]; simpl in H; try discriminate.
  - injection H as <-. destruct b; reflexivity.
  - injection H as <-. simpl. rewrite Zeven_mod. reflexivity.
  - destruct (str_format s (VInt 2)); simpl in H; [|discriminate].
    injection H as <-. reflexivity.
Qed.

Lemma validated_Ok validate tick record r tick' :
  validated utcnow_isoformat validate tick record = Ok (r, tick') ->
  yielded_for utcnow_isoformat validate record r.
Proof.
  unfold validated. intros H.
  apply bind_Ok in H; destruct H as [[ok errors] [Hv H]].
  destruct ok; simpl in H.
  - injection H as <- _. left. exists errors. split; [exact Hv | reflexivity].
  - apply bind_Ok in H; destruct H as [i [_ H]].
    apply bind_Ok in H; destruct H as [r' [Hset H]].
    injection H as <- _. right. exists errors, tick. split; assumption.
Qed.

Lemma filter_step_Ok k validate tick record o tick' :
  filter_step utcnow_isoformat str_format k validate tick record = Ok (o, tick') ->
  match o with
  | None => even_field k record = false
  | Some r => even_field k record = true
              /\ yielded_for utcnow_isoformat validate record r
  end.
Proof.
  unfold filter_step. intros H.
  apply bind_Ok in H; destruct H as [x [Hx H]].
  apply bind_Ok in H; destruct H as [r [Hr H]].
  rewrite (mod_2_is_0 record x r k Hx Hr) in H.
  destruct (even_field k record).
  - apply bind_Ok in H; destruct H as [[r' t'] [Hv H]].
    injection H as <- _. split; [reflexivity|].
    exact (validated_Ok _ _ _ _ _ Hv).
  - injection H as <- _. reflexivity.
Qed.

(** A generator of such a loop yields, for the records it has read and
    in their order, those whose field is even; it has read them all
    when no exception ended it. *)
Lemma generate_filter_step k validate (records : list value) :
  forall tick out e,
    generate (filter_step utcnow_isoformat str_format k validate) tick records = (out, e) ->
    exists n,
      n <= List.length records
      /\ Forall2 (yielded_for utcnow_isoformat validate)
           (filter (even_field k) (firstn n records)) out
      /\ (e = None -> n = List.length records)
      /\ (e <> None -> n < List.length records).
Proof.
  induction records as [|record records IH]; intros tick out e H; simpl in H.
  - injection H as <- <-. exists 0. simpl.
    split; [lia|]. split; [constructor|]. split; [reflexivity | congruence].
  - destruct (filter_step utcnow_isoformat str_format k validate tick record)
      as [[o tick']|x] eqn:Hstep.
    + pose proof (filter_step_Ok _ _ _ _ _ _ Hstep) as Ho.
      destruct o as [r|].
      * destruct (generate (filter_step utcnow_isoformat str_format k validate)
                    tick' records) as [out' e'] eqn:Hgen.
        injection H as <- <-. destruct Ho as [Heven Hy].
        destruct (IH _ _ _ Hgen) as (n & Hn & Hout & Hnone & Hsome).
        exists (S n). simpl. rewrite Heven.
        split; [lia|]. split; [constructor; assumption|].
        split; [intros He; rewrite (Hnone He); reflexivity|].
        intros He. specialize (Hsome He). lia.
      * destruct (IH _ _ _ H) as (n & Hn & Hout & Hnone & Hsome).
        exists (S n). simpl. rewrite Ho.
        split; [lia|]. split; [exact Hout|].
        split; [intros He; rewrite (Hnone He); reflexivity|].
        intros He. specialize (Hsome He). lia.
    + injection H as <- <-. exists 0. simpl.
      split; [lia|]. split; [constructor|]. split; [discriminate | lia].
Qed.

Lemma generate_filter_step_returns k validate schema (records : list value) :
  (forall r, schema r = true -> exists v, validate r = Ok v /\ exists d, r = VDict d) ->
  readable k schema records = true ->
  forall tick, exists out,
    generate (filter_step utcnow_isoformat str_format k validate) tick records = (out, None).
Proof.
  intros Hschema. unfold readable.
  induction records as [|record records IH]; intros Hr tick; simpl.
  - eexists; reflexivity.
  - simpl in Hr. apply andb_true_iff in Hr. destruct Hr as [Hrec Hr].
    assert (Hstep : exists o tick',
               filter_step utcnow_isoformat str_format k validate tick record
               = Ok (o, tick')).
    { unfold filter_step.
      destruct (int_field k record) as [z|] eqn:Hz; [|discriminate].
      unfold int_field in Hz.
      destruct (getitem record k) as [x|] eqn:Hx; [|discriminate].
      cbn [bind].
      assert (Hmod : py_mod str_format x 2 = Ok (VInt (z mod 2))).
      { destruct x; try discriminate; injection Hz as <-; reflexivity. }
      rewrite Hmod. cbn [bind eq_int]. rewrite <- Zeven_mod.
      destruct (Z.even z); [|eexists; eexists; reflexivity].
      simpl in Hrec. destruct (Hschema record Hrec) as ([ok errors] & Hv & d & ->).
      unfold validated. rewrite Hv. cbn [bind].
      destruct ok; simpl; eexists; eexists; reflexivity. }
    destruct Hstep as (o & tick' & ->).
    destruct (IH Hr tick') as [out Hout]. rewrite Hout.
    destruct o; eexists; reflexivity.
Qed.

Lemma check_required_fields_dict (d : list (string * value)) (fields : list string)
  (errors : list string) :
  exists v, check_required_fields (VDict d) fields errors = Ok v.
Proof.
  induction fields as [|field fields IH]; simpl; [eexists; reflexivity|].
  destruct (assoc field d) as [x|]; simpl.
  - destruct (is_none x); [eexists; reflexivity | exact IH].
  - eexists; reflexivity.
Qed.

Lemma PostValidator_validate_schema (r : value) :
  schema_post r = true ->
  exists v, PostValidator_validate r = Ok v /\ exists d, r = VDict d.
Proof.
  unfold schema_post, PostValidator_validate.
  destruct r as [| | | | |d]; try discriminate.
  destruct (check_required_fields_dict d ["id"; "userId"; "title"; "body"] [])
    as [[ok errors] ->]. cbn [bind].
  destruct (getitem (VDict d) "userId") as [[| |uid| | |]|]; try discriminate.
  destruct (getitem (VDict d) "id") as [[| |id| | |]|]; try discriminate.
  destruct (getitem (VDict d) "title") as [[| | |t| |]|]; try discriminate.
  destruct (getitem (VDict d) "body") as [[| | |b| |]|]; try discriminate.
  intros _. destruct ok; [|simpl; eauto].
  cbn [negb bind].
  destruct (check_positive_integer (VInt id) "id" errors) as [? e1].
  destruct (check_positive_integer (VInt uid) "userId" e1) as [? e2].
  unfold check_string_not_empty, str_strip. cbn [truthy negb bind].
  destruct (negb (PyStr.is_empty t)); cbn [negb bind];
    [destruct (String.eqb (PyStr.strip t) "")|]; cbn [bind];
    (destruct (negb (PyStr.is_empty b)); cbn [negb bind];
     [destruct (String.eqb (PyStr.strip b) "")|]; cbn [bind]; eauto).
Qed.

Lemma CommentValidator_validate_schema (r : value) :
  schema_comment r = true ->
  exists v, CommentValidator_validate r = Ok v /\ exists d, r = VDict d.
Proof.
  unfold schema_comment, CommentValidator_validate.
  destruct r as [| | | | |d]; try discriminate.
  destruct (check_required_fields_dict d ["id"; "postId"; "name"; "email"; "body"] [])
    as [[ok errors] ->]. cbn [bind].
  destruct (getitem (VDict d) "postId") as [[| |pid| | |]|]; try discriminate.
  destruct (getitem (VDict d) "id") as [[| |id| | |]|]; try discriminate.
  destruct (getitem (VDict d) "name") as [[| | |n| |]|]; try discriminate.
  destruct (getitem (VDict d) "email") as [[| | |em| |]|]; try discriminate.
  destruct (getitem (VDict d) "body") as [[| | |b| |]|]; try discriminate.
  intros _. destruct ok; [|simpl; eauto].
  cbn [negb bind].
  destruct (check_positive_integer (VInt id) "id" errors) as [? e1].
  destruct (check_positive_integer (VInt pid) "postId" e1) as [? e2].
  unfold check_string_not_empty, str_strip, check_email_format. cbn [truthy negb bind].
  destruct (negb (PyStr.is_empty n)); cbn [negb bind];
    [destruct (String.eqb (PyStr.strip n) "")|]; cbn [bind];
    (destruct (negb (PyStr.is_empty b)); cbn [negb bind];
     [destruct (String.eqb (PyStr.strip b) "")|]; cbn [bind];
     (destruct (negb (Re.matches Re.email_pattern em)); cbn [bind]; eauto)).
Qed.

Lemma assoc_set_other {V : Type} (k k' : string) (v : V) (d : list (string * V)) :
  String.eqb k k' = false -> assoc k (assoc_set k' v d) = assoc k d.
Proof.
  intros Hk. induction d as [|[k1 v1] d IH]; simpl.
  - rewrite Hk. reflexivity.
  - destruct (String.eqb k' k1) eqn:E; simpl.
    + apply String.eqb_eq in E. subst k1. rewrite Hk. reflexivity.
    + destruct (String.eqb k k1); [reflexivity | exact IH].
Qed.

(** What is yielded for a record has the fields of the record, but
    for ['_metadata']. *)
Lemma yielded_for_field validate (record r : value) (k : string) :
  yielded_for utcnow_isoformat validate record r ->
  String.eqb k "_metadata" = false ->
  getitem r k = getitem record k.
Proof.
  intros [(errors & _ & ->)|(errors & tick & _ & Hset)] Hk; [reflexivity|].
  destruct record as [| | | | |d]; try discriminate.
  injection Hset as <-. simpl. rewrite (assoc_set_other _ _ _ _ Hk). reflexivity.
Qed.

Lemma yielded_even validate (k : string) (l out : list value) :
  String.eqb k "_metadata" = false ->
  Forall2 (yielded_for utcnow_isoformat validate) (filter (even_field k) l) out ->
  Forall (fun r => even_field k r = true) out.
Proof.
  intros Hk H. remember (filter (even_field k) l) as kept eqn:E.
  assert (Hkept : Forall (fun r => even_field k r = true) kept).
  { subst kept. apply Forall_forall. intros r Hr. apply filter_In in Hr. apply Hr. }
  clear E. induction H as [|record r kept out Hy _ IH]; [constructor|].
  apply Forall_cons_iff in Hkept. destruct Hkept as [Hrec Hkept].
  constructor; [|exact (IH Hkept)].
  unfold even_field, int_field in *.
  rewrite (yielded_for_field _ _ _ _ Hy Hk). exact Hrec.
Qed.

(** What the two streams have in common, for the field [k] they test. *)
Lemma filter_stream k validate schema (records out : list value) (e : option exn) :
  String.eqb k "_metadata" = false ->
  (forall r, schema r = true -> exists v, validate r = Ok v /\ exists d, r = VDict d) ->
  let run := generate (filter_step utcnow_isoformat str_format k validate) 0 records in
  (run = (out, None) ->
   Forall2 (yielded_for utcnow_isoformat validate) (filter (even_field k) records) out)
  /\ (run = (out, e) ->
      Forall (fun r => even_field k r = true) out
      /\ exists n, n <= List.length records
                   /\ Forall2 (yielded_for utcnow_isoformat validate)
                        (filter (even_field k) (firstn n records)) out)
  /\ (readable k schema records = true -> exists out', run = (out', None)).
Proof.
  intros Hk Hschema run. split; [|split].
  - intros H. destruct (generate_filter_step _ _ _ _ _ _ H) as (n & _ & Hout & Hn & _).
    rewrite (Hn eq_refl), firstn_all in Hout. exact Hout.
  - intros H. destruct (generate_filter_step _ _ _ _ _ _ H) as (n & Hn & Hout & _).
    split; [exact (yielded_even _ _ _ _ Hk Hout)|].
    exists n. split; assumption.
  - intros Hr. exact (generate_filter_step_returns _ _ _ _ Hschema Hr 0).
Qed.

(** C10.  [PostsStream.parse_response] yields, in their order, the
    records of the response whose ['id'] is even, each as it is or
    with the errors of its validation under ['_metadata'], and
    [CommentsStream.parse_response] those whose ['postId'] is even.
    A record of odd field is not yielded, and is not validated: the
    streams read to its end a response whose records have an int
    there, and are of the schema when it is even.  A generator that an
    exception ends has yielded the even ones of the records before. *)
Theorem parse_response_keeps_even_ids (records out : list value) (e : option exn) :
  ((PostsStream_parse_response utcnow_isoformat str_format records = (out, None) ->
    Forall2 (yielded_for utcnow_isoformat PostValidator_validate)
      (filter (even_field "id") records) out)
   /\ (PostsStream_parse_response utcnow_isoformat str_format records = (out, e) ->
       Forall (fun r => even_field "id" r = true) out
       /\ exists n, n <= List.length records
                    /\ Forall2 (yielded_for utcnow_isoformat PostValidator_validate)
                         (filter (even_field "id") (firstn n records)) out)
   /\ (readable "id" schema_post records = true ->
       exists out',
         PostsStream_parse_response utcnow_isoformat str_format records
         = (out', None)))
  /\ ((CommentsStream_parse_response utcnow_isoformat str_format records = (out, None) ->
       Forall2 (yielded_for utcnow_isoformat CommentValidator_validate)
         (filter (even_field "postId") records) out)
      /\ (CommentsStream_parse_response utcnow_isoformat str_format records = (out, e) ->
          Forall (fun r => even_field "postId" r = true) out
          /\ exists n, n <= List.length records
                       /\ Forall2 (yielded_for utcnow_isoformat CommentValidator_validate)
                            (filter (even_field "postId") (firstn n records)) out)
      /\ (readable "postId" schema_comment records = true ->
          exists out',
            CommentsStream_parse_response utcnow_isoformat str_format records
            = (out', None))).
Proof.
  split.
  - exact (filter_stream "id" PostValidator_validate schema_post records out e
             eq_refl PostValidator_validate_schema).
  - exact (filter_stream "postId" CommentValidator_validate schema_comment records out e
             eq_refl CommentValidator_validate_schema).
Qed.

End StreamProperties.

Lemma parse_response_keeps_even_ids_witness :
  exists out,
    PostsStream_parse_response sample_clock sample_str_format (posts sample_state)
    = (out, None)
    /\ Forall (fun r => even_field "id" r = true) out
    /\ List.length out = 1.
Proof.
  destruct (parse_response_keeps_even_ids sample_clock sample_str_format
              (posts sample_state)
              [sample_post 2 1 "second" "one two three four five"] None)
    as [(Hexact & Hprefix & Hreturns) _].
  eexists. split; [reflexivity|]. split; [|reflexivity].
  exact (proj1 (Hprefix eq_refl)).
Defined.

Lemma load_data_ingests_witness :
  load_lines sample_json_loads
    ["{type: STATE}"; "not json"; "{type: RECORD, stream: albums, id: 1}";
     "{type: RECORD, stream: posts, id: 1}"] new_analyzer
  = load_lines sample_json_loads
      ["{type: STATE}"; "{type: RECORD, stream: albums, id: 1}";
       "{type: RECORD, stream: posts, id: 1}"] new_analyzer.
Proof.
  destruct (load_data_ingests sample_json_loads [] new_analyzer)
    as (_ & _ & _ & _ & Hskip).
  refine (proj2 (Hskip "not json" ["{type: STATE}"]
            ["{type: RECORD, stream: albums, id: 1}";
             "{type: RECORD, stream: posts, id: 1}"] _)).
  left. exists JSONDecodeError. reflexivity.
Defined.

(** ** The analyses on the sample state *)

Example sample_user_activity :
  analyze_user_activity sample_state
  = Ok [(KInt 1, mkUserMetrics 2 1 (1 # 2) 8 (8 # 2) (Some (VStr "alice")));
        (KInt 7, mkUserMetrics 1 0 (0 # 1) 1 (1 # 1) (Some (VStr "User 7")))].
Proof. reflexivity. Qed.

Example sample_comment_patterns :
  exists res,
    analyze_comment_patterns sample_state = Ok res
    /\ total_comments res = 1
    /\ avg_comment_length res = (23 # 1)%Q
    /\ common_email_domains res = [("example.com", 1)]
    /\ sentiment_indicators res = mkSentiment 1 1 0.
Proof. eexists; repeat split; reflexivity. Qed.

Example sample_post_engagement :
  exists res,
    analyze_post_engagement sample_state = Ok res
    /\ map post_id (most_engaging_posts res) = [VInt 1; VInt 2; VInt 3]
    /\ map comment_count (most_engaging_posts res) = [1; 0; 0]
    /\ engagement_by_user res = [(KInt 1, 1); (KInt 7, 0)].
Proof. eexists; repeat split; reflexivity. Qed.

(** Equal counts stay in the order first met. *)
Example most_common_ties :
  most_common 3 [("a", 1); ("b", 2); ("c", 1); ("d", 2); ("e", 1)]
  = [("b", 2); ("d", 2); ("a", 1)].
Proof. reflexivity. Qed.

Example sample_email_domains :
  map email_domain ["bob@example.com"; "a@b@c.org"; "no-at-sign"; "trailing@"]
  = ["example.com"; "c.org"; "no-at-sign"; ""].
Proof. reflexivity. Qed.

Example email_pattern_matches :
  map (Re.matches Re.email_pattern)
    ["a@b.co"; "a@b.c"; "A.b+c@x-y.z.org"; "a@@b.co"; "@b.co"; "a b@c.de"]
  = [true; false; true; false; false; false].
Proof. reflexivity. Qed.

Example sample_posts_stream :
  PostsStream_parse_response sample_clock sample_str_format
    [sample_post 1 1 "odd" "body"; sample_post 2 1 "even" "body";
     sample_post 4 1 " " "invalid"; sample_post 5 1 "odd" "body"]
  = ([sample_post 2 1 "even" "body";
      VDict [("userId", VInt 1); ("id", VInt 4); ("title", VStr " ");
             ("body", VStr "invalid");
             ("_metadata",
               VDict [("validation_errors",
                        VList [VStr "Field title cannot be empty"]);
                      ("validation_timestamp", VStr (sample_clock 0))])]],
     None).
Proof. reflexivity. Qed.

Example sample_load :
  load_lines sample_json_loads
    ["{type: STATE}"; "not json"; "{type: RECORD, stream: users, id: 1}";
     "{type: RECORD, stream: albums, id: 1}";
     "  {type: RECORD, stream: posts, id: 1}  ";
     "{type: RECORD, stream: users, id: 1}"] new_analyzer
  = mkAnalyzer [(KInt 1, sample_user 1 "alice")]
      [sample_post 1 1 "first" "one two three"] [].
Proof. reflexivity. Qed.

(** * The rest of the code: properties *)

(** ** Dictionaries keep their keys apart *)

Section DictKeys.

Context {V : Type}.
Implicit Types (d : pydict V) (k : hkey) (v : V).

Lemma dict_set_keys k v d :
  map fst (dict_set k v d)
  = if dict_mem k d then map fst d else (map fst d ++ [k])%list.
Proof.
  unfold dict_mem.
  induction d as [|[k1 v1] d IH]; simpl; [reflexivity|].
  destruct (key_eqb k k1); simpl; [reflexivity|].
  rewrite IH. destruct (dict_get k d); reflexivity.
Qed.

Lemma norm_key_In k (ks : list hkey) :
  In (norm_key k) (map norm_key ks) -> existsb (key_eqb k) ks = true.
Proof.
  intros H. apply in_map_iff in H. destruct H as (k' & Hk' & Hin).
  apply existsb_exists. exists k'. split; [exact Hin|].
  apply key_eqb_true. symmetry. exact Hk'.
Qed.

Lemma distinct_keys_set k v d :
  distinct_keys d -> distinct_keys (dict_set k v d).
Proof.
  unfold distinct_keys. intros Hd. rewrite dict_set_keys.
  destruct (dict_mem k d) eqn:E; [exact Hd|].
  rewrite map_app. simpl.
  apply NoDup_app; [exact Hd | repeat constructor; intros [] |].
  intros x Hx [<-|[]].
  apply norm_key_In in Hx. rewrite <- dict_mem_keys in Hx. congruence.
Qed.

(** With distinct keys, an item is what its key looks up. *)
Lemma distinct_keys_get k v d :
  distinct_keys d -> In (k, v) d -> dict_get k d = Some v.
Proof.
  unfold distinct_keys.
  induction d as [|[k1 v1] d IH]; simpl; intros Hd Hin; [destruct Hin|].
  apply NoDup_cons_iff in Hd. destruct Hd as [Hk1 Hd].
  destruct Hin as [[= -> ->]|Hin].
  - rewrite key_eqb_refl. reflexivity.
  - destruct (key_eqb k k1) eqn:E; [|exact (IH Hd Hin)].
    exfalso. apply Hk1. apply key_eqb_true in E. rewrite <- E.
    apply in_map. apply (in_map fst) in Hin. exact Hin.
Qed.

End DictKeys.

Lemma existsb_first_keys (k : hkey) (l : list hkey) :
  existsb (key_eqb k) (first_keys l) = existsb (key_eqb k) l.
Proof.
  induction l as [|y l IH]; simpl; [reflexivity|].
  destruct (key_eqb k y) eqn:E; simpl; [reflexivity|].
  rewrite <- IH. clear IH.
  induction (first_keys l) as [|z fk IHfk]; simpl; [reflexivity|].
  destruct (key_eqb z y) eqn:Ez; simpl.
  - rewrite IHfk.
    destruct (key_eqb k z) eqn:Ekz; [|reflexivity].
    rewrite (key_eqb_trans _ _ _ Ekz Ez) in E. discriminate.
  - rewrite IHfk. reflexivity.
Qed.

Lemma first_keys_snoc (l : list hkey) (x : hkey) :
  first_keys (l ++ [x])
  = if existsb (key_eqb x) l then first_keys l else (first_keys l ++ [x])%list.
Proof.
  induction l as [|y l IH]; simpl; [reflexivity|].
  rewrite IH. destruct (existsb (key_eqb x) l).
  - rewrite orb_true_r. reflexivity.
  - rewrite orb_false_r, filter_app. simpl.
    destruct (key_eqb x y); simpl; [rewrite app_nil_r|]; reflexivity.
Qed.

Lemma choose_app {A B : Type} (f : A -> option B) (l1 l2 : list A) :
  choose f (l1 ++ l2) = (choose f l1 ++ choose f l2)%list.
Proof.
  induction l1 as [|x l1 IH]; simpl; [reflexivity|].
  destruct (f x); simpl; rewrite IH; reflexivity.
Qed.

(** ** [analyze_user_activity]: what the entries hold *)

Lemma count_post_words (um um' : pydict UserMetrics) (post : value) :
  count_post um post = Ok um' ->
  exists k,
    post_user_key post = Some k
    /\ um' = dict_set k (add_total_words (post_words post)
                           (add_post_count 1 (dict_get_or default_metrics k um))) um.
Proof.
  unfold count_post, post_user_key, post_words, body_of; intros H.
  apply bind_Ok in H; destruct H as [uid [Huid H]].
  apply bind_Ok in H; destruct H as [k [Hk H]].
  apply bind_Ok in H; destruct H as [body [Hbody H]].
  apply bind_Ok in H; destruct H as [ws [Hws H]].
  rewrite Huid, Hk, Hbody. exists k. split; [reflexivity|].
  destruct body as [| | |s| |]; try discriminate.
  injection Hws as <-. injection H as <-.
  rewrite !dd_update_set.
  unfold dict_get_or at 1. rewrite dict_get_set, key_eqb_refl.
  apply dict_set_set.
Qed.

Lemma credit_comments_count um pc um' pc' (post : value) :
  credit_comments (um, pc) post = Ok (um', pc') ->
  (forall k, dict_get_or [] k pc' = dict_get_or [] k pc)
  /\ exists k kid,
       post_user_key post = Some k
       /\ post_id_key post = Some kid
       /\ um' = dict_set k
                  (add_total_comments (List.length (dict_get_or [] kid pc))
                     (dict_get_or default_metrics k um)) um.
Proof.
  unfold credit_comments, post_user_key, post_id_key; intros H.
  apply bind_Ok in H; destruct H as [uid [Huid H]].
  apply bind_Ok in H; destruct H as [pid [Hpid H]].
  apply bind_Ok in H; destruct H as [kid [Hkid H]].
  destruct (dd_getitem_reads [] kid pc) as [Hfst Hsnd].
  destruct (dd_getitem [] kid pc) as [cs pc1]; simpl in Hfst, Hsnd.
  apply bind_Ok in H; destruct H as [k [Hk H]].
  injection H as <- <-. split; [exact Hsnd|].
  rewrite Huid, Hk, Hpid, Hkid. exists k, kid.
  repeat split. rewrite dd_update_set, Hfst. reflexivity.
Qed.

(** After the first loop, the entry of a user has one count more per
    post of the user, and the words of these posts. *)
Lemma count_posts_entry (l : list value) :
  forall um um', foldM count_post l um = Ok um' ->
  forall k,
    dict_get_or default_metrics k um'
    = add_total_words (list_sum (map post_words (filter (posted_by k) l)))
        (add_post_count (List.length (filter (posted_by k) l))
           (dict_get_or default_metrics k um)).
Proof.
  induction l as [|p l IH]; intros um um' H k; simpl in H.
  - injection H as <-. simpl. unfold add_total_words, add_post_count; simpl.
    rewrite !Nat.add_0_r. destruct (dict_get_or default_metrics k um); reflexivity.
  - apply bind_Ok in H; destruct H as [um1 [H1 H2]].
    rewrite (IH _ _ H2 k).
    destruct (count_post_words _ _ _ H1) as (k1 & Hk1 & ->).
    assert (Hp : posted_by k p = key_eqb k k1)
      by (unfold posted_by; rewrite Hk1; reflexivity).
    rewrite dict_get_or_set. simpl. rewrite Hp.
    destruct (key_eqb k k1) eqn:E.
    + rewrite <- (dict_get_or_compat default_metrics _ _ um E).
      unfold add_total_words, add_post_count; simpl. f_equal; lia.
    + reflexivity.
Qed.

Lemma credit_comments_entry (cs : list value) (l : list value) :
  forall um pc um' pc',
    (forall k, dict_get_or [] k pc = filter (comment_on k) cs) ->
    foldM credit_comments l (um, pc) = Ok (um', pc') ->
    forall k,
      dict_get_or default_metrics k um'
      = add_total_comments
          (list_sum (map (comments_on_post cs) (filter (posted_by k) l)))
          (dict_get_or default_metrics k um).
Proof.
  induction l as [|p l IH]; intros um pc um' pc' Hpc H k; simpl in H.
  - injection H as <- _. simpl. unfold add_total_comments; simpl.
    rewrite Nat.add_0_r. destruct (dict_get_or default_metrics k um); reflexivity.
  - apply bind_Ok in H; destruct H as [[um1 pc1] [H1 H2]].
    destruct (credit_comments_count _ _ _ _ _ H1) as (Hsame & k1 & kid & Hk1 & Hkid & ->).
    rewrite (IH _ _ _ _ (fun k' => eq_trans (Hsame k') (Hpc k')) H2 k).
    assert (Hp : posted_by k p = key_eqb k k1)
      by (unfold posted_by; rewrite Hk1; reflexivity).
    assert (Hc : comments_on_post cs p = List.length (dict_get_or [] kid pc))
      by (unfold comments_on_post; rewrite Hkid, Hpc; reflexivity).
    rewrite dict_get_or_set. simpl. rewrite Hp.
    destruct (key_eqb k k1) eqn:E; [|reflexivity].
    rewrite <- (dict_get_or_compat default_metrics _ _ um E).
    simpl. rewrite Hc.
    unfold add_total_comments; simpl. f_equal; lia.
Qed.

Lemma count_posts_distinct (l : list value) :
  forall um um', distinct_keys um -> foldM count_post l um = Ok um' -> distinct_keys um'.
Proof.
  apply foldM_invariant. intros um p um' _ Hd H.
  destruct (count_post_words _ _ _ H) as (k & _ & ->).
  apply distinct_keys_set, Hd.
Qed.

Lemma credit_comments_distinct (l : list value) :
  forall acc acc',
    distinct_keys (fst acc) -> foldM credit_comments l acc = Ok acc' ->
    distinct_keys (fst acc').
Proof.
  apply (foldM_invariant credit_comments (fun a => distinct_keys (fst a))).
  intros [um pc] p [um' pc'] _ Hd H. simpl in *.
  destruct (credit_comments_count _ _ _ _ _ H) as (_ & k & kid & _ & _ & ->).
  apply distinct_keys_set, Hd.
Qed.

(** The analysis, loop by loop, with the grouping of the comments. *)
Lemma analyze_user_activity_loops (self : Analyzer) (res : pydict UserMetrics) :
  users self <> [] ->
  analyze_user_activity self = Ok res ->
  exists um1 pc um2 pc2,
    foldM count_post (posts self) [] = Ok um1
    /\ foldM group_comment (comments self) [] = Ok pc
    /\ foldM credit_comments (posts self) (um1, pc) = Ok (um2, pc2)
    /\ mapM (calc_averages (users self)) um2 = Ok res.
Proof.
  unfold analyze_user_activity. destruct (users self) as [|u us] eqn:Eu; [congruence|].
  intros _ H.
  apply bind_Ok in H; destruct H as [um1 [H1 H]].
  apply bind_Ok in H; destruct H as [pc [H2 H]].
  apply bind_Ok in H; destruct H as [[um2 pc2] [H3 H]].
  exists um1, pc, um2, pc2. repeat split; assumption.
Qed.

(** The entries of the loops, by key, and the keys. *)
Lemma user_activity_table (self : Analyzer) (res : pydict UserMetrics) :
  users self <> [] ->
  analyze_user_activity self = Ok res ->
  exists um2,
    mapM (calc_averages (users self)) um2 = Ok res
    /\ distinct_keys um2
    /\ all_posted um2
    /\ forall k,
         dict_get_or default_metrics k um2
         = mkUserMetrics
             (List.length (filter (posted_by k) (posts self)))
             (list_sum (map (comments_on_post (comments self))
                          (filter (posted_by k) (posts self))))
             0%Q
             (list_sum (map post_words (filter (posted_by k) (posts self))))
             0%Q None.
Proof.
  intros Hu H.
  destruct (analyze_user_activity_loops self res Hu H)
    as (um1 & pc & um2 & pc2 & H1 & H2 & H3 & H4).
  exists um2. split; [exact H4|].
  assert (Hd1 : distinct_keys um1).
  { apply (count_posts_distinct (posts self) [] um1); [constructor | exact H1]. }
  split; [exact (credit_comments_distinct _ (um1, pc) (um2, pc2) Hd1 H3)|].
  split.
  { apply (credit_comments_posted (posts self) (um1, pc) (um2, pc2)); [| |exact H3].
    - apply (count_posts_posted (posts self) [] um1); [|exact H1].
      intros k m [].
    - intros k Hk. simpl. rewrite (count_posts_mem _ _ _ H1 k), Hk. reflexivity. }
  intros k.
  rewrite (credit_comments_entry (comments self) _ _ _ _ _
             (fun k' => group_comments_lists _ _ _ H2 k') H3 k).
  rewrite (count_posts_entry _ _ _ H1 k). reflexivity.
Qed.



(** An entry of the result, from the item of the loops it was made of. *)
Lemma user_activity_entry (self : Analyzer) (res : pydict UserMetrics) k m :
  users self <> [] ->
  analyze_user_activity self = Ok res ->
  In (k, m) res ->
  let pc := List.length (filter (posted_by k) (posts self)) in
  let tc := list_sum (map (comments_on_post (comments self))
                        (filter (posted_by k) (posts self))) in
  let tw := list_sum (map post_words (filter (posted_by k) (posts self))) in
  0 < pc
  /\ exists name,
       m = mkUserMetrics pc tc (Z.of_nat tc # Pos.of_nat pc)
             tw (Z.of_nat tw # Pos.of_nat pc) (Some name).
Proof.
  intros Hu H Hin.
  destruct (user_activity_table self res Hu H) as (um2 & Hmap & Hd & Hpos & Htable).
  apply mapM_Forall2 in Hmap.
  destruct (Forall2_In_r _ _ _ Hmap _ Hin) as [[k1 m1] [Hin1 Hcalc]].
  destruct (calc_averages_Ok _ _ _ _ _ Hcalc) as (-> & _ & _ & Hm).
  destruct (Hm (Hpos _ _ Hin1)) as [name [_ ->]].
  pose proof (Htable k1) as Hk. unfold dict_get_or in Hk.
  rewrite (distinct_keys_get _ _ _ Hd Hin1) in Hk. subst m1.
  simpl. split; [exact (Hpos _ _ Hin1)|].
  exists name. reflexivity.
Qed.

(** X1.  In the result of [analyze_user_activity], the entry of a user
    id counts the posts of that user id, the words of the bodies of
    these posts, and, post by post, the comments on them. *)
Theorem user_activity_counts (self : Analyzer) (res : pydict UserMetrics) k m :
  users self <> [] ->
  analyze_user_activity self = Ok res ->
  In (k, m) res ->
  post_count m = List.length (filter (posted_by k) (posts self))
  /\ total_words_in_posts m
     = list_sum (map post_words (filter (posted_by k) (posts self)))
  /\ total_comments_received m
     = list_sum (map (comments_on_post (comments self))
                   (filter (posted_by k) (posts self))).
Proof.
  intros Hu H Hin.
  destruct (user_activity_entry self res k m Hu H Hin) as [_ [name ->]].
  repeat split; reflexivity.
Qed.

Lemma user_activity_counts_witness :
  post_count (mkUserMetrics 2 1 (1 # 2) 8 (8 # 2) (Some (VStr "alice"))) = 2
  /\ total_words_in_posts (mkUserMetrics 2 1 (1 # 2) 8 (8 # 2) (Some (VStr "alice"))) = 8
  /\ total_comments_received (mkUserMetrics 2 1 (1 # 2) 8 (8 # 2) (Some (VStr "alice"))) = 1.
Proof.
  refine (user_activity_counts sample_state _ (KInt 1) _ _ eq_refl _).
  - discriminate.
  - left. reflexivity.
Defined.



(** The keys of the loops. *)
Lemma count_posts_keys (l : list value) :
  forall um', foldM count_post l [] = Ok um' ->
  map fst um' = first_keys (choose post_user_key l).
Proof.
  induction l as [|p l IH] using rev_ind; intros um' H.
  - injection H as <-. reflexivity.
  - rewrite foldM_app in H.
    apply bind_Ok in H; destruct H as [um1 [H1 H]]. simpl in H.
    apply bind_Ok in H; destruct H as [um2 [H2 H]]. injection H as <-.
    destruct (count_post_words _ _ _ H2) as (k & Hk & ->).
    rewrite dict_set_keys, dict_mem_keys, (IH _ H1), existsb_first_keys.
    rewrite choose_app. simpl. rewrite Hk, first_keys_snoc. reflexivity.
Qed.

Lemma credit_comments_keys (l : list value) :
  forall acc acc',
    (forall k, existsb (posted_by k) l = true -> dict_mem k (fst acc) = true) ->
    foldM credit_comments l acc = Ok acc' ->
    map fst (fst acc') = map fst (fst acc).
Proof.
  intros acc acc' Hmem.
  apply (foldM_invariant credit_comments
           (fun a => map fst (fst a) = map fst (fst acc))); [|reflexivity].
  intros [um pc] p [um' pc'] Hp Hkeys H. simpl in *.
  destruct (credit_comments_count _ _ _ _ _ H) as (_ & k & kid & Hk & _ & ->).
  assert (Hm : dict_mem k um = true).
  { rewrite dict_mem_keys, Hkeys, <- dict_mem_keys. apply Hmem.
    apply existsb_exists. exists p. split; [exact Hp|].
    unfold posted_by. rewrite Hk. apply key_eqb_refl. }
  rewrite dict_set_keys, Hm. exact Hkeys.
Qed.

(** The user ids of the result, in their order. *)
Lemma user_activity_key_list (self : Analyzer) (res : pydict UserMetrics) :
  users self <> [] ->
  analyze_user_activity self = Ok res ->
  map fst res = first_keys (choose post_user_key (posts self))
  /\ distinct_keys res.
Proof.
  intros Hu H.
  destruct (analyze_user_activity_loops self res Hu H)
    as (um1 & pc & um2 & pc2 & H1 & H2 & H3 & H4).
  destruct (calc_averages_all_sum _ _ _ H4) as [_ Hkeys].
  assert (Hk2 : map fst um2 = map fst um1).
  { apply (credit_comments_keys (posts self) (um1, pc) (um2, pc2)); [|exact H3].
    intros k Hk. simpl. rewrite (count_posts_mem _ _ _ H1 k), Hk. reflexivity. }
  split.
  - rewrite Hkeys, Hk2. exact (count_posts_keys _ _ H1).
  - unfold distinct_keys. rewrite Hkeys, Hk2.
    apply (count_posts_distinct (posts self) [] um1); [constructor | exact H1].
Qed.

(** X3.  The result of [analyze_user_activity] has one entry per user
    id of the posts, in the order in which these user ids first come
    in the posts; no two entries are of the same user id. *)
Theorem user_activity_keys (self : Analyzer) (res : pydict UserMetrics) :
  users self <> [] ->
  analyze_user_activity self = Ok res ->
  map fst res = first_keys (choose post_user_key (posts self))
  /\ distinct_keys res.
Proof.
  exact (user_activity_key_list self res).
Qed.

Lemma user_activity_keys_witness :
  exists res,
    analyze_user_activity sample_state = Ok res
    /\ map fst res = [KInt 1; KInt 7].
Proof.
  eexists. split; [reflexivity|].
  refine (proj1 (user_activity_keys sample_state _ _ eq_refl)).
  discriminate.
Defined.

(** ** [analyze_post_engagement]: classes, title lengths, users *)

Lemma measure_post_Ok b tl b' tl' (post : value) :
  measure_post (b, tl) post = Ok (b', tl') ->
  short b' = short b + (if is_short post then 1 else 0)
  /\ medium b' = medium b + (if is_medium post then 1 else 0)
  /\ long b' = long b + (if is_long post then 1 else 0)
  /\ tl' = (tl ++ [title_length post])%list.
Proof.
  unfold measure_post, is_short, is_medium, is_long, post_words, body_of, title_length.
  intros H.
  apply bind_Ok in H; destruct H as [body [Hbody H]].
  apply bind_Ok in H; destruct H as [ws [Hws H]].
  apply bind_Ok in H; destruct H as [t [Ht H]].
  apply bind_Ok in H; destruct H as [n [Hn H]].
  rewrite Hbody, Ht, Hn.
  destruct body as [| | |s| |]; try discriminate.
  injection Hws as <-. injection H as <- <-.
  destruct (List.length (PyStr.split s) <? 100) eqn:E1.
  - apply Nat.ltb_lt in E1.
    destruct (100 <=? _) eqn:E2; [apply Nat.leb_le in E2; lia|].
    destruct (200 <=? _) eqn:E3; [apply Nat.leb_le in E3; lia|].
    simpl. repeat split; lia.
  - apply Nat.ltb_ge in E1.
    destruct (100 <=? _) eqn:E2; [|apply Nat.leb_gt in E2; lia].
    destruct (List.length (PyStr.split s) <? 200) eqn:E4.
    + apply Nat.ltb_lt in E4.
      destruct (200 <=? _) eqn:E3; [apply Nat.leb_le in E3; lia|].
      simpl. repeat split; lia.
    + apply Nat.ltb_ge in E4.
      destruct (200 <=? _) eqn:E3; [|apply Nat.leb_gt in E3; lia].
      simpl. repeat split; lia.
Qed.

Lemma length_filter_cons {A : Type} (f : A -> bool) (x : A) (l : list A) :
  List.length (filter f (x :: l))
  = (if f x then 1 else 0) + List.length (filter f l).
Proof. simpl. destruct (f x); reflexivity. Qed.

Lemma measure_posts_Ok (l : list value) :
  forall b tl b' tl',
    foldM measure_post l (b, tl) = Ok (b', tl') ->
    short b' = short b + List.length (filter is_short l)
    /\ medium b' = medium b + List.length (filter is_medium l)
    /\ long b' = long b + List.length (filter is_long l)
    /\ tl' = (tl ++ map title_length l)%list.
Proof.
  induction l as [|p l IH]; intros b tl b' tl' H; simpl in H.
  - injection H as <- <-. simpl. rewrite app_nil_r.
    split; [lia|]. split; [lia|]. split; [lia | reflexivity].
  - apply bind_Ok in H; destruct H as [[b1 tl1] [H1 H2]].
    destruct (measure_post_Ok _ _ _ _ _ H1) as (Hs & Hm & Hl & ->).
    destruct (IH _ _ _ _ H2) as (Hs' & Hm' & Hl' & ->).
    rewrite !length_filter_cons, <- app_assoc. simpl.
    split; [lia|]. split; [lia|]. split; [lia | reflexivity].
Qed.

(** The parts of the result, when there is a post. *)
Lemma analyze_post_engagement_parts (self : Analyzer) (res : PostMetrics) :
  posts self <> [] ->
  analyze_post_engagement self = Ok res ->
  exists buckets tl stats pe ms bu pe',
    foldM measure_post (posts self) (mkLengthBuckets 0 0 0, []) = Ok (buckets, tl)
    /\ match tl with
       | [] => Ok (mkTitleStats 0 0 0%Q 0%Q)
       | _ :: _ =>
           mn <- py_min tl ;; mx <- py_max tl ;; av <- mean tl ;;
           md <- median tl ;; Ok (mkTitleStats mn mx av md)
       end = Ok stats
    /\ foldM group_comment (comments self) [] = Ok pe
    /\ foldM engage_post (posts self) ([], [], pe) = Ok (ms, bu, pe')
    /\ res = mkPostMetrics (List.length (posts self)) buckets stats
               (firstn 5 (py_sorted comment_count true ms)) bu.
Proof.
  unfold analyze_post_engagement.
  destruct (posts self) as [|p ps] eqn:Ep; [congruence|].
  intros _ H.
  apply bind_Ok in H; destruct H as [[buckets tl] [Hm H]].
  apply bind_Ok in H; destruct H as [stats [Hs H]].
  apply bind_Ok in H; destruct H as [pe [Hpe H]].
  apply bind_Ok in H; destruct H as [[[ms bu] pe'] [Hms H]].
  injection H as <-.
  exists buckets, tl, stats, pe, ms, bu, pe'. repeat split; assumption.
Qed.

Lemma one_length_class (post : value) :
  (if is_short post then 1 else 0) + (if is_medium post then 1 else 0)
  + (if is_long post then 1 else 0) = 1.
Proof.
  unfold is_short, is_medium, is_long.
  destruct (Nat.ltb_spec (post_words post) 100),
    (Nat.leb_spec 100 (post_words post)),
    (Nat.ltb_spec (post_words post) 200),
    (Nat.leb_spec 200 (post_words post)); cbn [andb]; lia.
Qed.

(** X4.  [analyze_post_engagement] puts every post in one of its three
    classes: ['short'] counts the posts of fewer than 100 words,
    ['medium'] those of 100 to 199, ['long'] those of 200 or more, and
    the three add up to ['total_posts'], the number of the posts. *)
Theorem posts_by_length_partition (self : Analyzer) (res : PostMetrics) :
  analyze_post_engagement self = Ok res ->
  total_posts res = List.length (posts self)
  /\ short (posts_by_length res) = List.length (filter is_short (posts self))
  /\ medium (posts_by_length res) = List.length (filter is_medium (posts self))
  /\ long (posts_by_length res) = List.length (filter is_long (posts self))
  /\ short (posts_by_length res) + medium (posts_by_length res)
     + long (posts_by_length res) = total_posts res.
Proof.
  intros H.
  assert (Hsum : forall l : list value,
             List.length (filter is_short l) + List.length (filter is_medium l)
             + List.length (filter is_long l) = List.length l).
  { induction l as [|p l IH]; [reflexivity|].
    rewrite !length_filter_cons. pose proof (one_length_class p).
    cbn [List.length]. lia. }
  destruct (posts self) as [|p ps] eqn:Ep.
  - unfold analyze_post_engagement in H. rewrite Ep in H. injection H as <-.
    repeat split; reflexivity.
  - assert (Hne : posts self <> []) by (rewrite Ep; discriminate).
    destruct (analyze_post_engagement_parts self res Hne H)
      as (buckets & tl & stats & pe & ms & bu & pe' & Hm & _ & _ & _ & ->).
    destruct (measure_posts_Ok _ _ _ _ _ Hm) as (Hs & Hmd & Hl & _).
    simpl in Hs, Hmd, Hl. simpl. rewrite Hs, Hmd, Hl, Ep.
    repeat split. apply Hsum.
Qed.

Lemma posts_by_length_partition_witness :
  exists res,
    analyze_post_engagement sample_state = Ok res
    /\ short (posts_by_length res) + medium (posts_by_length res)
       + long (posts_by_length res) = 3.
Proof.
  eexists. split; [reflexivity|].
  destruct (posts_by_length_partition sample_state _ eq_refl) as (Ht & _ & _ & _ & Hsum).
  rewrite Hsum. exact Ht.
Defined.

(** *** The statistics of the title lengths *)











(** *** The comments per user *)

Lemma engage_post_by_user ms bu pe ms' bu' pe' (post : value) :
  engage_post (ms, bu, pe) post = Ok (ms', bu', pe') ->
  (forall k, dict_get_or [] k pe' = dict_get_or [] k pe)
  /\ exists k kid,
       post_user_key post = Some k
       /\ post_id_key post = Some kid
       /\ bu' = dict_set k
                  (dict_get_or 0 k bu + List.length (dict_get_or [] kid pe)) bu.
Proof.
  unfold engage_post, post_user_key, post_id_key; intros H.
  apply bind_Ok in H; destruct H as [pid [Hpid H]].
  apply bind_Ok in H; destruct H as [kid [Hkid H]].
  destruct (dd_getitem_reads [] kid pe) as [Hfst Hsnd].
  destruct (dd_getitem [] kid pe) as [cs pe1]; simpl in Hfst, Hsnd.
  apply bind_Ok in H; destruct H as [pid' [_ H]].
  apply bind_Ok in H; destruct H as [t [_ H]].
  apply bind_Ok in H; destruct H as [uid [Huid H]].
  apply bind_Ok in H; destruct H as [uid' [Huid' H]].
  apply bind_Ok in H; destruct H as [k [Hk H]].
  injection H as _ <- <-. split; [exact Hsnd|].
  rewrite Huid in Huid'. injection Huid' as <-.
  rewrite Huid, Hk, Hpid, Hkid. exists k, kid.
  repeat split. rewrite dd_update_set, Hfst. reflexivity.
Qed.

Lemma engage_posts_by_user (cs : list value) (l : list value) :
  forall ms bu pe ms' bu' pe',
    (forall k, dict_get_or [] k pe = filter (comment_on k) cs) ->
    foldM engage_post l (ms, bu, pe) = Ok (ms', bu', pe') ->
    forall k,
      dict_get_or 0 k bu'
      = dict_get_or 0 k bu
        + list_sum (map (comments_on_post cs) (filter (posted_by k) l)).
Proof.
  induction l as [|p l IH]; intros ms bu pe ms' bu' pe' Hpe H k; simpl in H.
  - injection H as _ <- _. simpl. lia.
  - apply bind_Ok in H; destruct H as [[[ms1 bu1] pe1] [H1 H2]].
    destruct (engage_post_by_user _ _ _ _ _ _ _ H1)
      as (Hsame & k1 & kid & Hk1 & Hkid & ->).
    rewrite (IH _ _ _ _ _ _ (fun k' => eq_trans (Hsame k') (Hpe k')) H2 k).
    assert (Hp : posted_by k p = key_eqb k k1)
      by (unfold posted_by; rewrite Hk1; reflexivity).
    assert (Hc : comments_on_post cs p = List.length (dict_get_or [] kid pe))
      by (unfold comments_on_post; rewrite Hkid, Hpe; reflexivity).
    rewrite dict_get_or_set. simpl. rewrite Hp.
    destruct (key_eqb k k1) eqn:E; [|reflexivity].
    rewrite <- (dict_get_or_compat 0 _ _ bu E). simpl. rewrite Hc. lia.
Qed.

Lemma engage_posts_keys (l : list value) :
  forall ms pe ms' bu' pe',
    foldM engage_post l (ms, [], pe) = Ok (ms', bu', pe') ->
    map fst bu' = first_keys (choose post_user_key l) /\ distinct_keys bu'.
Proof.
  induction l as [|p l IH] using rev_ind; intros ms pe ms' bu' pe' H.
  - injection H as _ <- _. split; [reflexivity | constructor].
  - rewrite foldM_app in H.
    apply bind_Ok in H; destruct H as [[[ms1 bu1] pe1] [H1 H]]. simpl in H.
    apply bind_Ok in H; destruct H as [[[ms2 bu2] pe2] [H2 H]].
    injection H as _ <- _.
    destruct (IH _ _ _ _ _ H1) as [Hkeys Hd].
    destruct (engage_post_by_user _ _ _ _ _ _ _ H2) as (_ & k & kid & Hk & _ & ->).
    split; [|apply distinct_keys_set, Hd].
    rewrite dict_set_keys, dict_mem_keys, Hkeys, existsb_first_keys.
    rewrite choose_app. simpl. rewrite Hk, first_keys_snoc. reflexivity.
Qed.

(** The items of ['engagement_by_user']. *)
Lemma engagement_by_user_table (self : Analyzer) (res : PostMetrics) :
  analyze_post_engagement self = Ok res ->
  map fst (engagement_by_user res) = first_keys (choose post_user_key (posts self))
  /\ distinct_keys (engagement_by_user res)
  /\ forall k n,
       In (k, n) (engagement_by_user res) ->
       n = list_sum (map (comments_on_post (comments self))
                       (filter (posted_by k) (posts self))).
Proof.
  intros H.
  destruct (posts self) as [|p ps] eqn:Ep.
  { unfold analyze_post_engagement in H. rewrite Ep in H. injection H as <-.
    split; [reflexivity|]. split; [constructor | intros k n []]. }
  assert (Hne : posts self <> []) by (rewrite Ep; discriminate).
  destruct (analyze_post_engagement_parts self res Hne H)
    as (buckets & tl & stats & pe & ms & bu & pe' & _ & _ & Hpe & Hms & ->).
  rewrite Ep in Hms. cbn [engagement_by_user].
  destruct (engage_posts_keys _ _ _ _ _ _ Hms) as [Hkeys Hd].
  split; [exact Hkeys|]. split; [exact Hd|].
  intros k n Hin.
  pose proof (engage_posts_by_user (comments self) _ _ _ _ _ _ _
                (fun k' => group_comments_lists _ _ _ Hpe k') Hms k) as Hk.
  unfold dict_get_or at 1 in Hk. rewrite (distinct_keys_get _ _ _ Hd Hin) in Hk.
  exact Hk.
Qed.

(** X6.  ['engagement_by_user'] has one item per user id of the posts,
    in the order in which these user ids first come, and the item of a
    user id is the sum, over the posts of that user id, of the number
    of the comments on the post. *)
Theorem engagement_by_user_sums (self : Analyzer) (res : PostMetrics) :
  analyze_post_engagement self = Ok res ->
  map fst (engagement_by_user res) = first_keys (choose post_user_key (posts self))
  /\ distinct_keys (engagement_by_user res)
  /\ forall k n,
       In (k, n) (engagement_by_user res) ->
       n = list_sum (map (comments_on_post (comments self))
                       (filter (posted_by k) (posts self))).
Proof.
  exact (engagement_by_user_table self res).
Qed.

Lemma engagement_by_user_sums_witness :
  exists res,
    analyze_post_engagement sample_state = Ok res
    /\ map fst (engagement_by_user res) = [KInt 1; KInt 7].
Proof.
  eexists. split; [reflexivity|].
  exact (proj1 (engagement_by_user_sums sample_state _ eq_refl)).
Defined.

(** X7.  The two analyses agree: when both return, they have the same
    user ids in the same order, and for each of them
    ['engagement_by_user'] of the one is ['total_comments_received'] of
    the other. *)
Theorem engagement_is_comments_received (self : Analyzer)
  (activity : pydict UserMetrics) (engagement : PostMetrics) :
  users self <> [] ->
  analyze_user_activity self = Ok activity ->
  analyze_post_engagement self = Ok engagement ->
  map fst (engagement_by_user engagement) = map fst activity
  /\ forall k m,
       In (k, m) activity ->
       dict_get k (engagement_by_user engagement)
       = Some (total_comments_received m).
Proof.
  intros Hu Ha He.
  destruct (user_activity_key_list self activity Hu Ha) as [Hka _].
  destruct (engagement_by_user_table self engagement He) as (Hke & Hd & Hsum).
  split; [rewrite Hka, Hke; reflexivity|].
  intros k m Hin.
  assert (Hmem : dict_mem k (engagement_by_user engagement) = true).
  { rewrite dict_mem_keys, Hke, <- Hka, <- dict_mem_keys.
    exact (In_dict_mem _ _ _ Hin). }
  unfold dict_mem in Hmem.
  destruct (dict_get k (engagement_by_user engagement)) as [n|] eqn:En; [|discriminate].
  destruct (dict_get_In _ _ _ En) as (k0 & Hin0 & Hk0).
  rewrite (Hsum k0 n Hin0).
  destruct (user_activity_entry self activity k m Hu Ha Hin) as [_ [name ->]].
  cbn [total_comments_received].
  f_equal. f_equal. f_equal. apply filter_ext. intros post.
  unfold posted_by. destruct (post_user_key post) as [kp|]; [|reflexivity].
  symmetry. apply key_eqb_compat. exact Hk0.
Qed.

Lemma engagement_is_comments_received_witness :
  exists engagement,
    analyze_post_engagement sample_state = Ok engagement
    /\ dict_get (KInt 1) (engagement_by_user engagement) = Some 1.
Proof.
  eexists. split; [reflexivity|].
  refine (proj2 (engagement_is_comments_received sample_state _ _ _ eq_refl eq_refl)
            (KInt 1) (mkUserMetrics 2 1 (1 # 2) 8 (8 # 2) (Some (VStr "alice"))) _).
  - discriminate.
  - left. reflexivity.
Defined.

(** ** [analyze_comment_patterns]: lengths, words, totals *)

Lemma counter_add_total (x : string) (c : Counter) :
  counter_total (counter_add x c) = S (counter_total c).
Proof.
  unfold counter_total.
  induction c as [|[k n] c IH]; simpl; [reflexivity|].
  destruct (String.eqb x k); simpl; [reflexivity|]. rewrite IH. lia.
Qed.

(** The counts of a frequency count add up to the length of the list. *)
Lemma frequency_count_total (l : list string) :
  counter_total (frequency_count l) = List.length l.
Proof.
  induction l as [|x l IH] using rev_ind; [reflexivity|].
  rewrite frequency_count_snoc, counter_add_total, IH, length_app. simpl. lia.
Qed.

Lemma counter_update_fold (ws : list string) (c : Counter) (rest : list string) :
  fold_left (fun c w => counter_add w c) rest (counter_update ws c)
  = fold_left (fun c w => counter_add w c) (ws ++ rest) c.
Proof. unfold counter_update. rewrite fold_left_app. reflexivity. Qed.

Lemma count_comments_words (l : list value) (acc : CommentAcc) :
  word_counts (count_comments l acc)
  = fold_left (fun c w => counter_add w c) (flat_map comment_words l)
      (word_counts acc).
Proof.
  revert acc; induction l as [|c l IH]; intros acc; simpl; [reflexivity|].
  unfold count_comments in IH |- *. simpl. rewrite IH. simpl.
  unfold comment_words at 2. apply counter_update_fold.
Qed.

Lemma count_comments_length (l : list value) (acc : CommentAcc) :
  total_length (count_comments l acc)
  = total_length acc + list_sum (map (fun c => String.length (body_of c)) l).
Proof.
  revert acc; induction l as [|c l IH]; intros acc; simpl; [lia|].
  unfold count_comments in IH |- *. simpl. rewrite IH. simpl. lia.
Qed.

(** The result, field by field, when there is a comment. *)
Lemma analyze_comment_patterns_parts (self : Analyzer) (res : CommentMetrics) :
  comments self <> [] ->
  analyze_comment_patterns self = Ok res ->
  let acc := count_comments (comments self) comment_acc0 in
  res = mkCommentMetrics
          (List.length (comments self))
          (Z.of_nat (total_length acc) # Pos.of_nat (List.length (comments self)))
          (most_common 5 (email_domains acc))
          (Some [])
          (Some (word_counts acc))
          (sentiment acc)
          (most_common 10 (word_counts acc)).
Proof.
  unfold analyze_comment_patterns.
  destruct (comments self) as [|c cs] eqn:Ec; [congruence|].
  intros _ H.
  apply bind_Ok in H; destruct H as [acc [Hacc H]].
  apply bind_Ok in H; destruct H as [avg [Havg H]].
  destruct (comment_steps_Ok _ _ _ Hacc) as [_ ->].
  injection Havg as <-. injection H as <-. reflexivity.
Qed.



(** *** The words *)

Lemma no_space_app (s t : string) :
  no_space (s ++ t) = no_space s && no_space t.
Proof.
  induction s as [|c s IH]; simpl; [reflexivity|].
  rewrite IH, andb_assoc. reflexivity.
Qed.

Lemma is_empty_app (s : string) (c : ascii) :
  PyStr.is_empty (s ++ String c "") = false.
Proof. destruct s; reflexivity. Qed.

(** [split] returns tokens. *)
Lemma split_from_tokens (s : string) :
  forall cur, no_space cur = true ->
  Forall (fun w => is_token w = true) (PyStr.split_from cur s).
Proof.
  induction s as [|c s IH]; intros cur Hcur; simpl.
  - destruct (PyStr.is_empty cur) eqn:E; constructor; [|constructor].
    unfold is_token. rewrite E, Hcur. reflexivity.
  - destruct (PyStr.is_space c) eqn:Ec.
    + destruct (PyStr.is_empty cur) eqn:E; [apply IH; reflexivity|].
      constructor; [|apply IH; reflexivity].
      unfold is_token. rewrite E, Hcur. reflexivity.
    + apply IH. rewrite no_space_app, Hcur. simpl. rewrite Ec. reflexivity.
Qed.

Lemma split_tokens (s : string) :
  Forall (fun w => is_token w = true) (PyStr.split s).
Proof. apply split_from_tokens. reflexivity. Qed.

Lemma frequency_count_keys (l : list string) (w : string) (n : nat) :
  In (w, n) (frequency_count l) -> In w l /\ n = count_occ string_dec l w.
Proof.
  unfold frequency_count. intros H. apply in_map_iff in H.
  destruct H as (d & [= <- <-] & Hd). split; [|reflexivity].
  apply (proj1 (first_seen_In d l)). exact Hd.
Qed.

(** X9.  ['word_frequency'] is the frequency count of the words of the
    lowercased bodies, none of which is empty or has whitespace, and
    ['most_common_words'] is the 10 first of that table (all when
    fewer) from the larger count to the smaller, no word left out being
    more frequent than one taken, and equal counts in the order the
    words were first met. *)
Theorem most_common_words_top_ten (self : Analyzer) (res : CommentMetrics) :
  comments self <> [] ->
  analyze_comment_patterns self = Ok res ->
  let table := frequency_count (flat_map comment_words (comments self)) in
  word_frequency res = Some table
  /\ (forall w n, In (w, n) table -> is_token w = true /\ 0 < n)
  /\ sorted_by snd true (most_common_words res)
  /\ List.length (most_common_words res) = Nat.min 10 (List.length table)
  /\ (exists rest,
        Permutation table (most_common_words res ++ rest)
        /\ forall x y, In x (most_common_words res) -> In y rest -> snd y <= snd x)
  /\ (forall n, is_prefix (with_key snd n (most_common_words res))
                  (with_key snd n table)).
Proof.
  intros Hne H table.
  pose proof (analyze_comment_patterns_parts self res Hne H) as Hres.
  cbv zeta in Hres. rewrite count_comments_words in Hres.
  cbn [word_counts comment_acc0] in Hres. rewrite counter_of_list in Hres.
  fold table in Hres. subst res. cbn [word_frequency most_common_words].
  split; [reflexivity|]. split.
  - intros w n Hin. destruct (frequency_count_keys _ _ _ Hin) as [Hw ->].
    split.
    + apply in_flat_map in Hw. destruct Hw as (c & _ & Hw).
      pose proof (split_tokens (PyStr.lower (body_of c))) as Ht.
      rewrite Forall_forall in Ht. exact (Ht w Hw).
    + apply count_occ_In. exact Hw.
  - exact (top_of_sorted snd true 10 table).
Qed.

Lemma most_common_words_top_ten_witness :
  exists res,
    analyze_comment_patterns sample_state = Ok res
    /\ List.length (most_common_words res) = 5.
Proof.
  eexists. split; [reflexivity|].
  assert (Hne : comments sample_state <> []) by discriminate.
  pose proof (most_common_words_top_ten sample_state _ Hne eq_refl) as Htop.
  cbv zeta in Htop. destruct Htop as (_ & _ & _ & Hlen & _).
  exact Hlen.
Defined.

(** *** The totals of the tables *)

Lemma counter_total_app (c1 c2 : Counter) :
  counter_total (c1 ++ c2)%list = counter_total c1 + counter_total c2.
Proof. unfold counter_total. rewrite map_app, list_sum_app. reflexivity. Qed.

Lemma counter_total_perm (c1 c2 : Counter) :
  Permutation c1 c2 -> counter_total c1 = counter_total c2.
Proof.
  unfold counter_total. induction 1; simpl; lia.
Qed.

Lemma most_common_total (n : nat) (c : Counter) :
  counter_total (most_common n c) <= counter_total c
  /\ (List.length c <= n -> counter_total (most_common n c) = counter_total c).
Proof.
  unfold most_common.
  pose proof (firstn_skipn n (py_sorted snd true c)) as Hsplit.
  pose proof (counter_total_perm _ _ (py_sorted_perm snd true c)) as Hperm.
  rewrite <- Hsplit, counter_total_app in Hperm.
  split; [lia|].
  intros Hlen. rewrite firstn_all2; [symmetry; apply counter_total_perm, py_sorted_perm|].
  rewrite py_sorted_length. exact Hlen.
Qed.

(** X10.  The counts of ['common_email_domains'] add up to no more
    than ['total_comments'] and those of ['most_common_words'] to no
    more than the number of the words; the counts of all the domains
    add up to ['total_comments']: each comment is counted under one
    domain. *)
Theorem table_totals (self : Analyzer) (res : CommentMetrics) :
  analyze_comment_patterns self = Ok res ->
  counter_total (common_email_domains res) <= total_comments res
  /\ counter_total (frequency_count (map domain_of (comments self)))
     = total_comments res
  /\ counter_total (most_common_words res)
     <= List.length (flat_map comment_words (comments self)).
Proof.
  intros H.
  destruct (comments self) as [|c cs] eqn:Ec.
  { unfold analyze_comment_patterns in H. rewrite Ec in H. injection H as <-.
    repeat split; unfold counter_total; simpl; lia. }
  assert (Hne : comments self <> []) by (rewrite Ec; discriminate).
  pose proof (analyze_comment_patterns_parts self res Hne H) as Hres.
  cbv zeta in Hres.
  rewrite count_comments_words, count_comments_domains in Hres.
  cbn [word_counts email_domains comment_acc0] in Hres.
  rewrite !counter_of_list in Hres.
  rewrite (map_ext _ domain_of (fun c => email_domain_after_last _)) in Hres.
  rewrite Ec in Hres. subst res.
  cbn [common_email_domains total_comments most_common_words].
  rewrite frequency_count_total, length_map.
  split; [|split; [reflexivity|]].
  - destruct (most_common_total 5 (frequency_count (map domain_of (c :: cs)))) as [Hle _].
    rewrite frequency_count_total, length_map in Hle. exact Hle.
  - destruct (most_common_total 10
                (frequency_count (flat_map comment_words (c :: cs)))) as [Hle _].
    rewrite frequency_count_total in Hle. exact Hle.
Qed.

Lemma table_totals_witness :
  exists res,
    analyze_comment_patterns sample_state = Ok res
    /\ counter_total (common_email_domains res) <= 1.
Proof.
  eexists. split; [reflexivity|].
  exact (proj1 (table_totals sample_state _ eq_refl)).
Defined.

(** ** [load_data]: the retries *)

Section LoadDataFileProperties.

Variable json_loads : string -> result value.
Variable read_lines : string -> list string * option exn.

Lemma load_lines_app (l1 l2 : list string) (self : Analyzer) :
  load_lines json_loads (l1 ++ l2) self
  = load_lines json_loads l2 (load_lines json_loads l1 self).
Proof. unfold load_lines. apply fold_left_app. Qed.

Lemma try_encodings_lines (encs : list string) :
  forall self,
    try_encodings json_loads read_lines encs self
    = (existsb (reads_to_end read_lines) encs,
       load_lines json_loads (lines_tried read_lines encs) self).
Proof.
  induction encs as [|enc encs IH]; intros self; simpl; [reflexivity|].
  unfold reads_to_end at 1.
  destruct (read_lines enc) as [lines [e|]]; [|reflexivity].
  rewrite IH, load_lines_app. reflexivity.
Qed.

(** X11.  [load_data] changes nothing and returns [False] when the
    file is not there.  Otherwise it returns [True] when the reading
    comes to the end of the file in one of its five encodings, and the
    analyzer has ingested the lines of every reading tried: what a
    reading got before an exception ended it stays ingested, and the
    next reading is ingested after it.  So the posts are those the
    analyzer had, then the post records of all these lines. *)
Theorem load_data_keeps_failed_readings (self : Analyzer) :
  load_data json_loads read_lines false self = (false, self)
  /\ load_data json_loads read_lines true self
     = (existsb (reads_to_end read_lines) encodings,
        load_lines json_loads (lines_tried read_lines encodings) self)
  /\ posts (snd (load_data json_loads read_lines true self))
     = (posts self
        ++ choose (post_record json_loads) (lines_tried read_lines encodings))%list
  /\ (forall lines,
        read_lines "utf-8" = (lines, None) ->
        load_data json_loads read_lines true self
        = (true, load_lines json_loads lines self))
  /\ (forall lines e lines',
        read_lines "utf-8" = (lines, Some e) ->
        read_lines "utf-16" = (lines', None) ->
        load_data json_loads read_lines true self
        = (true, load_lines json_loads (lines ++ lines') self)).
Proof.
  split; [reflexivity|].
  assert (H : load_data json_loads read_lines true self
              = (existsb (reads_to_end read_lines) encodings,
                 load_lines json_loads (lines_tried read_lines encodings) self))
    by apply try_encodings_lines.
  split; [exact H|]. split; [|split].
  - rewrite H. simpl snd.
    destruct (load_lines_fields json_loads (lines_tried read_lines encodings) self)
      as (_ & Hp & _). exact Hp.
  - intros lines Hl. rewrite H. unfold encodings, reads_to_end. simpl.
    rewrite Hl. reflexivity.
  - intros lines e lines' Hl Hl'. rewrite H. unfold encodings, reads_to_end. simpl.
    rewrite Hl, Hl'. reflexivity.
Qed.

End LoadDataFileProperties.

Lemma load_data_keeps_failed_readings_witness :
  load_data sample_json_loads sample_read_lines true new_analyzer
  = (true,
     mkAnalyzer [(KInt 1, sample_user 1 "alice")]
       [sample_post 1 1 "first" "one two three";
        sample_post 1 1 "first" "one two three"] []).
Proof.
  refine (eq_trans
            (proj2 (proj2 (proj2 (proj2
               (load_data_keeps_failed_readings sample_json_loads sample_read_lines
                  new_analyzer))))
               ["{type: RECORD, stream: posts, id: 1}"] ValueError
               ["{type: RECORD, stream: posts, id: 1}";
                "{type: RECORD, stream: users, id: 1}"] eq_refl eq_refl) _).
  reflexivity.
Defined.

(** ** [ValidationStats] *)




(** ** [UsersStream.parse_response] *)

Section UsersStreamProperties.

Variable utcnow_isoformat : nat -> string.

(** X13.  [UsersStream.parse_response] drops no record: it yields, for
    the records it has read and in their order, each record as it is
    or with the errors of its validation under ['_metadata'], and it
    has read them all when no exception ended it. *)
Theorem users_stream_yields_all (records out : list value) (e : option exn) :
  UsersStream_parse_response utcnow_isoformat records = (out, e) ->
  exists n,
    n <= List.length records
    /\ Forall2 (yielded_for utcnow_isoformat UserValidator_validate)
         (firstn n records) out
    /\ (e = None -> n = List.length records /\ List.length out = List.length records)
    /\ (e <> None -> n < List.length records).
Proof.
  unfold UsersStream_parse_response. generalize 0 as tick.
  revert out e. induction records as [|record records IH]; intros out e tick H; simpl in H.
  - injection H as <- <-. exists 0. simpl.
    split; [lia|]. split; [constructor|]. split; [split; reflexivity | congruence].
  - destruct (UsersStream_step utcnow_isoformat tick record) as [[o tick']|x] eqn:Hstep.
    + unfold UsersStream_step in Hstep.
      apply bind_Ok in Hstep; destruct Hstep as [[r t] [Hv Hstep]].
      injection Hstep as <- <-.
      destruct (generate (UsersStream_step utcnow_isoformat) t records)
        as [out' e'] eqn:Hgen.
      injection H as <- <-.
      destruct (IH _ _ _ Hgen) as (n & Hn & Hout & Hnone & Hsome).
      exists (S n). simpl.
      split; [lia|]. split; [constructor; [exact (validated_Ok _ _ _ _ _ _ Hv) | exact Hout]|].
      split; [intros He; destruct (Hnone He) as [-> ->]; split; reflexivity|].
      intros He. specialize (Hsome He). lia.
    + injection H as <- <-. exists 0. simpl.
      split; [lia|]. split; [constructor|]. split; [discriminate | lia].
Qed.

End UsersStreamProperties.

Lemma users_stream_yields_all_witness :
  exists n,
    n <= 2
    /\ Forall2 (yielded_for sample_clock UserValidator_validate)
         (firstn n [sample_user 1 "alice"; sample_user 3 "bob"])
         [sample_user 1 "alice"; sample_user 3 "bob"].
Proof.
  destruct (users_stream_yields_all sample_clock
              [sample_user 1 "alice"; sample_user 3 "bob"]
              [sample_user 1 "alice"; sample_user 3 "bob"] None eq_refl)
    as (n & Hn & Hout & _).
  exists n. split; [exact Hn | exact Hout].
Defined.

(** ** The validators *)

Lemma lstrip_empty (s : string) :
  PyStr.is_empty (PyStr.lstrip s) = all_space s.
Proof.
  induction s as [|c s IH]; simpl; [reflexivity|].
  destruct (PyStr.is_space c); simpl; [exact IH | reflexivity].
Qed.

Lemma rstrip_empty (s : string) :
  PyStr.is_empty (PyStr.rstrip s) = all_space s.
Proof.
  induction s as [|c s IH]; simpl; [reflexivity|].
  rewrite IH. destruct (all_space s), (PyStr.is_space c); reflexivity.
Qed.

Lemma all_space_lstrip (s : string) :
  all_space (PyStr.lstrip s) = all_space s.
Proof.
  induction s as [|c s IH]; simpl; [reflexivity|].
  destruct (PyStr.is_space c) eqn:E; simpl; [exact IH | rewrite E; reflexivity].
Qed.

(** [s.strip() == ""] holds of the strs of whitespace only. *)
Lemma strip_is_empty (s : string) :
  String.eqb (PyStr.strip s) "" = all_space s.
Proof.
  unfold PyStr.strip.
  rewrite <- all_space_lstrip, <- rstrip_empty.
  destruct (PyStr.rstrip (PyStr.lstrip s)); reflexivity.
Qed.

Lemma check_string_not_empty_Ok (v : value) (name : string)
  (errors : list string) (ok : bool) (errors' : list string) :
  check_string_not_empty v name errors = Ok (ok, errors') ->
  ok = nonblank v
  /\ errors' = if ok then errors
               else (errors ++ [("Field " ++ name ++ " cannot be empty")%string])%list.
Proof.
  unfold check_string_not_empty, nonblank.
  destruct (truthy v) eqn:Et; simpl.
  - destruct v as [| | |s| |]; try discriminate. simpl.
    rewrite strip_is_empty.
    destruct (all_space s); intros [= <- <-]; split; reflexivity.
  - intros [= <- <-]. split; [|reflexivity].
    destruct v as [| | |s| |]; try reflexivity.
    destruct s; [reflexivity | discriminate].
Qed.

Lemma check_positive_integer_spec (v : value) (name : string) (errors : list string) :
  check_positive_integer v name errors
  = (positive_int v,
     if positive_int v then errors
     else (errors ++ [("Field " ++ name ++ " must be a positive integer")%string])%list).
Proof.
  unfold check_positive_integer, positive_int.
  destruct v as [|b|z| | |]; try reflexivity.
  - destruct b; reflexivity.
  - destruct (Z.leb_spec z 0), (Z.ltb_spec 0 z); try reflexivity; lia.
Qed.

Lemma check_email_format_Ok (v : value) (errors : list string) (ok : bool)
  (errors' : list string) :
  check_email_format v errors = Ok (ok, errors') ->
  ok = email_shaped v
  /\ errors' = if ok then errors else (errors ++ ["Invalid email format"])%list.
Proof.
  unfold check_email_format, email_shaped.
  destruct v as [| | |s| |]; try discriminate.
  destruct (Re.matches Re.email_pattern s); intros [= <- <-]; split; reflexivity.
Qed.

(** The first of the required fields that is missing. *)
Lemma check_required_fields_Ok (data : value) (fields : list string)
  (errors : list string) (ok : bool) (errors' : list string) :
  check_required_fields data fields errors = Ok (ok, errors') ->
  if ok then errors' = errors
             /\ forall f, In f fields -> field_is (fun v => negb (is_none v)) f data = true
  else exists f, In f fields
                 /\ field_is (fun v => negb (is_none v)) f data = false
                 /\ errors' = (errors ++ [("Missing required field: " ++ f)%string])%list.
Proof.
  induction fields as [|field fields IH]; simpl.
  - intros [= <- <-]. split; [reflexivity | intros f []].
  - intros H.
    apply bind_Ok in H; destruct H as [present [Hin H]].
    apply bind_Ok in H; destruct H as [missing [Hmiss H]].
    assert (Hfield : field_is (fun v => negb (is_none v)) field data = negb missing).
    { unfold field_is. destruct present; simpl in Hmiss.
      - apply bind_Ok in Hmiss; destruct Hmiss as [v [Hv Hmiss]].
        rewrite Hv. injection Hmiss as <-. reflexivity.
      - injection Hmiss as <-.
        destruct data as [| | |s|l|d]; try discriminate; simpl in Hin |- *;
          try reflexivity.
        injection Hin as Hin. destruct (assoc field d); [discriminate | reflexivity]. }
    destruct missing.
    + injection H as <- <-. exists field.
      split; [left; reflexivity|]. split; [exact Hfield | reflexivity].
    + specialize (IH H). destruct ok.
      * destruct IH as [-> Hall]. split; [reflexivity|].
        intros f [<-|Hf]; [exact Hfield | exact (Hall f Hf)].
      * destruct IH as (f & Hf & Hmissing & ->).
        exists f. split; [right; exact Hf|]. split; [exact Hmissing | reflexivity].
Qed.

Lemma no_errors_app (errors : list string) (e : string) :
  no_errors (errors ++ [e]) = false.
Proof. destruct errors; reflexivity. Qed.

(** A run of checks: the verdict is the conjunction of the checks
    when the list of errors was empty before. *)
Lemma no_errors_step (ok : bool) (errors : list string) (e : string) :
  no_errors (if ok then errors else (errors ++ [e])%list) = ok && no_errors errors.
Proof. destruct ok; [reflexivity | apply no_errors_app]. Qed.

Lemma field_missing_false (p : value -> bool) (f : string) (data : value) :
  p VNone = false ->
  field_is (fun v => negb (is_none v)) f data = false ->
  field_is p f data = false.
Proof.
  unfold field_is. intros Hp.
  destruct (getitem data f) as [v|]; [|reflexivity].
  destruct v; try discriminate. intros _. exact Hp.
Qed.

Lemma no_errors_nil (errors : list string) :
  no_errors errors = true <-> errors = [].
Proof. destruct errors; simpl; split; congruence. Qed.

Lemma field_is_Ok (p : value -> bool) (f : string) (data v : value) :
  getitem data f = Ok v -> field_is p f data = p v.
Proof. unfold field_is. intros ->. reflexivity. Qed.

Lemma PostValidator_verdict (post : value) (ok : bool) (errors : list string) :
  PostValidator_validate post = Ok (ok, errors) ->
  ok = post_valid post /\ ok = no_errors errors.
Proof.
  unfold PostValidator_validate, post_valid. intros H.
  apply bind_Ok in H; destruct H as [[ok0 e0] [Hreq H]].
  apply check_required_fields_Ok in Hreq.
  destruct ok0; simpl in H.
  - destruct Hreq as [-> _].
    apply bind_Ok in H; destruct H as [id [Hid H]].
    rewrite check_positive_integer_spec in H.
    apply bind_Ok in H; destruct H as [uid [Huid H]].
    rewrite check_positive_integer_spec in H.
    apply bind_Ok in H; destruct H as [t [Ht H]].
    apply bind_Ok in H; destruct H as [[ok3 e3] [H3 H]].
    apply check_string_not_empty_Ok in H3. destruct H3 as [-> ->].
    apply bind_Ok in H; destruct H as [b [Hb H]].
    apply bind_Ok in H; destruct H as [[ok4 e4] [H4 H]].
    apply check_string_not_empty_Ok in H4. destruct H4 as [-> ->].
    injection H as <- <-.
    rewrite (field_is_Ok _ _ _ _ Hid), (field_is_Ok _ _ _ _ Huid),
      (field_is_Ok _ _ _ _ Ht), (field_is_Ok _ _ _ _ Hb).
    split; [|reflexivity].
    rewrite !no_errors_step. simpl.
    destruct (positive_int id), (positive_int uid), (nonblank t), (nonblank b);
      reflexivity.
  - injection H as <- <-. destruct Hreq as (f & Hf & Hmiss & ->).
    split; [|symmetry; apply no_errors_app].
    simpl in Hf.
    destruct Hf as [<-|[<-|[<-|[<-|[]]]]];
      rewrite (field_missing_false _ _ _ eq_refl Hmiss);
      rewrite ?andb_false_r; reflexivity.
Qed.

Lemma CommentValidator_verdict (comment : value) (ok : bool) (errors : list string) :
  CommentValidator_validate comment = Ok (ok, errors) ->
  ok = comment_valid comment /\ ok = no_errors errors.
Proof.
  unfold CommentValidator_validate, comment_valid. intros H.
  apply bind_Ok in H; destruct H as [[ok0 e0] [Hreq H]].
  apply check_required_fields_Ok in Hreq.
  destruct ok0; simpl in H.
  - destruct Hreq as [-> _].
    apply bind_Ok in H; destruct H as [id [Hid H]].
    rewrite check_positive_integer_spec in H.
    apply bind_Ok in H; destruct H as [pid [Hpid H]].
    rewrite check_positive_integer_spec in H.
    apply bind_Ok in H; destruct H as [n [Hn H]].
    apply bind_Ok in H; destruct H as [[ok3 e3] [H3 H]].
    apply check_string_not_empty_Ok in H3. destruct H3 as [-> ->].
    apply bind_Ok in H; destruct H as [b [Hb H]].
    apply bind_Ok in H; destruct H as [[ok4 e4] [H4 H]].
    apply check_string_not_empty_Ok in H4. destruct H4 as [-> ->].
    apply bind_Ok in H; destruct H as [em [Hem H]].
    apply bind_Ok in H; destruct H as [[ok5 e5] [H5 H]].
    apply check_email_format_Ok in H5. destruct H5 as [-> ->].
    injection H as <- <-.
    rewrite (field_is_Ok _ _ _ _ Hid), (field_is_Ok _ _ _ _ Hpid),
      (field_is_Ok _ _ _ _ Hn), (field_is_Ok _ _ _ _ Hb), (field_is_Ok _ _ _ _ Hem).
    split; [|reflexivity].
    rewrite !no_errors_step. simpl.
    destruct (positive_int id), (positive_int pid), (nonblank n), (nonblank b),
      (email_shaped em); reflexivity.
  - injection H as <- <-. destruct Hreq as (f & Hf & Hmiss & ->).
    split; [|symmetry; apply no_errors_app].
    simpl in Hf.
    destruct Hf as [<-|[<-|[<-|[<-|[<-|[]]]]]];
      rewrite (field_missing_false _ _ _ eq_refl Hmiss);
      rewrite ?andb_false_r; reflexivity.
Qed.

Lemma UserValidator_verdict (user : value) (ok : bool) (errors : list string) :
  UserValidator_validate user = Ok (ok, errors) ->
  ok = user_valid user /\ ok = no_errors errors.
Proof.
  unfold UserValidator_validate, user_valid. intros H.
  apply bind_Ok in H; destruct H as [[ok0 e0] [Hreq H]].
  apply check_required_fields_Ok in Hreq.
  destruct ok0; simpl in H.
  - destruct Hreq as [-> _].
    apply bind_Ok in H; destruct H as [id [Hid H]].
    rewrite check_positive_integer_spec in H.
    apply bind_Ok in H; destruct H as [n [Hn H]].
    apply bind_Ok in H; destruct H as [[ok3 e3] [H3 H]].
    apply check_string_not_empty_Ok in H3. destruct H3 as [-> ->].
    apply bind_Ok in H; destruct H as [u [Hu H]].
    apply bind_Ok in H; destruct H as [[ok4 e4] [H4 H]].
    apply check_string_not_empty_Ok in H4. destruct H4 as [-> ->].
    apply bind_Ok in H; destruct H as [em [Hem H]].
    apply bind_Ok in H; destruct H as [[ok5 e5] [H5 H]].
    apply check_email_format_Ok in H5. destruct H5 as [-> ->].
    injection H as <- <-.
    rewrite (field_is_Ok _ _ _ _ Hid), (field_is_Ok _ _ _ _ Hn),
      (field_is_Ok _ _ _ _ Hu), (field_is_Ok _ _ _ _ Hem).
    split; [|reflexivity].
    rewrite !no_errors_step. simpl.
    destruct (positive_int id), (nonblank n), (nonblank u), (email_shaped em);
      reflexivity.
  - injection H as <- <-. destruct Hreq as (f & Hf & Hmiss & ->).
    split; [|symmetry; apply no_errors_app].
    simpl in Hf.
    destruct Hf as [<-|[<-|[<-|[<-|[]]]]];
      rewrite (field_missing_false _ _ _ eq_refl Hmiss);
      rewrite ?andb_false_r; reflexivity.
Qed.

(** X14.  A validator that returns says [True] of the records whose
    ids are ints above 0, whose names, titles and bodies are strs with
    a character that is no whitespace, and whose email the pattern
    matches, and of no other; and it says [True] when, and only when,
    it has recorded no error. *)
Theorem validators_accept (record : value) (ok : bool) (errors : list string) :
  (PostValidator_validate record = Ok (ok, errors) ->
   ok = post_valid record /\ (ok = true <-> errors = []))
  /\ (CommentValidator_validate record = Ok (ok, errors) ->
      ok = comment_valid record /\ (ok = true <-> errors = []))
  /\ (UserValidator_validate record = Ok (ok, errors) ->
      ok = user_valid record /\ (ok = true <-> errors = [])).
Proof.
  split; [|split]; intros H.
  - destruct (PostValidator_verdict _ _ _ H) as [Hv He].
    split; [exact Hv | rewrite He; apply no_errors_nil].
  - destruct (CommentValidator_verdict _ _ _ H) as [Hv He].
    split; [exact Hv | rewrite He; apply no_errors_nil].
  - destruct (UserValidator_verdict _ _ _ H) as [Hv He].
    split; [exact Hv | rewrite He; apply no_errors_nil].
Qed.

Lemma validators_accept_witness :
  true = post_valid (sample_post 2 1 "second" "one two three four five")
  /\ false = user_valid (VDict [("id", VInt 1); ("name", VStr " ");
                                ("username", VStr "alice");
                                ("email", VStr "alice@example")]).
Proof.
  split.
  - exact (proj1 (proj1 (validators_accept
             (sample_post 2 1 "second" "one two three four five") true []) eq_refl)).
  - exact (proj1 (proj2 (proj2 (validators_accept
             (VDict [("id", VInt 1); ("name", VStr " ");
                     ("username", VStr "alice"); ("email", VStr "alice@example")])
             false ["Field name cannot be empty"; "Invalid email format"])) eq_refl)).
Defined.

(** *** A missing field *)

Lemma check_required_fields_first (d : list (string * value))
  (fields : list string) (errors : list string) :
  check_required_fields (VDict d) fields errors
  = Ok (match find (missing_field d) fields with
        | Some f => (false, (errors ++ [("Missing required field: " ++ f)%string])%list)
        | None => (true, errors)
        end).
Proof.
  induction fields as [|field fields IH]; simpl; [reflexivity|].
  unfold missing_field at 1.
  destruct (assoc field d) as [v|] eqn:E; simpl.
  - destruct (is_none v); [reflexivity | exact IH].
  - reflexivity.
Qed.

(** X15.  On a dict that lacks a required field, or has [None] there,
    a validator says [False] and records one error, which names the
    first such field in the order of its list; it checks nothing
    else. *)
Theorem validators_stop_at_missing_field (d : list (string * value)) (f : string) :
  (find (missing_field d) ["id"; "userId"; "title"; "body"] = Some f ->
   PostValidator_validate (VDict d)
   = Ok (false, [("Missing required field: " ++ f)%string]))
  /\ (find (missing_field d) ["id"; "postId"; "name"; "email"; "body"] = Some f ->
      CommentValidator_validate (VDict d)
      = Ok (false, [("Missing required field: " ++ f)%string]))
  /\ (find (missing_field d) ["id"; "name"; "username"; "email"] = Some f ->
      UserValidator_validate (VDict d)
      = Ok (false, [("Missing required field: " ++ f)%string])).
Proof.
  unfold PostValidator_validate, CommentValidator_validate, UserValidator_validate.
  rewrite !check_required_fields_first.
  split; [|split]; intros ->; reflexivity.
Qed.

Lemma validators_stop_at_missing_field_witness :
  PostValidator_validate (VDict [("id", VInt 0); ("title", VNone)])
  = Ok (false, ["Missing required field: userId"]).
Proof.
  exact (proj1 (validators_stop_at_missing_field
                  [("id", VInt 0); ("title", VNone)] "userId") eq_refl).
Defined.

(** ** A record that ends a stream *)

Lemma check_string_not_empty_raises (v : value) (name : string)
  (errors : list string) :
  unstrippable v = true ->
  check_string_not_empty v name errors = Raise AttributeError.
Proof.
  unfold unstrippable, check_string_not_empty.
  destruct (truthy v); [|discriminate]. simpl.
  destruct v; try discriminate; reflexivity.
Qed.

Lemma PostValidator_raises (d : list (string * value)) (t : value) :
  find (missing_field d) ["id"; "userId"; "title"; "body"] = None ->
  assoc "title" d = Some t ->
  unstrippable t = true ->
  PostValidator_validate (VDict d) = Raise AttributeError.
Proof.
  intros Hreq Ht Hbad. unfold PostValidator_validate.
  rewrite check_required_fields_first, Hreq. cbn [bind negb].
  simpl in Hreq. unfold missing_field in Hreq.
  unfold getitem.
  destruct (assoc "id" d) as [id|]; [|discriminate].
  destruct (is_none id); [discriminate|].
  destruct (assoc "userId" d) as [uid|]; [|discriminate].
  destruct (is_none uid); [discriminate|].
  rewrite Ht. cbn [bind].
  destruct (check_positive_integer id "id" []) as [? e1].
  destruct (check_positive_integer uid "userId" e1) as [? e2].
  cbn [bind]. rewrite (check_string_not_empty_raises t "title" e2 Hbad).
  reflexivity.
Qed.

Section StreamAbort.

Variable utcnow_isoformat : nat -> string.
Variable str_format : string -> value -> result string.

(** A generator goes on after the records it has read to their end. *)
Lemma generate_app (step : nat -> value -> result (option value * nat))
  (l1 : list value) :
  forall tick out1,
    generate step tick l1 = (out1, None) ->
    exists tick',
      forall l2,
        generate step tick (l1 ++ l2)
        = ((out1 ++ fst (generate step tick' l2))%list,
           snd (generate step tick' l2)).
Proof.
  induction l1 as [|r l1 IH]; intros tick out1 H; simpl in H.
  - injection H as <-. exists tick. intros l2. simpl.
    destruct (generate step tick l2); reflexivity.
  - destruct (step tick r) as [[[y|] t]|e] eqn:Hstep; [| |discriminate].
    + destruct (generate step t l1) as [o e] eqn:Hgen.
      injection H as <- ->.
      destruct (IH _ _ Hgen) as [tick' Happ].
      exists tick'. intros l2. simpl. rewrite Hstep, Happ. reflexivity.
    + destruct (IH _ _ H) as [tick' Happ].
      exists tick'. intros l2. simpl. rewrite Hstep, Happ. reflexivity.
Qed.

(** X16.  A post of even ['id'] whose ['title'] is true and no str, a
    number for one, ends [PostsStream.parse_response] with an
    [AttributeError]: the validator calls [strip] on it, and the stream
    catches nothing.  The generator has yielded the even ones of the
    records before, and reads none of the records after. *)
Theorem posts_stream_stops_at_bad_title
  (before after : list value) (d : list (string * value)) (z : Z) (t : value) :
  readable "id" schema_post before = true ->
  assoc "id" d = Some (VInt z) ->
  Z.even z = true ->
  find (missing_field d) ["id"; "userId"; "title"; "body"] = None ->
  assoc "title" d = Some t ->
  unstrippable t = true ->
  exists out,
    PostsStream_parse_response utcnow_isoformat str_format
      (before ++ VDict d :: after)
    = (out, Some AttributeError)
    /\ Forall2 (yielded_for utcnow_isoformat PostValidator_validate)
         (filter (even_field "id") before) out.
Proof.
  intros Hread Hid Heven Hreq Ht Hbad.
  destruct (generate_filter_step_returns utcnow_isoformat str_format "id"
              PostValidator_validate schema_post before
              PostValidator_validate_schema Hread 0) as [out Hout].
  exists out. split.
  - unfold PostsStream_parse_response.
    destruct (generate_app _ _ _ _ Hout) as [tick' Happ].
    change (generate (PostsStream_step utcnow_isoformat str_format) 0
              (before ++ VDict d :: after))
      with (generate (filter_step utcnow_isoformat str_format "id"
                        PostValidator_validate) 0 (before ++ VDict d :: after)).
    assert (Hstep : filter_step utcnow_isoformat str_format "id"
                      PostValidator_validate tick' (VDict d)
                    = Raise AttributeError).
    { unfold filter_step, getitem. rewrite Hid. cbn [bind py_mod eq_int].
      rewrite <- Zeven_mod, Heven. unfold validated.
      rewrite (PostValidator_raises d t Hreq Ht Hbad). reflexivity. }
    rewrite Happ. cbn [generate]. rewrite Hstep. simpl.
    rewrite app_nil_r. reflexivity.
  - destruct (generate_filter_step utcnow_isoformat str_format "id"
                PostValidator_validate before 0 out None Hout)
      as (n & _ & Hy & Hn & _).
    rewrite (Hn eq_refl), firstn_all in Hy. exact Hy.
Qed.

End StreamAbort.

Lemma posts_stream_stops_at_bad_title_witness :
  exists out,
    PostsStream_parse_response sample_clock sample_str_format
      ([sample_post 2 1 "second" "body"]
       ++ VDict [("userId", VInt 1); ("id", VInt 4); ("title", VInt 5);
                 ("body", VStr "body")]
          :: [sample_post 6 1 "sixth" "body"])
    = (out, Some AttributeError)
    /\ List.length out = 1.
Proof.
  destruct (posts_stream_stops_at_bad_title sample_clock sample_str_format
              [sample_post 2 1 "second" "body"] [sample_post 6 1 "sixth" "body"]
              [("userId", VInt 1); ("id", VInt 4); ("title", VInt 5);
               ("body", VStr "body")] 4 (VInt 5)
              eq_refl eq_refl eq_refl eq_refl eq_refl eq_refl)
    as (out & Hout & Hy).
  exists out. split; [exact Hout|].
  apply Forall2_length in Hy. symmetry. exact Hy.
Defined.

(** ** utils.py and its siblings *)





(** ** transform.py *)


Lemma mapM_length {A B : Type} (f : A -> result B) (l : list A) (l' : list B) :
  mapM f l = Ok l' -> List.length l' = List.length l.
Proof.
  intros H. apply mapM_Forall2 in H. symmetry. exact (Forall2_length H).
Qed.




Lemma measurable_fields (c : value) :
  Transform.measurable c = true ->
  (exists n, (b <- getitem c "body" ;; py_len b) = Ok n)
  /\ (exists k, (e <- getitem c "email" ;; py_hash e) = Ok k).
Proof.
  unfold Transform.measurable, hashable.
  destruct (getitem c "body") as [b|]; [|discriminate].
  destruct (getitem c "email") as [e|]; [|discriminate].
  destruct (py_len b) as [n|] eqn:En; [|discriminate].
  destruct (py_hash e) as [k|] eqn:Ek; [|discriminate].
  intros _. simpl. rewrite En, Ek. split; eexists; reflexivity.
Qed.

(** X20.  [calculate_metrics] returns on comments whose bodies have a
    length and whose emails can go in a set.  A first comment that is
    a dict without a ['body'] gives the [InvalidData] of a missing
    field, and a first comment that is no dict the [InvalidData] of an
    unexpected error. *)
Theorem calculate_metrics_errors (post : value) (comments : list value) :
  (forallb Transform.measurable comments = true ->
   exists m, Transform.calculate_metrics post comments = Transform.Returned m)
  /\ (forall d rest,
        comments = VDict d :: rest -> assoc "body" d = None ->
        Transform.calculate_metrics post comments
        = Transform.InvalidData Transform.MissingCommentField)
  /\ (forall v rest,
        comments = v :: rest -> (forall d, v <> VDict d) ->
        Transform.calculate_metrics post comments
        = Transform.InvalidData Transform.UnexpectedError).
Proof.
  split; [|split].
  - intros Hall. unfold Transform.calculate_metrics.
    destruct comments as [|c cs]; [eexists; reflexivity|].
    rewrite forallb_forall in Hall.
    unfold Transform.compute.
    destruct (mapM_returns (fun comment => b <- getitem comment "body" ;; py_len b)
                (c :: cs)) as [lengths Hl].
    { intros x Hx. exact (proj1 (measurable_fields x (Hall x Hx))). }
    destruct (mapM_returns (fun comment => e <- getitem comment "email" ;; py_hash e)
                (c :: cs)) as [emails He].
    { intros x Hx. exact (proj2 (measurable_fields x (Hall x Hx))). }
    rewrite Hl, He. cbn [bind].
    pose proof (mapM_length _ _ _ Hl) as Hlen.
    destruct lengths as [|n ns]; [discriminate|].
    cbn [mean py_max py_min bind].
    destruct (3 <=? List.length (c :: cs)); [|eexists; reflexivity].
    unfold median. rewrite py_sorted_length.
    change (List.length (n :: ns) =? 0) with false. cbv iota.
    destruct (Nat.odd (List.length (n :: ns))); eexists; reflexivity.
  - intros d rest -> Hbody. unfold Transform.calculate_metrics, Transform.compute.
    simpl. rewrite Hbody. reflexivity.
  - intros v rest -> Hv. unfold Transform.calculate_metrics, Transform.compute.
    simpl. destruct v as [| | | | |d]; try reflexivity.
    exfalso. exact (Hv d eq_refl).
Qed.

Lemma calculate_metrics_errors_witness :
  Transform.calculate_metrics VNone
    [VDict [("email", VStr "bob@example.com")]; sample_comment 1 1 "a@b.co" "body"]
  = Transform.InvalidData Transform.MissingCommentField.
Proof.
  exact (proj1 (proj2 (calculate_metrics_errors VNone
           [VDict [("email", VStr "bob@example.com")];
            sample_comment 1 1 "a@b.co" "body"]))
           [("email", VStr "bob@example.com")]
           [sample_comment 1 1 "a@b.co" "body"] eq_refl eq_refl).
Defined.

(** ** dashboard.py *)

Section DashboardLoad.

Variable json_loads : string -> result value.



End DashboardLoad.


Lemma comment_lengths_ready (l : list value) :
  forallb comment_ready l = true ->
  mapM (fun comment => b <- getitem comment "body" ;; py_len b) l
  = Ok (map (fun c => String.length (body_of c)) l).
Proof.
  induction l as [|c l IH]; simpl; [reflexivity|].
  rewrite andb_true_iff. intros [Hc Hl]. rewrite (IH Hl).
  unfold comment_ready in Hc. unfold body_of.
  destruct (getitem c "body") as [[| | |s| |]|]; try discriminate.
  reflexivity.
Qed.

(** X22.  Where [analyze_comment_patterns] of the analyzer returns,
    [get_comment_metrics] of the dashboard returns too, with the same
    number of comments and the same average length; its ['lengths']
    are the lengths of the bodies, comment by comment. *)
Theorem dashboard_comment_metrics_agree (self : Analyzer) (res : CommentMetrics) :
  analyze_comment_patterns self = Ok res ->
  exists m,
    Dashboard.get_comment_metrics self = Ok m
    /\ Dashboard.Comment.total_comments m = total_comments res
    /\ Dashboard.Comment.avg_length m = avg_comment_length res
    /\ Dashboard.Comment.lengths m
       = map (fun c => String.length (body_of c)) (comments self).
Proof.
  intros H. unfold Dashboard.get_comment_metrics.
  destruct (comments self) as [|c cs] eqn:Ec.
  { unfold analyze_comment_patterns in H. rewrite Ec in H. injection H as <-.
    eexists. split; [reflexivity|]. repeat split. }
  assert (Hne : comments self <> []) by (rewrite Ec; discriminate).
  pose proof (analyze_comment_patterns_parts self res Hne H) as Hres.
  cbv zeta in Hres.
  assert (Hready : forallb comment_ready (comments self) = true).
  { unfold analyze_comment_patterns in H. rewrite Ec in H.
    apply bind_Ok in H. destruct H as [acc [Hacc _]].
    rewrite Ec. exact (proj1 (comment_steps_Ok _ _ _ Hacc)). }
  rewrite Ec in Hres, Hready. subst res.
  rewrite (comment_lengths_ready _ Hready).
  eexists. split; [reflexivity|].
  cbn [Dashboard.Comment.total_comments Dashboard.Comment.avg_length
       Dashboard.Comment.lengths total_comments avg_comment_length].
  split; [reflexivity|]. split; [|reflexivity].
  rewrite count_comments_length. cbn [total_length comment_acc0 Nat.add].
  rewrite length_map. reflexivity.
Qed.

Lemma dashboard_comment_metrics_agree_witness :
  exists m,
    Dashboard.get_comment_metrics sample_state = Ok m
    /\ Dashboard.Comment.total_comments m = 1
    /\ Dashboard.Comment.avg_length m = 23 # 1
    /\ Dashboard.Comment.lengths m = [23].
Proof.
  exact (dashboard_comment_metrics_agree sample_state _ eq_refl).
Defined.

(** [==] on two hashable values is the equality of their keys. *)
Lemma py_eq_keys (a b : value) (ka kb : hkey) :
  py_hash a = Ok ka -> py_hash b = Ok kb -> py_eq a b = key_eqb ka kb.
Proof.
  destruct a as [|x|x|x|x|x], b as [|y|y|y|y|y]; simpl; intros Ha Hb;
    try discriminate; injection Ha as <-; injection Hb as <-.
  all: match goal with
       | |- ?l = key_eqb ?a ?b =>
           destruct (key_eqb a b) eqn:E;
           [apply key_eqb_true in E; simpl in E
           |assert (E' : norm_key a <> norm_key b)
              by (intros E'; apply key_eqb_true in E'; congruence);
            simpl in E'; clear E]
       end.
  all: try discriminate E; try reflexivity.
  - exfalso. apply E'. reflexivity.
  - injection E as E. destruct x, y; try reflexivity; discriminate E.
  - destruct x, y; try reflexivity; exfalso; apply E'; reflexivity.
  - injection E as <-. apply Z.eqb_refl.
  - apply Z.eqb_neq. congruence.
  - injection E as ->. apply Z.eqb_refl.
  - apply Z.eqb_neq. congruence.
  - injection E as ->. apply Z.eqb_refl.
  - apply Z.eqb_neq. congruence.
  - injection E as ->. apply String.eqb_refl.
  - apply String.eqb_neq. congruence.
Qed.

Lemma py_hash_value_of_key (k : hkey) : py_hash (value_of_key k) = Ok k.
Proof. destruct k; reflexivity. Qed.

(** [v == k] for a key [k] of a dict. *)
Lemma py_eq_key (v : value) (k : hkey) :
  py_eq v (value_of_key k)
  = match py_hash v with
    | Ok k' => key_eqb k k'
    | Raise _ => false
    end.
Proof.
  destruct (py_hash v) as [k'|e] eqn:E.
  - rewrite (py_eq_keys v _ k' k E (py_hash_value_of_key k)). apply key_eqb_sym.
  - destruct v, k; try discriminate; reflexivity.
Qed.

Lemma group_comments_ok (l : list value) :
  forall pc pc', foldM group_comment l pc = Ok pc' -> forallb comment_ok l = true.
Proof.
  induction l as [|c l IH]; intros pc pc' H; simpl in H; [reflexivity|].
  apply bind_Ok in H; destruct H as [pc1 [H1 H2]].
  simpl. rewrite (IH _ _ H2), andb_true_r.
  unfold group_comment in H1.
  apply bind_Ok in H1; destruct H1 as [pid [Hpid H1]].
  apply bind_Ok in H1; destruct H1 as [k [Hk _]].
  unfold comment_ok, hashable. rewrite Hpid, Hk. reflexivity.
Qed.


(** The comments the dashboard finds on a post are those the analyzer
    groups under its id. *)
Lemma comments_of_post (self : Analyzer) (post : value) (k : hkey) :
  forallb comment_ok (comments self) = true ->
  post_id_key post = Some k ->
  Dashboard.comments_of self post = Ok (filter (comment_on k) (comments self)).
Proof.
  unfold Dashboard.comments_of, post_id_key.
  destruct (getitem post "id") as [pid|] eqn:Hpid; [|discriminate].
  destruct (py_hash pid) as [k'|] eqn:Hk; [|discriminate].
  intros Hcs [= <-].
  induction (comments self) as [|c cs IH]; [reflexivity|].
  simpl in Hcs. apply andb_true_iff in Hcs. destruct Hcs as [Hc Hcs].
  cbn [filterM filter]. rewrite (IH Hcs).
  unfold comment_ok, hashable in Hc. unfold comment_on, comment_post_key.
  destruct (getitem c "postId") as [cp|]; [|discriminate].
  destruct (py_hash cp) as [kc|] eqn:Hkc; [|discriminate].
  cbn [bind]. rewrite (py_eq_keys cp pid kc k' Hkc Hk), key_eqb_sym. reflexivity.
Qed.




(** *** [get_user_metrics] *)

(** What the loops of [analyze_user_activity] have read of a post. *)
Lemma count_posts_fields (l : list value) :
  forall um um', foldM count_post l um = Ok um' ->
  forall p, In p l ->
    (exists k, post_user_key p = Some k)
    /\ exists s, getitem p "body" = Ok (VStr s).
Proof.
  induction l as [|q l IH]; intros um um' H p Hp; [destruct Hp|].
  simpl in H. apply bind_Ok in H; destruct H as [um1 [H1 H2]].
  destruct Hp as [<-|Hp]; [|exact (IH _ _ H2 p Hp)].
  unfold count_post in H1. unfold post_user_key.
  apply bind_Ok in H1; destruct H1 as [uid [Huid H1]].
  apply bind_Ok in H1; destruct H1 as [k [Hk H1]].
  apply bind_Ok in H1; destruct H1 as [body [Hbody H1]].
  apply bind_Ok in H1; destruct H1 as [ws [Hws _]].
  rewrite Huid, Hk. split; [exists k; reflexivity|].
  destruct body as [| | |s| |]; try discriminate.
  exists s. exact Hbody.
Qed.

Lemma credit_comments_ids (l : list value) :
  forall acc acc', foldM credit_comments l acc = Ok acc' ->
  forall p, In p l -> exists k, post_id_key p = Some k.
Proof.
  induction l as [|q l IH]; intros acc acc' H p Hp; [destruct Hp|].
  simpl in H. apply bind_Ok in H; destruct H as [[um1 pc1] [H1 H2]].
  destruct Hp as [<-|Hp]; [|exact (IH _ _ H2 p Hp)].
  destruct acc as [um pc].
  destruct (credit_comments_count _ _ _ _ _ H1) as (_ & k & kid & _ & Hkid & _).
  exists kid. exact Hkid.
Qed.

(** The posts the dashboard finds for a user id. *)
Lemma user_posts_filter (self : Analyzer) (k : hkey) :
  (forall p, In p (posts self) -> exists k', post_user_key p = Some k') ->
  Dashboard.user_posts self k = Ok (filter (posted_by k) (posts self)).
Proof.
  unfold Dashboard.user_posts.
  induction (posts self) as [|p ps IH]; intros Hps; [reflexivity|].
  cbn [filterM filter].
  rewrite (IH (fun q Hq => Hps q (or_intror Hq))).
  destruct (Hps p (or_introl eq_refl)) as [k' Hk'].
  unfold posted_by. rewrite Hk'. unfold post_user_key in Hk'.
  destruct (getitem p "userId") as [u|]; [|discriminate].
  cbn [bind]. rewrite py_eq_key.
  destruct (py_hash u) as [k1|]; [|discriminate].
  injection Hk' as ->. reflexivity.
Qed.

Lemma comment_counts_of (self : Analyzer) (l : list value) :
  forallb comment_ok (comments self) = true ->
  (forall p, In p l -> exists k, post_id_key p = Some k) ->
  mapM (fun post => cs <- Dashboard.comments_of self post ;; Ok (List.length cs)) l
  = Ok (map (comments_on_post (comments self)) l).
Proof.
  intros Hcs. induction l as [|p l IH]; intros Hl; [reflexivity|].
  cbn [mapM map]. rewrite (IH (fun q Hq => Hl q (or_intror Hq))).
  destruct (Hl p (or_introl eq_refl)) as [k Hk].
  rewrite (comments_of_post self p k Hcs Hk). cbn [bind].
  unfold comments_on_post. rewrite Hk. reflexivity.
Qed.

Lemma word_counts_of (l : list value) :
  (forall p, In p l -> exists s, getitem p "body" = Ok (VStr s)) ->
  mapM (fun post => b <- getitem post "body" ;; ws <- str_split b ;;
                    Ok (List.length ws)) l
  = Ok (map post_words l).
Proof.
  induction l as [|p l IH]; intros Hl; [reflexivity|].
  cbn [mapM map]. rewrite (IH (fun q Hq => Hl q (or_intror Hq))).
  destruct (Hl p (or_introl eq_refl)) as [s Hs].
  unfold post_words, body_of. rewrite Hs. reflexivity.
Qed.

Lemma user_activity_mem (self : Analyzer) (res : pydict UserMetrics) :
  users self <> [] ->
  analyze_user_activity self = Ok res ->
  forall k, dict_mem k res = existsb (posted_by k) (posts self).
Proof.
  intros Hu H k.
  destruct (analyze_user_activity_Ok self res Hu H)
    as (um1 & pc & um2 & pc2 & H1 & H3 & H4).
  destruct (calc_averages_all_sum _ _ _ H4) as [_ Hk].
  rewrite dict_mem_keys, Hk, <- dict_mem_keys.
  pose proof (credit_comments_mem _ _ _ H3 k) as E3; simpl in E3; rewrite E3.
  rewrite (count_posts_mem _ _ _ H1 k); simpl.
  apply orb_diag.
Qed.

Lemma filter_posted_by_compat (k k' : hkey) (l : list value) :
  key_eqb k k' = true -> filter (posted_by k) l = filter (posted_by k') l.
Proof.
  intros Hk. apply filter_ext. intros p. unfold posted_by.
  destruct (post_user_key p); [|reflexivity].
  apply key_eqb_compat. exact Hk.
Qed.

Lemma filter_nil_existsb {A : Type} (f : A -> bool) (l : list A) :
  existsb f l = false -> filter f l = [].
Proof.
  induction l as [|x l IH]; simpl; [reflexivity|].
  destruct (f x); [discriminate | exact IH].
Qed.

Section DashboardUserMetrics.

Variable round2 : Q -> Q.

Lemma user_row_agrees (self : Analyzer) (res : pydict UserMetrics)
  (k : hkey) (user name : value) :
  users self <> [] ->
  analyze_user_activity self = Ok res ->
  getitem user "username" = Ok name ->
  exists row,
    Dashboard.user_row round2 self (k, user) = Ok row
    /\ row_agrees round2 res (k, user) row.
Proof.
  intros Hu H Hname.
  destruct (analyze_user_activity_loops self res Hu H)
    as (um1 & pc & um2 & pc2 & H1 & H2 & H3 & H4).
  pose proof (count_posts_fields _ _ _ H1) as Hfields.
  pose proof (credit_comments_ids _ _ _ H3) as Hids.
  pose proof (group_comments_ok _ _ _ H2) as Hcs.
  unfold Dashboard.user_row.
  rewrite (user_posts_filter self k (fun p Hp => proj1 (Hfields p Hp))).
  cbn [bind].
  set (ups := filter (posted_by k) (posts self)).
  assert (Hups : forall p, In p ups -> In p (posts self))
    by (intros p Hp; apply filter_In in Hp; exact (proj1 Hp)).
  rewrite (comment_counts_of self ups Hcs (fun p Hp => Hids p (Hups p Hp))).
  cbn [bind].
  pose proof (user_activity_mem self res Hu H k) as Hmem.
  unfold dict_mem in Hmem.
  destruct (dict_get k res) as [m|] eqn:Em.
  - destruct (dict_get_In _ _ _ Em) as (k0 & Hin & Hk0).
    destruct (user_activity_entry self res k0 m Hu H Hin) as [Hpos [nm Hm]].
    cbv zeta in Hpos, Hm.
    rewrite <- (filter_posted_by_compat k k0 (posts self) Hk0) in Hpos, Hm.
    fold ups in Hpos, Hm.
    destruct (0 <? List.length ups) eqn:E; [|apply Nat.ltb_ge in E; lia].
    rewrite (word_counts_of ups (fun p Hp => proj2 (Hfields p (Hups p Hp)))).
    cbn [bind]. unfold truediv.
    destruct (List.length ups) as [|n] eqn:En; [lia|].
    cbn [bind]. rewrite Hname. cbn [bind].
    eexists. split; [reflexivity|].
    unfold row_agrees. cbn [fst snd]. split; [exact Hname|].
    rewrite Em, Hm. simpl. repeat split.
  - symmetry in Hmem. apply filter_nil_existsb in Hmem. fold ups in Hmem.
    rewrite Hmem. simpl. rewrite Hname. cbn [bind].
    eexists. split; [reflexivity|].
    unfold row_agrees. cbn [fst snd]. rewrite Em. simpl. repeat split.
    exact Hname.
Qed.

(** X24.  Where [analyze_user_activity] of the analyzer returns and
    every stored user has a ['username'], [get_user_metrics] of the
    dashboard returns too, one row per stored user in the order of
    [users].  The row of a user id that has an entry in the result of
    the analyzer has the ['post_count'] of this entry, its
    ['total_comments_received'] and, rounded, its ['avg_post_length'];
    the row of a user id that has none, which is one without a post,
    counts 0. *)
Theorem dashboard_user_metrics_agree (self : Analyzer)
  (res : pydict UserMetrics) :
  analyze_user_activity self = Ok res ->
  (forall k user, In (k, user) (users self) ->
                  exists name, getitem user "username" = Ok name) ->
  exists rows,
    Dashboard.get_user_metrics round2 self = Ok rows
    /\ Forall2 (row_agrees round2 res) (users self) rows.
Proof.
  intros H Hnames. unfold Dashboard.get_user_metrics.
  destruct (users self) as [|u us] eqn:Eu.
  { exists []. split; [reflexivity | constructor]. }
  assert (Hu : users self <> []) by (rewrite Eu; discriminate).
  clear Eu. revert Hnames. generalize (u :: us) as l.
  induction l as [|[k user] l IH]; intros Hnames.
  - exists []. split; [reflexivity | constructor].
  - destruct (Hnames k user (or_introl eq_refl)) as [name Hname].
    destruct (user_row_agrees self res k user name Hu H Hname) as (row & Hrow & Hag).
    destruct (IH (fun k' user' Hin => Hnames k' user' (or_intror Hin)))
      as (rows & Hrows & Hall).
    exists (row :: rows). split; [|constructor; assumption].
    cbn [mapM]. rewrite Hrow. cbn [bind]. rewrite Hrows. reflexivity.
Qed.

End DashboardUserMetrics.

Lemma dashboard_user_metrics_agree_witness :
  exists rows,
    Dashboard.get_user_metrics (fun q => q) sample_state = Ok rows
    /\ Forall2 (row_agrees (fun q => q)
                  [(KInt 1, mkUserMetrics 2 1 (1 # 2) 8 (8 # 2) (Some (VStr "alice")));
                   (KInt 7, mkUserMetrics 1 0 (0 # 1) 1 (1 # 1) (Some (VStr "User 7")))])
         (users sample_state) rows.
Proof.
  refine (dashboard_user_metrics_agree (fun q => q) sample_state _ eq_refl _).
  intros k user [[= <- <-]|[]]. eexists. reflexivity.
Defined.

(** ** The pattern of [check_email_format] *)

Lemma in_lang_nil (r : Re.regex) (s : string) :
  in_lang r s -> s = "" -> Re.nullable r = true.
Proof.
  induction 1 as [|p c Hp|r1 r2 s1 s2 _ IH1 _ IH2|r1 r2 s _ IH|r1 r2 s _ IH
                 |r|r s1 s2 _ _ _ _]; intros Hs; simpl; try reflexivity.
  - discriminate.
  - destruct s1; [|discriminate]. simpl in Hs.
    rewrite (IH1 eq_refl), (IH2 Hs). reflexivity.
  - rewrite (IH Hs). reflexivity.
  - rewrite (IH Hs). apply orb_true_r.
Qed.

Lemma nullable_in_lang (r : Re.regex) : Re.nullable r = true -> in_lang r "".
Proof.
  induction r as [| |p|r1 IH1 r2 IH2|r1 IH1 r2 IH2|r IH]; simpl; intros H;
    try discriminate.
  - constructor.
  - apply andb_true_iff in H. destruct H as [H1 H2].
    exact (in_cat r1 r2 "" "" (IH1 H1) (IH2 H2)).
  - apply orb_true_iff in H. destruct H as [H|H].
    + apply in_alt_l, IH1, H.
    + apply in_alt_r, IH2, H.
  - constructor.
Qed.

Lemma deriv_sound (c : ascii) (r : Re.regex) :
  forall s, in_lang (Re.deriv c r) s -> in_lang r (String c s).
Proof.
  induction r as [| |p|r1 IH1 r2 IH2|r1 IH1 r2 IH2|r IH]; simpl; intros s H.
  - inversion H.
  - inversion H.
  - destruct (p c) eqn:E; inversion H; subst. constructor. exact E.
  - destruct (Re.nullable r1) eqn:E.
    + inversion H as [| | | ? ? ? H1 | ? ? ? H2 | |]; subst.
      * inversion H1 as [| |? ? s1 s2 Ha Hb| | | |]; subst.
        exact (in_cat r1 r2 (String c s1) s2 (IH1 _ Ha) Hb).
      * exact (in_cat r1 r2 "" (String c s) (nullable_in_lang r1 E) (IH2 _ H2)).
    + inversion H as [| |? ? s1 s2 Ha Hb| | | |]; subst.
      exact (in_cat r1 r2 (String c s1) s2 (IH1 _ Ha) Hb).
  - inversion H; subst.
    + apply in_alt_l, IH1. assumption.
    + apply in_alt_r, IH2. assumption.
  - inversion H as [| |? ? s1 s2 Ha Hb| | | |]; subst.
    exact (in_star_cons r (String c s1) s2 (IH _ Ha) Hb).
Qed.

Lemma deriv_complete (r : Re.regex) (s' : string) :
  in_lang r s' -> forall c s, s' = String c s -> in_lang (Re.deriv c r) s.
Proof.
  induction 1 as [|p c0 Hp|r1 r2 s1 s2 H1 IH1 H2 IH2|r1 r2 s0 _ IH|r1 r2 s0 _ IH
                 |r|r s1 s2 H1 IH1 H2 IH2]; intros c s Hs; simpl.
  - discriminate.
  - injection Hs as -> <-. rewrite Hp. constructor.
  - destruct s1 as [|c1 s1].
    + simpl in Hs. rewrite (in_lang_nil r1 "" H1 eq_refl).
      apply in_alt_r. exact (IH2 c s Hs).
    + simpl in Hs. injection Hs as -> <-.
      destruct (Re.nullable r1).
      * apply in_alt_l. constructor; [exact (IH1 c s1 eq_refl) | exact H2].
      * constructor; [exact (IH1 c s1 eq_refl) | exact H2].
  - apply in_alt_l. exact (IH c s Hs).
  - apply in_alt_r. exact (IH c s Hs).
  - discriminate.
  - destruct s1 as [|c1 s1].
    + simpl in Hs. exact (IH2 c s Hs).
    + simpl in Hs. injection Hs as -> <-.
      constructor; [exact (IH1 c s1 eq_refl) | exact H2].
Qed.

(** [Re.matches] decides the texts of a pattern. *)
Lemma matches_in_lang (s : string) :
  forall r, Re.matches r s = true <-> in_lang r s.
Proof.
  induction s as [|c s IH]; intros r; simpl.
  - split; [apply nullable_in_lang | intros H; exact (in_lang_nil r "" H eq_refl)].
  - rewrite IH. split; [apply deriv_sound|].
    intros H. exact (deriv_complete r _ H c s eq_refl).
Qed.

Lemma in_lang_cat (r1 r2 : Re.regex) (s : string) :
  in_lang (Re.Cat r1 r2) s
  <-> exists s1 s2, s = s1 ++ s2 /\ in_lang r1 s1 /\ in_lang r2 s2.
Proof.
  split.
  - intros H. inversion H; subst. eauto.
  - intros (s1 & s2 & -> & H1 & H2). constructor; assumption.
Qed.

Lemma in_lang_class (p : ascii -> bool) (s : string) :
  in_lang (Re.Class p) s <-> exists c, s = String c "" /\ p c = true.
Proof.
  split.
  - intros H. inversion H; subst. eauto.
  - intros (c & -> & Hc). constructor. exact Hc.
Qed.

Lemma in_lang_star_class_all (r : Re.regex) (s : string) :
  in_lang r s -> forall p, r = Re.Star (Re.Class p) -> all_chars p s = true.
Proof.
  induction 1 as [| | | | | |r s1 s2 H1 _ H2 IH2]; intros q Hr; try discriminate.
  - reflexivity.
  - injection Hr as ->. inversion H1; subst. simpl.
    rewrite (IH2 q eq_refl), andb_true_r. assumption.
Qed.

Lemma in_lang_star_class (p : ascii -> bool) (s : string) :
  in_lang (Re.Star (Re.Class p)) s <-> all_chars p s = true.
Proof.
  split.
  - intros H. exact (in_lang_star_class_all _ s H p eq_refl).
  - induction s as [|c s IH]; simpl; intros H; [constructor|].
    apply andb_true_iff in H. destruct H as [Hc Hs].
    exact (in_star_cons (Re.Class p) (String c "") s (in_class p c Hc) (IH Hs)).
Qed.

Lemma in_lang_plus_class (p : ascii -> bool) (s : string) :
  in_lang (Re.plus (Re.Class p)) s <-> s <> "" /\ all_chars p s = true.
Proof.
  unfold Re.plus. rewrite in_lang_cat. split.
  - intros (s1 & s2 & -> & H1 & H2).
    apply in_lang_class in H1. destruct H1 as (c & -> & Hc).
    apply in_lang_star_class in H2. simpl. rewrite Hc, H2.
    split; [discriminate | reflexivity].
  - intros [Hne Hall]. destruct s as [|c s]; [congruence|].
    simpl in Hall. apply andb_true_iff in Hall. destruct Hall as [Hc Hs].
    exists (String c ""), s. split; [reflexivity|].
    split; [constructor; exact Hc | apply in_lang_star_class; exact Hs].
Qed.

Lemma in_lang_at_least_2 (p : ascii -> bool) (s : string) :
  in_lang (Re.at_least_2 (Re.Class p)) s
  <-> 2 <= String.length s /\ all_chars p s = true.
Proof.
  unfold Re.at_least_2. rewrite in_lang_cat. split.
  - intros (s1 & s2 & -> & H1 & H2).
    apply in_lang_class in H1. destruct H1 as (c & -> & Hc).
    change (Re.Cat (Re.Class p) (Re.Star (Re.Class p)))
      with (Re.plus (Re.Class p)) in H2.
    apply in_lang_plus_class in H2. destruct H2 as [Hne Hall].
    simpl. rewrite Hc, Hall. split; [|reflexivity].
    destruct s2; [congruence | simpl; lia].
  - intros [Hlen Hall]. destruct s as [|c s]; [simpl in Hlen; lia|].
    simpl in Hall. apply andb_true_iff in Hall. destruct Hall as [Hc Hs].
    exists (String c ""), s. split; [reflexivity|].
    split; [constructor; exact Hc|].
    change (Re.Cat (Re.Class p) (Re.Star (Re.Class p)))
      with (Re.plus (Re.Class p)).
    apply in_lang_plus_class. split; [|exact Hs].
    destruct s; [simpl in Hlen; lia | discriminate].
Qed.

Lemma in_lang_chr (c : ascii) (s : string) :
  in_lang (Re.chr c) s <-> s = String c "".
Proof.
  unfold Re.chr. rewrite in_lang_class. split.
  - intros (c' & -> & Hc). apply Ascii.eqb_eq in Hc. subst. reflexivity.
  - intros ->. exists c. split; [reflexivity | apply Ascii.eqb_refl].
Qed.

Lemma in_lang_dollar (s : string) :
  in_lang Re.dollar s <-> s = "" \/ s = newline.
Proof.
  unfold Re.dollar. split.
  - intros H. inversion H as [| | |? ? ? H1|? ? ? H2| |]; subst.
    + inversion H1. left. reflexivity.
    + apply in_lang_chr in H2. right. exact H2.
  - intros [->| ->].
    + apply in_alt_l. constructor.
    + apply in_alt_r. apply in_lang_chr. reflexivity.
Qed.

Lemma email_pattern_texts (s : string) :
  Re.matches Re.email_pattern s = true <-> email_text s.
Proof.
  rewrite matches_in_lang. unfold Re.email_pattern, email_text.
  change (fun c => Re.alnum c || Re.one_of "._%+-" c) with local_char.
  change (fun c => Re.alnum c || Re.one_of ".-" c) with domain_char.
  split.
  - intros H.
    apply in_lang_cat in H. destruct H as (name & s1 & -> & Hn & H).
    apply in_lang_cat in H. destruct H as (at_ & s2 & -> & Hat & H).
    apply in_lang_cat in H. destruct H as (domain & s3 & -> & Hd & H).
    apply in_lang_cat in H. destruct H as (dot & s4 & -> & Hdot & H).
    apply in_lang_cat in H. destruct H as (tld & tail & -> & Ht & Htail).
    apply in_lang_plus_class in Hn. apply in_lang_chr in Hat.
    apply in_lang_plus_class in Hd. apply in_lang_chr in Hdot.
    apply in_lang_at_least_2 in Ht. apply in_lang_dollar in Htail.
    subst at_ dot. exists name, domain, tld, tail.
    destruct Hn, Hd, Ht. repeat split; assumption.
  - intros (name & domain & tld & tail & -> & Hn1 & Hn2 & Hd1 & Hd2 & Ht1 & Ht2 & Htail).
    apply in_lang_cat. exists name, ("@" ++ domain ++ "." ++ tld ++ tail).
    split; [reflexivity|]. split; [apply in_lang_plus_class; split; assumption|].
    apply in_lang_cat. exists "@", (domain ++ "." ++ tld ++ tail).
    split; [reflexivity|]. split; [apply in_lang_chr; reflexivity|].
    apply in_lang_cat. exists domain, ("." ++ tld ++ tail).
    split; [reflexivity|]. split; [apply in_lang_plus_class; split; assumption|].
    apply in_lang_cat. exists ".", (tld ++ tail).
    split; [reflexivity|]. split; [apply in_lang_chr; reflexivity|].
    apply in_lang_cat. exists tld, tail.
    split; [reflexivity|]. split; [apply in_lang_at_least_2; split; assumption|].
    apply in_lang_dollar. exact Htail.
Qed.

Lemma count_char_app (c : ascii) (s t : string) :
  count_char c (s ++ t) = count_char c s + count_char c t.
Proof.
  induction s as [|c' s IH]; simpl; [reflexivity|]. rewrite IH. lia.
Qed.

Lemma count_char_none (p : ascii -> bool) (c : ascii) (s : string) :
  p c = false -> all_chars p s = true -> count_char c s = 0.
Proof.
  intros Hc. induction s as [|c' s IH]; simpl; [reflexivity|].
  intros H. apply andb_true_iff in H. destruct H as [Hc' Hs].
  rewrite (IH Hs). destruct (Ascii.eqb_spec c c') as [->|_]; [congruence | reflexivity].
Qed.

Lemma email_text_one_at (s : string) : email_text s -> count_char "@" s = 1.
Proof.
  intros (name & domain & tld & tail & -> & _ & Hn & _ & Hd & _ & Ht & Htail).
  rewrite !count_char_app.
  rewrite (count_char_none local_char "@" name eq_refl Hn).
  rewrite (count_char_none domain_char "@" domain eq_refl Hd).
  rewrite (count_char_none Re.alpha "@" tld eq_refl Ht).
  destruct Htail as [->| ->]; reflexivity.
Qed.

(** X25.  [check_email_format] takes a str without appending an error
    exactly when it is a name, an [@], a domain, a dot and two letters
    or more, the name and the domain not empty and of the characters
    of the pattern; a newline at the end of it is let through.  A str
    it takes has one [@] and no more. *)
Theorem check_email_format_texts (s : string) (errors : list string) :
  (check_email_format (VStr s) errors = Ok (true, errors) <-> email_text s)
  /\ (check_email_format (VStr s) errors
      = Ok (false, (errors ++ ["Invalid email format"])%list)
      <-> ~ email_text s)
  /\ (email_text s -> count_char "@" s = 1).
Proof.
  split; [|split; [|apply email_text_one_at]];
    unfold check_email_format; rewrite <- email_pattern_texts;
    destruct (Re.matches Re.email_pattern s); simpl; split;
    try reflexivity; try discriminate; congruence.
Qed.

Lemma check_email_format_texts_witness :
  check_email_format (VStr ("bob@example.com" ++ newline)) [] = Ok (true, [])
  /\ count_char "@" ("bob@example.com" ++ newline) = 1.
Proof.
  assert (H : email_text ("bob@example.com" ++ newline)).
  { exists "bob", "example", "com", newline.
    repeat split; try reflexivity; try discriminate.
    - simpl. lia.
    - right. reflexivity. }
  split.
  - exact (proj2 (proj1 (check_email_format_texts _ [])) H).
  - exact (proj2 (proj2 (check_email_format_texts _ [])) H).
Defined.
